(** * The toolhead motion coordinator of klippy/toolhead.py

    A shallow embedding of the [MoveQueue] and [ToolHead] classes and the
    properties of their lookahead queue, print-time clock and command
    handlers.

    Numbers.  Every time, position, velocity and acceleration of the
    source is a Python float.  They are embedded as exact rationals [Q]:
    [min], [max], [+], [-] and the comparisons are the rational ones, and
    "equal" between two computed numbers is [==].  Rounding, infinities
    and NaN are therefore outside the model.

    Collaborators.  The native planner [mymovie], the trapezoid queue of
    [chelper], the MCU clock estimate, the reactor constants and the
    kinematics are not part of toolhead.py.  They are gathered in the
    class [Extern]; the calls that only produce an effect outside the
    toolhead (step generators, MCU flushes, printer events, file writes)
    are recorded, in order, in the [events] trace of the state.

    Control.  A method is a function from the state to an outcome: a
    normal return, a raised exception, or a run cut off because one of
    its waiting loops ([reactor.pause], [completion.wait]) was resumed
    more often than [wakeups] allows, or the flush timer ran more often
    than that within one pause.  The loop of [_update_move_time] does not
    wait and is total. *)

From Stdlib Require Import QArith Qminmax Qround Qabs Lqa ZArith Lia.
From stdpp Require Import base list strings gmap.

Open Scope Q_scope.

(** ** Collaborators outside toolhead.py *)

Class Extern : Type := {
  (** hidden state of the native libraries (the planner's own move queue,
      the trapezoid queues) *)
  Native : Type;
  (** the object returned by [mymovie.PyMove()] and its one attribute read
      by toolhead.py *)
  Move : Type;
  min_move_t : Move -> Q;
  (** [mymovie.PyMove()]: reads the 14-slot buffer, answers with the
      return code it leaves in slot 13 and with the new move *)
  PyMove : Native -> list Q -> Native * (Q * Move);
  (** [mymovie.Py_move_queue_flush_cal(flush_count, lazy)] *)
  Py_move_queue_flush_cal : Native -> nat -> bool -> Native * nat;
  (** [mymovie.Py_move_queue_del(count)] *)
  Py_move_queue_del : Native -> nat -> Native;
  (** [mymovie.Py_set_extruder_info(extruder.info_array_addr_int)], for
      the extruder known by its name *)
  Py_set_extruder_info : Native -> string -> Native;
  (** [trapq_append_from_moveq(trapq, extruder.trapq, print_time, buf, n)]:
      answers [(next_move_time, extru_last_position)] *)
  trapq_append_from_moveq : Native -> Q -> nat -> Native * (Q * Q);
  (** [mcu.estimated_print_time(eventtime)] *)
  estimated_print_time : Q -> Q;
  (** [reactor.NEVER] and [reactor.NOW] *)
  NEVER : Q;
  NOW : Q;
  (** [math.sqrt(2.)] *)
  sqrt2 : Q;
  (** how many times the reactor resumes one waiting loop before the run
      is cut off; a loop that needs more ends in [Timeout] *)
  wakeups : nat
}.

(** Callbacks, step generators and MCUs are opaque: only their identity
    matters to the toolhead. *)
Definition Callback := nat.
Definition StepGen := nat.
Definition Mcu := nat.

(** A reactor completion, as the toolhead sees it: has it completed at a
    given reactor time? *)
Definition Completion := Q -> bool.

(** The command recorded by [cmd_M204] in the print file. *)
Inductive M204Cmd : Type :=
| M204_S (accel : Q)
| M204_P_T (p t : Q).

(** Effects on the collaborators, in the order the toolhead causes them. *)
Inductive Event : Type :=
| Ev_step_generator (sg : StepGen) (flush_time : Q)
| Ev_trapq_finalize_moves (free_time : Q)
| Ev_extruder_update_move_time (free_time : Q)
| Ev_mcu_flush_moves (m : Mcu) (flush_time : Q)
| Ev_sync_print_time (curtime est_print_time print_time : Q)
| Ev_send_event (name : string)
| Ev_callback (cb : Callback) (print_time : Q)
| Ev_Py_move_queue_flush_cal (flush_count : nat) (lazy : bool)
| Ev_Py_move_queue_del (count : nat)
| Ev_trapq_append_from_moveq (print_time : Q) (count : nat)
| Ev_trapq_set_position (print_time x y z : Q)
| Ev_kin_set_position (newpos : list Q) (homing_axes : list nat)
| Ev_write_z_pos (z : Q)
| Ev_respond_info (msg : string)
| Ev_record_M204 (cmd : M204Cmd)
| Ev_invoke_shutdown (msg : string)
| Ev_pause (waketime : Q)
| Ev_completion_wait (waketime : Q).

(** The payload of [printer.command_error]. *)
Inductive ErrMsg : Type :=
| ExtrudeBelowMinTemp
| MustHomeAxisFirst
| MoveOutOfRange (code_key : string) (ep : list Q)
| ExtrudeOnlyMoveTooLong
| MoveExceedsMaximumExtrusion.

Inductive Exn : Type :=
| command_error (m : ErrMsg)
| gcmd_error (param : string)
| DripModeEndSignal
| IndexError
| ValueError
| AttributeError
| ZeroDivisionError
| NameError (name : string).

(** What toolhead.py reads from the other printer objects. *)
Record Printer : Type := mkPrinter {
  all_mcus : list Mcu;
  kin_class_name : string;
  kin_status_for_record_z_pos : bool;
  kin_homed_axes : string;
  kin_limits : list (Q * Q);
  print_stats_state : option string;
  custom_macro_qmode_flag : bool;
  Qmode_section : option (Q * Q);
  print_file_exists : option bool
}.

Definition Qlt_bool (x y : Q) : bool := negb (Qle_bool y x).

Section ToolHead.

Context `{Extern}.

(** ** State of a [ToolHead] with its [MoveQueue]

    [queue] and [junction_flush] are the fields of [self.move_queue];
    [flush_timer] is the wake time last given to the reactor for
    [self.flush_timer]; [count_M204] and [print_stats_z_pos] are the
    attributes of [virtual_sdcard] and [print_stats] that toolhead.py
    writes; [reactor_now] is the value of [reactor.monotonic()]. *)

Record ToolHead : Type := mkToolHead {
  queue : list (Move * list Callback);
  junction_flush : Q;
  double_array : list Q;
  qmode_flag : bool;
  can_pause : bool;
  commanded_pos : list Q;
  max_velocity : Q;
  max_accel : Q;
  requested_accel_to_decel : Q;
  max_accel_to_decel : Q;
  square_corner_velocity : Q;
  square_corner_max_velocity : Q;
  junction_deviation : Q;
  buffer_time_low : Q;
  buffer_time_high : Q;
  buffer_time_start : Q;
  move_flush_time : Q;
  print_time : Q;
  special_queuing_state : string;
  need_check_stall : Q;
  flush_timer : Q;
  idle_flush_print_time : Q;
  print_stall : Z;
  drip_completion : option Completion;
  kin_flush_delay : Q;
  kin_flush_times : list Q;
  last_kin_flush_time : Q;
  last_kin_move_time : Q;
  step_generators : list StepGen;
  extruder_last_position : Q;
  z_pos : Q;
  G29_flag : bool;
  printer : Printer;
  count_M204 : Z;
  print_stats_z_pos : Q;
  native : Native;
  reactor_now : Q;
  events : list Event
}.

(** Field updates: [set_f v s] is [s] after [self.f = v]. *)

Definition set_queue (v : list (Move * list Callback)) (s : ToolHead)
    : ToolHead :=
  mkToolHead v (junction_flush s) (double_array s) (qmode_flag s)
   (can_pause s) (commanded_pos s) (max_velocity s) (max_accel s)
   (requested_accel_to_decel s) (max_accel_to_decel s)
   (square_corner_velocity s) (square_corner_max_velocity s)
   (junction_deviation s) (buffer_time_low s) (buffer_time_high s)
   (buffer_time_start s) (move_flush_time s) (print_time s)
   (special_queuing_state s) (need_check_stall s) (flush_timer s)
   (idle_flush_print_time s) (print_stall s) (drip_completion s)
   (kin_flush_delay s) (kin_flush_times s) (last_kin_flush_time s)
   (last_kin_move_time s) (step_generators s) (extruder_last_position s)
   (z_pos s) (G29_flag s) (printer s) (count_M204 s) (print_stats_z_pos s)
   (native s) (reactor_now s) (events s).
Definition set_junction_flush (v : Q) (s : ToolHead) : ToolHead :=
  mkToolHead (queue s) v (double_array s) (qmode_flag s) (can_pause s)
   (commanded_pos s) (max_velocity s) (max_accel s)
   (requested_accel_to_decel s) (max_accel_to_decel s)
   (square_corner_velocity s) (square_corner_max_velocity s)
   (junction_deviation s) (buffer_time_low s) (buffer_time_high s)
   (buffer_time_start s) (move_flush_time s) (print_time s)
   (special_queuing_state s) (need_check_stall s) (flush_timer s)
   (idle_flush_print_time s) (print_stall s) (drip_completion s)
   (kin_flush_delay s) (kin_flush_times s) (last_kin_flush_time s)
   (last_kin_move_time s) (step_generators s) (extruder_last_position s)
   (z_pos s) (G29_flag s) (printer s) (count_M204 s) (print_stats_z_pos s)
   (native s) (reactor_now s) (events s).
Definition set_double_array (v : list Q) (s : ToolHead) : ToolHead :=
  mkToolHead (queue s) (junction_flush s) v (qmode_flag s) (can_pause s)
   (commanded_pos s) (max_velocity s) (max_accel s)
   (requested_accel_to_decel s) (max_accel_to_decel s)
   (square_corner_velocity s) (square_corner_max_velocity s)
   (junction_deviation s) (buffer_time_low s) (buffer_time_high s)
   (buffer_time_start s) (move_flush_time s) (print_time s)
   (special_queuing_state s) (need_check_stall s) (flush_timer s)
   (idle_flush_print_time s) (print_stall s) (drip_completion s)
   (kin_flush_delay s) (kin_flush_times s) (last_kin_flush_time s)
   (last_kin_move_time s) (step_generators s) (extruder_last_position s)
   (z_pos s) (G29_flag s) (printer s) (count_M204 s) (print_stats_z_pos s)
   (native s) (reactor_now s) (events s).
Definition set_qmode_flag (v : bool) (s : ToolHead) : ToolHead :=
  mkToolHead (queue s) (junction_flush s) (double_array s) v (can_pause s)
   (commanded_pos s) (max_velocity s) (max_accel s)
   (requested_accel_to_decel s) (max_accel_to_decel s)
   (square_corner_velocity s) (square_corner_max_velocity s)
   (junction_deviation s) (buffer_time_low s) (buffer_time_high s)
   (buffer_time_start s) (move_flush_time s) (print_time s)
   (special_queuing_state s) (need_check_stall s) (flush_timer s)
   (idle_flush_print_time s) (print_stall s) (drip_completion s)
   (kin_flush_delay s) (kin_flush_times s) (last_kin_flush_time s)
   (last_kin_move_time s) (step_generators s) (extruder_last_position s)
   (z_pos s) (G29_flag s) (printer s) (count_M204 s) (print_stats_z_pos s)
   (native s) (reactor_now s) (events s).
Definition set_can_pause (v : bool) (s : ToolHead) : ToolHead :=
  mkToolHead (queue s) (junction_flush s) (double_array s) (qmode_flag s)
   v (commanded_pos s) (max_velocity s) (max_accel s)
   (requested_accel_to_decel s) (max_accel_to_decel s)
   (square_corner_velocity s) (square_corner_max_velocity s)
   (junction_deviation s) (buffer_time_low s) (buffer_time_high s)
   (buffer_time_start s) (move_flush_time s) (print_time s)
   (special_queuing_state s) (need_check_stall s) (flush_timer s)
   (idle_flush_print_time s) (print_stall s) (drip_completion s)
   (kin_flush_delay s) (kin_flush_times s) (last_kin_flush_time s)
   (last_kin_move_time s) (step_generators s) (extruder_last_position s)
   (z_pos s) (G29_flag s) (printer s) (count_M204 s) (print_stats_z_pos s)
   (native s) (reactor_now s) (events s).
Definition set_commanded_pos (v : list Q) (s : ToolHead) : ToolHead :=
  mkToolHead (queue s) (junction_flush s) (double_array s) (qmode_flag s)
   (can_pause s) v (max_velocity s) (max_accel s)
   (requested_accel_to_decel s) (max_accel_to_decel s)
   (square_corner_velocity s) (square_corner_max_velocity s)
   (junction_deviation s) (buffer_time_low s) (buffer_time_high s)
   (buffer_time_start s) (move_flush_time s) (print_time s)
   (special_queuing_state s) (need_check_stall s) (flush_timer s)
   (idle_flush_print_time s) (print_stall s) (drip_completion s)
   (kin_flush_delay s) (kin_flush_times s) (last_kin_flush_time s)
   (last_kin_move_time s) (step_generators s) (extruder_last_position s)
   (z_pos s) (G29_flag s) (printer s) (count_M204 s) (print_stats_z_pos s)
   (native s) (reactor_now s) (events s).
Definition set_max_velocity (v : Q) (s : ToolHead) : ToolHead :=
  mkToolHead (queue s) (junction_flush s) (double_array s) (qmode_flag s)
   (can_pause s) (commanded_pos s) v (max_accel s)
   (requested_accel_to_decel s) (max_accel_to_decel s)
   (square_corner_velocity s) (square_corner_max_velocity s)
   (junction_deviation s) (buffer_time_low s) (buffer_time_high s)
   (buffer_time_start s) (move_flush_time s) (print_time s)
   (special_queuing_state s) (need_check_stall s) (flush_timer s)
   (idle_flush_print_time s) (print_stall s) (drip_completion s)
   (kin_flush_delay s) (kin_flush_times s) (last_kin_flush_time s)
   (last_kin_move_time s) (step_generators s) (extruder_last_position s)
   (z_pos s) (G29_flag s) (printer s) (count_M204 s) (print_stats_z_pos s)
   (native s) (reactor_now s) (events s).
Definition set_max_accel (v : Q) (s : ToolHead) : ToolHead :=
  mkToolHead (queue s) (junction_flush s) (double_array s) (qmode_flag s)
   (can_pause s) (commanded_pos s) (max_velocity s) v
   (requested_accel_to_decel s) (max_accel_to_decel s)
   (square_corner_velocity s) (square_corner_max_velocity s)
   (junction_deviation s) (buffer_time_low s) (buffer_time_high s)
   (buffer_time_start s) (move_flush_time s) (print_time s)
   (special_queuing_state s) (need_check_stall s) (flush_timer s)
   (idle_flush_print_time s) (print_stall s) (drip_completion s)
   (kin_flush_delay s) (kin_flush_times s) (last_kin_flush_time s)
   (last_kin_move_time s) (step_generators s) (extruder_last_position s)
   (z_pos s) (G29_flag s) (printer s) (count_M204 s) (print_stats_z_pos s)
   (native s) (reactor_now s) (events s).
Definition set_requested_accel_to_decel (v : Q) (s : ToolHead) : ToolHead :=
  mkToolHead (queue s) (junction_flush s) (double_array s) (qmode_flag s)
   (can_pause s) (commanded_pos s) (max_velocity s) (max_accel s) v
   (max_accel_to_decel s) (square_corner_velocity s)
   (square_corner_max_velocity s) (junction_deviation s) (buffer_time_low
   s) (buffer_time_high s) (buffer_time_start s) (move_flush_time s)
   (print_time s) (special_queuing_state s) (need_check_stall s)
   (flush_timer s) (idle_flush_print_time s) (print_stall s)
   (drip_completion s) (kin_flush_delay s) (kin_flush_times s)
   (last_kin_flush_time s) (last_kin_move_time s) (step_generators s)
   (extruder_last_position s) (z_pos s) (G29_flag s) (printer s)
   (count_M204 s) (print_stats_z_pos s) (native s) (reactor_now s) (events
   s).
Definition set_max_accel_to_decel (v : Q) (s : ToolHead) : ToolHead :=
  mkToolHead (queue s) (junction_flush s) (double_array s) (qmode_flag s)
   (can_pause s) (commanded_pos s) (max_velocity s) (max_accel s)
   (requested_accel_to_decel s) v (square_corner_velocity s)
   (square_corner_max_velocity s) (junction_deviation s) (buffer_time_low
   s) (buffer_time_high s) (buffer_time_start s) (move_flush_time s)
   (print_time s) (special_queuing_state s) (need_check_stall s)
   (flush_timer s) (idle_flush_print_time s) (print_stall s)
   (drip_completion s) (kin_flush_delay s) (kin_flush_times s)
   (last_kin_flush_time s) (last_kin_move_time s) (step_generators s)
   (extruder_last_position s) (z_pos s) (G29_flag s) (printer s)
   (count_M204 s) (print_stats_z_pos s) (native s) (reactor_now s) (events
   s).
Definition set_square_corner_velocity (v : Q) (s : ToolHead) : ToolHead :=
  mkToolHead (queue s) (junction_flush s) (double_array s) (qmode_flag s)
   (can_pause s) (commanded_pos s) (max_velocity s) (max_accel s)
   (requested_accel_to_decel s) (max_accel_to_decel s) v
   (square_corner_max_velocity s) (junction_deviation s) (buffer_time_low
   s) (buffer_time_high s) (buffer_time_start s) (move_flush_time s)
   (print_time s) (special_queuing_state s) (need_check_stall s)
   (flush_timer s) (idle_flush_print_time s) (print_stall s)
   (drip_completion s) (kin_flush_delay s) (kin_flush_times s)
   (last_kin_flush_time s) (last_kin_move_time s) (step_generators s)
   (extruder_last_position s) (z_pos s) (G29_flag s) (printer s)
   (count_M204 s) (print_stats_z_pos s) (native s) (reactor_now s) (events
   s).
Definition set_junction_deviation (v : Q) (s : ToolHead) : ToolHead :=
  mkToolHead (queue s) (junction_flush s) (double_array s) (qmode_flag s)
   (can_pause s) (commanded_pos s) (max_velocity s) (max_accel s)
   (requested_accel_to_decel s) (max_accel_to_decel s)
   (square_corner_velocity s) (square_corner_max_velocity s) v
   (buffer_time_low s) (buffer_time_high s) (buffer_time_start s)
   (move_flush_time s) (print_time s) (special_queuing_state s)
   (need_check_stall s) (flush_timer s) (idle_flush_print_time s)
   (print_stall s) (drip_completion s) (kin_flush_delay s)
   (kin_flush_times s) (last_kin_flush_time s) (last_kin_move_time s)
   (step_generators s) (extruder_last_position s) (z_pos s) (G29_flag s)
   (printer s) (count_M204 s) (print_stats_z_pos s) (native s)
   (reactor_now s) (events s).
Definition set_print_time (v : Q) (s : ToolHead) : ToolHead :=
  mkToolHead (queue s) (junction_flush s) (double_array s) (qmode_flag s)
   (can_pause s) (commanded_pos s) (max_velocity s) (max_accel s)
   (requested_accel_to_decel s) (max_accel_to_decel s)
   (square_corner_velocity s) (square_corner_max_velocity s)
   (junction_deviation s) (buffer_time_low s) (buffer_time_high s)
   (buffer_time_start s) (move_flush_time s) v (special_queuing_state s)
   (need_check_stall s) (flush_timer s) (idle_flush_print_time s)
   (print_stall s) (drip_completion s) (kin_flush_delay s)
   (kin_flush_times s) (last_kin_flush_time s) (last_kin_move_time s)
   (step_generators s) (extruder_last_position s) (z_pos s) (G29_flag s)
   (printer s) (count_M204 s) (print_stats_z_pos s) (native s)
   (reactor_now s) (events s).
Definition set_special_queuing_state (v : string) (s : ToolHead) : ToolHead :=
  mkToolHead (queue s) (junction_flush s) (double_array s) (qmode_flag s)
   (can_pause s) (commanded_pos s) (max_velocity s) (max_accel s)
   (requested_accel_to_decel s) (max_accel_to_decel s)
   (square_corner_velocity s) (square_corner_max_velocity s)
   (junction_deviation s) (buffer_time_low s) (buffer_time_high s)
   (buffer_time_start s) (move_flush_time s) (print_time s) v
   (need_check_stall s) (flush_timer s) (idle_flush_print_time s)
   (print_stall s) (drip_completion s) (kin_flush_delay s)
   (kin_flush_times s) (last_kin_flush_time s) (last_kin_move_time s)
   (step_generators s) (extruder_last_position s) (z_pos s) (G29_flag s)
   (printer s) (count_M204 s) (print_stats_z_pos s) (native s)
   (reactor_now s) (events s).
Definition set_need_check_stall (v : Q) (s : ToolHead) : ToolHead :=
  mkToolHead (queue s) (junction_flush s) (double_array s) (qmode_flag s)
   (can_pause s) (commanded_pos s) (max_velocity s) (max_accel s)
   (requested_accel_to_decel s) (max_accel_to_decel s)
   (square_corner_velocity s) (square_corner_max_velocity s)
   (junction_deviation s) (buffer_time_low s) (buffer_time_high s)
   (buffer_time_start s) (move_flush_time s) (print_time s)
   (special_queuing_state s) v (flush_timer s) (idle_flush_print_time s)
   (print_stall s) (drip_completion s) (kin_flush_delay s)
   (kin_flush_times s) (last_kin_flush_time s) (last_kin_move_time s)
   (step_generators s) (extruder_last_position s) (z_pos s) (G29_flag s)
   (printer s) (count_M204 s) (print_stats_z_pos s) (native s)
   (reactor_now s) (events s).
Definition set_flush_timer (v : Q) (s : ToolHead) : ToolHead :=
  mkToolHead (queue s) (junction_flush s) (double_array s) (qmode_flag s)
   (can_pause s) (commanded_pos s) (max_velocity s) (max_accel s)
   (requested_accel_to_decel s) (max_accel_to_decel s)
   (square_corner_velocity s) (square_corner_max_velocity s)
   (junction_deviation s) (buffer_time_low s) (buffer_time_high s)
   (buffer_time_start s) (move_flush_time s) (print_time s)
   (special_queuing_state s) (need_check_stall s) v (idle_flush_print_time
   s) (print_stall s) (drip_completion s) (kin_flush_delay s)
   (kin_flush_times s) (last_kin_flush_time s) (last_kin_move_time s)
   (step_generators s) (extruder_last_position s) (z_pos s) (G29_flag s)
   (printer s) (count_M204 s) (print_stats_z_pos s) (native s)
   (reactor_now s) (events s).
Definition set_idle_flush_print_time (v : Q) (s : ToolHead) : ToolHead :=
  mkToolHead (queue s) (junction_flush s) (double_array s) (qmode_flag s)
   (can_pause s) (commanded_pos s) (max_velocity s) (max_accel s)
   (requested_accel_to_decel s) (max_accel_to_decel s)
   (square_corner_velocity s) (square_corner_max_velocity s)
   (junction_deviation s) (buffer_time_low s) (buffer_time_high s)
   (buffer_time_start s) (move_flush_time s) (print_time s)
   (special_queuing_state s) (need_check_stall s) (flush_timer s) v
   (print_stall s) (drip_completion s) (kin_flush_delay s)
   (kin_flush_times s) (last_kin_flush_time s) (last_kin_move_time s)
   (step_generators s) (extruder_last_position s) (z_pos s) (G29_flag s)
   (printer s) (count_M204 s) (print_stats_z_pos s) (native s)
   (reactor_now s) (events s).
Definition set_print_stall (v : Z) (s : ToolHead) : ToolHead :=
  mkToolHead (queue s) (junction_flush s) (double_array s) (qmode_flag s)
   (can_pause s) (commanded_pos s) (max_velocity s) (max_accel s)
   (requested_accel_to_decel s) (max_accel_to_decel s)
   (square_corner_velocity s) (square_corner_max_velocity s)
   (junction_deviation s) (buffer_time_low s) (buffer_time_high s)
   (buffer_time_start s) (move_flush_time s) (print_time s)
   (special_queuing_state s) (need_check_stall s) (flush_timer s)
   (idle_flush_print_time s) v (drip_completion s) (kin_flush_delay s)
   (kin_flush_times s) (last_kin_flush_time s) (last_kin_move_time s)
   (step_generators s) (extruder_last_position s) (z_pos s) (G29_flag s)
   (printer s) (count_M204 s) (print_stats_z_pos s) (native s)
   (reactor_now s) (events s).
Definition set_drip_completion (v : option Completion) (s : ToolHead) : ToolHead :=
  mkToolHead (queue s) (junction_flush s) (double_array s) (qmode_flag s)
   (can_pause s) (commanded_pos s) (max_velocity s) (max_accel s)
   (requested_accel_to_decel s) (max_accel_to_decel s)
   (square_corner_velocity s) (square_corner_max_velocity s)
   (junction_deviation s) (buffer_time_low s) (buffer_time_high s)
   (buffer_time_start s) (move_flush_time s) (print_time s)
   (special_queuing_state s) (need_check_stall s) (flush_timer s)
   (idle_flush_print_time s) (print_stall s) v (kin_flush_delay s)
   (kin_flush_times s) (last_kin_flush_time s) (last_kin_move_time s)
   (step_generators s) (extruder_last_position s) (z_pos s) (G29_flag s)
   (printer s) (count_M204 s) (print_stats_z_pos s) (native s)
   (reactor_now s) (events s).
Definition set_kin_flush_delay (v : Q) (s : ToolHead) : ToolHead :=
  mkToolHead (queue s) (junction_flush s) (double_array s) (qmode_flag s)
   (can_pause s) (commanded_pos s) (max_velocity s) (max_accel s)
   (requested_accel_to_decel s) (max_accel_to_decel s)
   (square_corner_velocity s) (square_corner_max_velocity s)
   (junction_deviation s) (buffer_time_low s) (buffer_time_high s)
   (buffer_time_start s) (move_flush_time s) (print_time s)
   (special_queuing_state s) (need_check_stall s) (flush_timer s)
   (idle_flush_print_time s) (print_stall s) (drip_completion s) v
   (kin_flush_times s) (last_kin_flush_time s) (last_kin_move_time s)
   (step_generators s) (extruder_last_position s) (z_pos s) (G29_flag s)
   (printer s) (count_M204 s) (print_stats_z_pos s) (native s)
   (reactor_now s) (events s).
Definition set_kin_flush_times (v : list Q) (s : ToolHead) : ToolHead :=
  mkToolHead (queue s) (junction_flush s) (double_array s) (qmode_flag s)
   (can_pause s) (commanded_pos s) (max_velocity s) (max_accel s)
   (requested_accel_to_decel s) (max_accel_to_decel s)
   (square_corner_velocity s) (square_corner_max_velocity s)
   (junction_deviation s) (buffer_time_low s) (buffer_time_high s)
   (buffer_time_start s) (move_flush_time s) (print_time s)
   (special_queuing_state s) (need_check_stall s) (flush_timer s)
   (idle_flush_print_time s) (print_stall s) (drip_completion s)
   (kin_flush_delay s) v (last_kin_flush_time s) (last_kin_move_time s)
   (step_generators s) (extruder_last_position s) (z_pos s) (G29_flag s)
   (printer s) (count_M204 s) (print_stats_z_pos s) (native s)
   (reactor_now s) (events s).
Definition set_last_kin_flush_time (v : Q) (s : ToolHead) : ToolHead :=
  mkToolHead (queue s) (junction_flush s) (double_array s) (qmode_flag s)
   (can_pause s) (commanded_pos s) (max_velocity s) (max_accel s)
   (requested_accel_to_decel s) (max_accel_to_decel s)
   (square_corner_velocity s) (square_corner_max_velocity s)
   (junction_deviation s) (buffer_time_low s) (buffer_time_high s)
   (buffer_time_start s) (move_flush_time s) (print_time s)
   (special_queuing_state s) (need_check_stall s) (flush_timer s)
   (idle_flush_print_time s) (print_stall s) (drip_completion s)
   (kin_flush_delay s) (kin_flush_times s) v (last_kin_move_time s)
   (step_generators s) (extruder_last_position s) (z_pos s) (G29_flag s)
   (printer s) (count_M204 s) (print_stats_z_pos s) (native s)
   (reactor_now s) (events s).
Definition set_last_kin_move_time (v : Q) (s : ToolHead) : ToolHead :=
  mkToolHead (queue s) (junction_flush s) (double_array s) (qmode_flag s)
   (can_pause s) (commanded_pos s) (max_velocity s) (max_accel s)
   (requested_accel_to_decel s) (max_accel_to_decel s)
   (square_corner_velocity s) (square_corner_max_velocity s)
   (junction_deviation s) (buffer_time_low s) (buffer_time_high s)
   (buffer_time_start s) (move_flush_time s) (print_time s)
   (special_queuing_state s) (need_check_stall s) (flush_timer s)
   (idle_flush_print_time s) (print_stall s) (drip_completion s)
   (kin_flush_delay s) (kin_flush_times s) (last_kin_flush_time s) v
   (step_generators s) (extruder_last_position s) (z_pos s) (G29_flag s)
   (printer s) (count_M204 s) (print_stats_z_pos s) (native s)
   (reactor_now s) (events s).
Definition set_step_generators (v : list StepGen) (s : ToolHead) : ToolHead :=
  mkToolHead (queue s) (junction_flush s) (double_array s) (qmode_flag s)
   (can_pause s) (commanded_pos s) (max_velocity s) (max_accel s)
   (requested_accel_to_decel s) (max_accel_to_decel s)
   (square_corner_velocity s) (square_corner_max_velocity s)
   (junction_deviation s) (buffer_time_low s) (buffer_time_high s)
   (buffer_time_start s) (move_flush_time s) (print_time s)
   (special_queuing_state s) (need_check_stall s) (flush_timer s)
   (idle_flush_print_time s) (print_stall s) (drip_completion s)
   (kin_flush_delay s) (kin_flush_times s) (last_kin_flush_time s)
   (last_kin_move_time s) v (extruder_last_position s) (z_pos s) (G29_flag
   s) (printer s) (count_M204 s) (print_stats_z_pos s) (native s)
   (reactor_now s) (events s).
Definition set_extruder_last_position (v : Q) (s : ToolHead) : ToolHead :=
  mkToolHead (queue s) (junction_flush s) (double_array s) (qmode_flag s)
   (can_pause s) (commanded_pos s) (max_velocity s) (max_accel s)
   (requested_accel_to_decel s) (max_accel_to_decel s)
   (square_corner_velocity s) (square_corner_max_velocity s)
   (junction_deviation s) (buffer_time_low s) (buffer_time_high s)
   (buffer_time_start s) (move_flush_time s) (print_time s)
   (special_queuing_state s) (need_check_stall s) (flush_timer s)
   (idle_flush_print_time s) (print_stall s) (drip_completion s)
   (kin_flush_delay s) (kin_flush_times s) (last_kin_flush_time s)
   (last_kin_move_time s) (step_generators s) v (z_pos s) (G29_flag s)
   (printer s) (count_M204 s) (print_stats_z_pos s) (native s)
   (reactor_now s) (events s).
Definition set_z_pos (v : Q) (s : ToolHead) : ToolHead :=
  mkToolHead (queue s) (junction_flush s) (double_array s) (qmode_flag s)
   (can_pause s) (commanded_pos s) (max_velocity s) (max_accel s)
   (requested_accel_to_decel s) (max_accel_to_decel s)
   (square_corner_velocity s) (square_corner_max_velocity s)
   (junction_deviation s) (buffer_time_low s) (buffer_time_high s)
   (buffer_time_start s) (move_flush_time s) (print_time s)
   (special_queuing_state s) (need_check_stall s) (flush_timer s)
   (idle_flush_print_time s) (print_stall s) (drip_completion s)
   (kin_flush_delay s) (kin_flush_times s) (last_kin_flush_time s)
   (last_kin_move_time s) (step_generators s) (extruder_last_position s) v
   (G29_flag s) (printer s) (count_M204 s) (print_stats_z_pos s) (native
   s) (reactor_now s) (events s).
Definition set_G29_flag (v : bool) (s : ToolHead) : ToolHead :=
  mkToolHead (queue s) (junction_flush s) (double_array s) (qmode_flag s)
   (can_pause s) (commanded_pos s) (max_velocity s) (max_accel s)
   (requested_accel_to_decel s) (max_accel_to_decel s)
   (square_corner_velocity s) (square_corner_max_velocity s)
   (junction_deviation s) (buffer_time_low s) (buffer_time_high s)
   (buffer_time_start s) (move_flush_time s) (print_time s)
   (special_queuing_state s) (need_check_stall s) (flush_timer s)
   (idle_flush_print_time s) (print_stall s) (drip_completion s)
   (kin_flush_delay s) (kin_flush_times s) (last_kin_flush_time s)
   (last_kin_move_time s) (step_generators s) (extruder_last_position s)
   (z_pos s) v (printer s) (count_M204 s) (print_stats_z_pos s) (native s)
   (reactor_now s) (events s).
Definition set_printer (v : Printer) (s : ToolHead) : ToolHead :=
  mkToolHead (queue s) (junction_flush s) (double_array s) (qmode_flag s)
   (can_pause s) (commanded_pos s) (max_velocity s) (max_accel s)
   (requested_accel_to_decel s) (max_accel_to_decel s)
   (square_corner_velocity s) (square_corner_max_velocity s)
   (junction_deviation s) (buffer_time_low s) (buffer_time_high s)
   (buffer_time_start s) (move_flush_time s) (print_time s)
   (special_queuing_state s) (need_check_stall s) (flush_timer s)
   (idle_flush_print_time s) (print_stall s) (drip_completion s)
   (kin_flush_delay s) (kin_flush_times s) (last_kin_flush_time s)
   (last_kin_move_time s) (step_generators s) (extruder_last_position s)
   (z_pos s) (G29_flag s) v (count_M204 s) (print_stats_z_pos s) (native
   s) (reactor_now s) (events s).
Definition set_count_M204 (v : Z) (s : ToolHead) : ToolHead :=
  mkToolHead (queue s) (junction_flush s) (double_array s) (qmode_flag s)
   (can_pause s) (commanded_pos s) (max_velocity s) (max_accel s)
   (requested_accel_to_decel s) (max_accel_to_decel s)
   (square_corner_velocity s) (square_corner_max_velocity s)
   (junction_deviation s) (buffer_time_low s) (buffer_time_high s)
   (buffer_time_start s) (move_flush_time s) (print_time s)
   (special_queuing_state s) (need_check_stall s) (flush_timer s)
   (idle_flush_print_time s) (print_stall s) (drip_completion s)
   (kin_flush_delay s) (kin_flush_times s) (last_kin_flush_time s)
   (last_kin_move_time s) (step_generators s) (extruder_last_position s)
   (z_pos s) (G29_flag s) (printer s) v (print_stats_z_pos s) (native s)
   (reactor_now s) (events s).
Definition set_print_stats_z_pos (v : Q) (s : ToolHead) : ToolHead :=
  mkToolHead (queue s) (junction_flush s) (double_array s) (qmode_flag s)
   (can_pause s) (commanded_pos s) (max_velocity s) (max_accel s)
   (requested_accel_to_decel s) (max_accel_to_decel s)
   (square_corner_velocity s) (square_corner_max_velocity s)
   (junction_deviation s) (buffer_time_low s) (buffer_time_high s)
   (buffer_time_start s) (move_flush_time s) (print_time s)
   (special_queuing_state s) (need_check_stall s) (flush_timer s)
   (idle_flush_print_time s) (print_stall s) (drip_completion s)
   (kin_flush_delay s) (kin_flush_times s) (last_kin_flush_time s)
   (last_kin_move_time s) (step_generators s) (extruder_last_position s)
   (z_pos s) (G29_flag s) (printer s) (count_M204 s) v (native s)
   (reactor_now s) (events s).
Definition set_native (v : Native) (s : ToolHead) : ToolHead :=
  mkToolHead (queue s) (junction_flush s) (double_array s) (qmode_flag s)
   (can_pause s) (commanded_pos s) (max_velocity s) (max_accel s)
   (requested_accel_to_decel s) (max_accel_to_decel s)
   (square_corner_velocity s) (square_corner_max_velocity s)
   (junction_deviation s) (buffer_time_low s) (buffer_time_high s)
   (buffer_time_start s) (move_flush_time s) (print_time s)
   (special_queuing_state s) (need_check_stall s) (flush_timer s)
   (idle_flush_print_time s) (print_stall s) (drip_completion s)
   (kin_flush_delay s) (kin_flush_times s) (last_kin_flush_time s)
   (last_kin_move_time s) (step_generators s) (extruder_last_position s)
   (z_pos s) (G29_flag s) (printer s) (count_M204 s) (print_stats_z_pos s)
   v (reactor_now s) (events s).
Definition set_reactor_now (v : Q) (s : ToolHead) : ToolHead :=
  mkToolHead (queue s) (junction_flush s) (double_array s) (qmode_flag s)
   (can_pause s) (commanded_pos s) (max_velocity s) (max_accel s)
   (requested_accel_to_decel s) (max_accel_to_decel s)
   (square_corner_velocity s) (square_corner_max_velocity s)
   (junction_deviation s) (buffer_time_low s) (buffer_time_high s)
   (buffer_time_start s) (move_flush_time s) (print_time s)
   (special_queuing_state s) (need_check_stall s) (flush_timer s)
   (idle_flush_print_time s) (print_stall s) (drip_completion s)
   (kin_flush_delay s) (kin_flush_times s) (last_kin_flush_time s)
   (last_kin_move_time s) (step_generators s) (extruder_last_position s)
   (z_pos s) (G29_flag s) (printer s) (count_M204 s) (print_stats_z_pos s)
   (native s) v (events s).
Definition set_events (v : list Event) (s : ToolHead) : ToolHead :=
  mkToolHead (queue s) (junction_flush s) (double_array s) (qmode_flag s)
   (can_pause s) (commanded_pos s) (max_velocity s) (max_accel s)
   (requested_accel_to_decel s) (max_accel_to_decel s)
   (square_corner_velocity s) (square_corner_max_velocity s)
   (junction_deviation s) (buffer_time_low s) (buffer_time_high s)
   (buffer_time_start s) (move_flush_time s) (print_time s)
   (special_queuing_state s) (need_check_stall s) (flush_timer s)
   (idle_flush_print_time s) (print_stall s) (drip_completion s)
   (kin_flush_delay s) (kin_flush_times s) (last_kin_flush_time s)
   (last_kin_move_time s) (step_generators s) (extruder_last_position s)
   (z_pos s) (G29_flag s) (printer s) (count_M204 s) (print_stats_z_pos s)
   (native s) (reactor_now s) v.

(** ** Outcomes and sequencing

    Python mutates [self] in place, so the state reached so far survives
    an exception: every outcome carries a state. *)

Inductive Res (A : Type) : Type :=
| Ok (a : A) (s : ToolHead)
| Raise (e : Exn) (s : ToolHead)
| Timeout (s : ToolHead).
Arguments Ok {A} a s.
Arguments Raise {A} e s.
Arguments Timeout {A} s.

Definition M (A : Type) : Type := ToolHead -> Res A.

Definition ret {A} (a : A) : M A := fun s => Ok a s.

Definition bind {A B} (m : M A) (f : A -> M B) : M B :=
  fun s => match m s with
           | Ok a s' => f a s'
           | Raise e s' => Raise e s'
           | Timeout s' => Timeout s'
           end.

Definition raise {A} (e : Exn) : M A := fun s => Raise e s.
Definition timeout {A} : M A := fun s => Timeout s.
Definition gets {A} (f : ToolHead -> A) : M A := fun s => Ok (f s) s.
Definition modify (f : ToolHead -> ToolHead) : M unit := fun s => Ok tt (f s).

(** [try: m except e: h e], for the exceptions [h] handles. *)
Definition try_except {A} (m : M A) (h : Exn -> option (M A)) : M A :=
  fun s => match m s with
           | Raise e s' => match h e with
                           | Some k => k s'
                           | None => Raise e s'
                           end
           | r => r
           end.

Notation "x <- m ;; k" := (bind m (fun x => k))
  (at level 100, m at next level, right associativity).
Notation "m ;; k" := (bind m (fun _ => k))
  (at level 100, right associativity).

(** The state an outcome leaves behind. *)
Definition st {A} (r : Res A) : ToolHead :=
  match r with Ok _ s | Raise _ s | Timeout s => s end.

Definition log (e : Event) (s : ToolHead) : ToolHead :=
  set_events (events s ++ [e]) s.
Definition log_all (es : list Event) (s : ToolHead) : ToolHead :=
  set_events (events s ++ es) s.
Definition emit (e : Event) : M unit := modify (log e).

(** A call into the native libraries. *)
Definition call_native {A} (f : Native -> Native * A) : M A :=
  fun s => let r := f (native s) in Ok (snd r) (set_native (fst r) s).

(** [l[i]] on a Python list or numpy array. *)
Definition index (l : list Q) (i : nat) : M Q :=
  match l !! i with
  | Some v => ret v
  | None => raise IndexError
  end.

(** [self.double_array[i] = v]. *)
Definition da_store (i : nat) (v : Q) : M unit :=
  da <- gets double_array ;;
  if (i <? length da)%nat
  then modify (set_double_array (<[i:=v]> da))
  else raise IndexError.

(** Truth value of a Python string and of a Python float. *)
Definition str_true (x : string) : bool := negb (String.eqb x "").
Definition float_true (x : Q) : bool := negb (Qeq_bool x 0).

(** ** Constants of the module *)

Definition LOOKAHEAD_FLUSH_TIME : Q := 0.250.
Definition MIN_KIN_TIME : Q := 0.100.
Definition MOVE_BATCH_TIME : Q := 0.500.
Definition SDS_CHECK_TIME : Q := 0.001.
Definition DRIP_SEGMENT_TIME : Q := 0.050.
Definition DRIP_TIME : Q := 0.100.

(** ** Print time tracking *)

(** One pass through the body of the [while 1:] loop of
    [_update_move_time]; [kin_flush_delay] and [lkft] are the locals read
    before the loop. *)
Definition update_move_time_body (next_print_time kin_flush_delay lkft : Q)
    (s : ToolHead) : ToolHead :=
  let batch_time := MOVE_BATCH_TIME in
  let s := set_print_time
             (Qmin (print_time s + batch_time) next_print_time) s in
  let sg_flush_time := Qmax lkft (print_time s - kin_flush_delay) in
  let s := log_all (map (fun sg => Ev_step_generator sg sg_flush_time)
                        (step_generators s)) s in
  let free_time := Qmax lkft (sg_flush_time - kin_flush_delay) in
  let s := log (Ev_trapq_finalize_moves free_time) s in
  let s := log (Ev_extruder_update_move_time free_time) s in
  let mcu_flush_time := Qmax lkft (sg_flush_time - move_flush_time s) in
  log_all (map (fun m => Ev_mcu_flush_moves m mcu_flush_time)
               (all_mcus (printer s))) s.

(** The loop: after each pass, [if self.print_time >= next_print_time:
    break].  [n] bounds the number of further passes. *)
Fixpoint update_move_time_loop (n : nat)
    (next_print_time kin_flush_delay lkft : Q) (s : ToolHead) : ToolHead :=
  let s := update_move_time_body next_print_time kin_flush_delay lkft s in
  if Qle_bool next_print_time (print_time s) then s
  else match n with
       | O => s
       | S n' =>
           update_move_time_loop n' next_print_time kin_flush_delay lkft s
       end.

(** Each pass but the last advances [print_time] by [MOVE_BATCH_TIME], so
    this many further passes are enough ([update_move_time_reaches] shows
    the loop leaves through its [break]). *)
Definition update_move_time_passes (next_print_time : Q) (s : ToolHead)
    : nat :=
  Z.to_nat (Qceiling ((next_print_time - print_time s) / MOVE_BATCH_TIME)).

Definition _update_move_time (next_print_time : Q) (s : ToolHead)
    : ToolHead :=
  update_move_time_loop (update_move_time_passes next_print_time s)
    next_print_time (kin_flush_delay s) (last_kin_flush_time s) s.

(** The value [_calc_print_time] compares [print_time] with. *)
Definition min_print_time (s : ToolHead) : Q :=
  let curtime := reactor_now s in
  let est_print_time := estimated_print_time curtime in
  let kin_time := Qmax (est_print_time + MIN_KIN_TIME)
                       (last_kin_flush_time s) in
  let kin_time := kin_time + kin_flush_delay s in
  Qmax (est_print_time + buffer_time_start s) kin_time.

Definition _calc_print_time (s : ToolHead) : ToolHead :=
  let curtime := reactor_now s in
  let est_print_time := estimated_print_time curtime in
  let min_print_time := min_print_time s in
  if Qlt_bool (print_time s) min_print_time
  then log (Ev_sync_print_time curtime est_print_time min_print_time)
           (set_print_time min_print_time s)
  else s.

(** ** Homing "drip move" time stepping *)

(** [drip_completion.wait(waketime)] hands control to the reactor until
    [waketime].  It is reached from [_process_moves] in the "Drip" state
    only, which [drip_move] enters with the flush timer switched off; the
    model runs no timer during this wait. *)
Definition completion_wait (waketime : Q) : M unit :=
  modify (fun s => log (Ev_completion_wait waketime)
                       (set_reactor_now waketime s)).

(** One pass through the body of the [while] loop of
    [_update_drip_move_time]. *)
Definition update_drip_move_time_body (next_print_time flush_delay : Q)
    : M unit :=
  dc <- gets drip_completion ;;
  match dc with
  | None => raise AttributeError
  | Some completion =>
      curtime <- gets reactor_now ;;
      if completion curtime then raise DripModeEndSignal else
      let est_print_time := estimated_print_time curtime in
      pt <- gets print_time ;;
      let wait_time := pt - est_print_time - flush_delay in
      cp <- gets can_pause ;;
      if Qlt_bool 0 wait_time && cp
      then completion_wait (curtime + wait_time)
      else let npt := Qmin (pt + DRIP_SEGMENT_TIME) next_print_time in
           modify (_update_move_time npt)
  end.

Fixpoint update_drip_move_time_loop (n : nat)
    (next_print_time flush_delay : Q) : M unit :=
  pt <- gets print_time ;;
  if Qlt_bool pt next_print_time then
    match n with
    | O => timeout
    | S n' =>
        update_drip_move_time_body next_print_time flush_delay ;;
        update_drip_move_time_loop n' next_print_time flush_delay
    end
  else ret tt.

Definition _update_drip_move_time (next_print_time : Q) : M unit :=
  mft <- gets move_flush_time ;;
  kfd <- gets kin_flush_delay ;;
  let flush_delay := DRIP_TIME + mft + kfd in
  update_drip_move_time_loop wakeups next_print_time flush_delay.

(** ** Handing planned moves to the trapezoid queue *)

Definition _process_moves (moves : list (Move * list Callback)) : M unit :=
  sqs <- gets special_queuing_state ;;
  (if str_true sqs then
     (if negb (String.eqb sqs "Drip") then
        modify (set_special_queuing_state "") ;;
        modify (set_need_check_stall (-1)) ;;
        modify (set_flush_timer NOW)
      else ret tt) ;;
     modify _calc_print_time
   else ret tt) ;;
  next_move_time <- gets print_time ;;
  emit (Ev_trapq_append_from_moveq next_move_time (length moves)) ;;
  return_value <- call_native (fun n =>
      trapq_append_from_moveq n next_move_time (length moves)) ;;
  let (rv_next_move_time, extru_last_position) := return_value in
  (if Qlt_bool extru_last_position 109999999
   then modify (set_extruder_last_position extru_last_position)
   else ret tt) ;;
  sqs <- gets special_queuing_state ;;
  (if str_true sqs then _update_drip_move_time rv_next_move_time
   else ret tt) ;;
  modify (_update_move_time rv_next_move_time) ;;
  modify (set_last_kin_move_time rv_next_move_time).

(** ** MoveQueue *)

Definition MoveQueue_reset : M unit :=
  q <- gets queue ;;
  emit (Ev_Py_move_queue_del (length q)) ;;
  call_native (fun n => (Py_move_queue_del n (length q), tt)) ;;
  modify (set_queue []) ;;
  modify (set_junction_flush LOOKAHEAD_FLUSH_TIME).

Definition MoveQueue_set_flush_time (flush_time : Q) : M unit :=
  modify (set_junction_flush flush_time).

Definition MoveQueue_get_last : M (option (Move * list Callback)) :=
  q <- gets queue ;;
  ret (last q).

Definition MoveQueue_flush (lazy : bool) : M unit :=
  modify (set_junction_flush LOOKAHEAD_FLUSH_TIME) ;;
  queue0 <- gets queue ;;
  let flush_count := length queue0 in
  if (flush_count =? 0)%nat then ret tt else
  emit (Ev_Py_move_queue_flush_cal flush_count lazy) ;;
  flush_count <- call_native (fun n =>
      Py_move_queue_flush_cal n flush_count lazy) ;;
  if negb (flush_count =? 0)%nat then
    _process_moves (take flush_count queue0) ;;
    emit (Ev_Py_move_queue_del flush_count) ;;
    call_native (fun n => (Py_move_queue_del n flush_count, tt)) ;;
    modify (fun s => set_queue (drop flush_count (queue s)) s)
  else ret tt.

Definition MoveQueue_add_move (move : Move) : M unit :=
  modify (fun s => set_queue (queue s ++ [(move, [])]) s) ;;
  q <- gets queue ;;
  if (length q =? 1)%nat then ret tt else
  modify (fun s => set_junction_flush (junction_flush s - min_move_t move) s) ;;
  jf <- gets junction_flush ;;
  if Qle_bool jf 0 then MoveQueue_flush true else ret tt.

(** ** Flushing and stall checking *)

Definition flush_step_generation : M unit :=
  MoveQueue_flush false ;;
  modify (set_special_queuing_state "Flushed") ;;
  modify (set_need_check_stall (-1)) ;;
  modify (set_flush_timer NEVER) ;;
  bth <- gets buffer_time_high ;;
  MoveQueue_set_flush_time bth ;;
  modify (set_idle_flush_print_time 0) ;;
  modify (fun s =>
    let flush_time := last_kin_move_time s + kin_flush_delay s in
    let flush_time := Qmax flush_time (print_time s - kin_flush_delay s) in
    set_last_kin_flush_time (Qmax (last_kin_flush_time s) flush_time) s) ;;
  modify (fun s =>
    _update_move_time (Qmax (print_time s) (last_kin_flush_time s)) s).

Definition _flush_lookahead : M unit :=
  sqs <- gets special_queuing_state ;;
  if str_true sqs then flush_step_generation
  else MoveQueue_flush false.

Definition get_last_move_time : M Q :=
  _flush_lookahead ;;
  sqs <- gets special_queuing_state ;;
  (if str_true sqs then modify _calc_print_time else ret tt) ;;
  gets print_time.

(** The timer callback: its result is the next wake time of the timer.
    The bare [except:] catches every exception; the shutdown handlers
    that [invoke_shutdown] then runs are an operation of their own
    ([_handle_shutdown]). *)
Definition _flush_handler (eventtime : Q) : M Q :=
  try_except
    (print_time0 <- gets print_time ;;
     btl <- gets buffer_time_low ;;
     let buffer_time := print_time0 - estimated_print_time eventtime in
     if Qlt_bool btl buffer_time then ret (eventtime + buffer_time - btl)
     else
       flush_step_generation ;;
       pt <- gets print_time ;;
       (if negb (Qeq_bool print_time0 pt)
        then modify (set_idle_flush_print_time pt)
        else ret tt) ;;
       ret NEVER)
    (fun _ => Some (emit (Ev_invoke_shutdown "Exception in flush_handler") ;;
                    ret NEVER)).

(** ** The reactor while the toolhead waits

    Modelled from the spec: the reactor lives in reactor.py.  The spec has
    one executor, the reactor, drive "timers, move submission, and
    blocking waits"; a pause is cooperative and yields to it, and the
    timer that [__init__] registers runs [_flush_handler] ("Reactor timer
    → ToolHead.flush_handler"), whose result is the timer's next wake
    time.  So while [reactor.pause(waketime)] waits, the reactor calls
    [_flush_handler] whenever the wake time of [flush_timer] has come,
    with the time of the call.  The reactor of the model is punctual: the
    timer runs at its wake time, or at once when that has passed already,
    and the pause ends at [waketime]. *)
Fixpoint run_flush_timer (n : nat) (waketime : Q) : M unit :=
  ft <- gets flush_timer ;;
  if Qle_bool ft waketime then
    match n with
    | O => timeout
    | S n' =>
        now <- gets reactor_now ;;
        let eventtime := Qmax now ft in
        modify (set_reactor_now eventtime) ;;
        next_waketime <- _flush_handler eventtime ;;
        modify (set_flush_timer next_waketime) ;;
        run_flush_timer n' waketime
    end
  else ret tt.

Definition reactor_pause (waketime : Q) : M Q :=
  run_flush_timer wakeups waketime ;;
  modify (fun s => log (Ev_pause waketime) (set_reactor_now waketime s)) ;;
  ret waketime.

(** The [while 1:] loop of [_check_stall]: [Some est_print_time] when it
    leaves through [break], [None] when it leaves through [return]. *)
Fixpoint check_stall_loop (n : nat) (eventtime : Q) : M (option Q) :=
  let est_print_time := estimated_print_time eventtime in
  pt <- gets print_time ;;
  bth <- gets buffer_time_high ;;
  let buffer_time := pt - est_print_time in
  let stall_time := buffer_time - bth in
  if Qle_bool stall_time 0 then ret (Some est_print_time) else
  cp <- gets can_pause ;;
  if negb cp then
    modify (set_need_check_stall NEVER) ;;
    ret None
  else
    match n with
    | O => timeout
    | S n' =>
        eventtime <- reactor_pause (eventtime + Qmin 1 stall_time) ;;
        check_stall_loop n' eventtime
    end.

Definition _check_stall : M unit :=
  eventtime <- gets reactor_now ;;
  sqs <- gets special_queuing_state ;;
  (if str_true sqs then
     ifpt <- gets idle_flush_print_time ;;
     (if float_true ifpt then
        let est_print_time := estimated_print_time eventtime in
        (if Qlt_bool est_print_time ifpt
         then modify (fun s => set_print_stall (print_stall s + 1)%Z s)
         else ret tt) ;;
        modify (set_idle_flush_print_time 0)
      else ret tt) ;;
     modify (set_special_queuing_state "Priming") ;;
     modify (set_need_check_stall (-1)) ;;
     modify (set_flush_timer (eventtime + 0.100))
   else ret tt) ;;
  r <- check_stall_loop wakeups eventtime ;;
  match r with
  | None => ret tt
  | Some est_print_time =>
      sqs <- gets special_queuing_state ;;
      if negb (str_true sqs) then
        bth <- gets buffer_time_high ;;
        modify (set_need_check_stall (est_print_time + bth + 0.100))
      else ret tt
  end.

(** ** Movement commands *)

Definition get_position : M (list Q) := gets commanded_pos.

(** [self.double_array[4..7] = self.commanded_pos[0..3]]. *)
Definition mirror_commanded_pos : M unit :=
  cp <- gets commanded_pos ;;
  v <- index cp 0 ;; da_store 4 v ;;
  v <- index cp 1 ;; da_store 5 v ;;
  v <- index cp 2 ;; da_store 6 v ;;
  v <- index cp 3 ;; da_store 7 v.

Definition set_position (newpos : list Q) (homing_axes : list nat)
    : M unit :=
  flush_step_generation ;;
  pt <- gets print_time ;;
  x <- index newpos 0 ;;
  y <- index newpos 1 ;;
  z <- index newpos 2 ;;
  emit (Ev_trapq_set_position pt x y z) ;;
  modify (set_commanded_pos newpos) ;;
  mirror_commanded_pos ;;
  emit (Ev_kin_set_position newpos homing_axes) ;;
  emit (Ev_send_event "toolhead:set_position").

(** The block repeated in both branches of [record_z_pos]. *)
Definition record_z_pos_write (commanded_pos_z : Q) : M unit :=
  zp <- gets z_pos ;;
  if Qlt_bool 5 (Qabs (commanded_pos_z - zp)) then
    modify (set_z_pos commanded_pos_z) ;;
    emit (Ev_write_z_pos commanded_pos_z) ;;
    pr <- gets printer ;;
    match print_stats_state pr with
    | None => raise AttributeError
    | Some _ => modify (set_print_stats_z_pos commanded_pos_z)
    end
  else ret tt.

Definition record_z_pos (commanded_pos_z : Q) : M unit :=
  pr <- gets printer ;;
  if String.eqb (kin_class_name pr) "CoreXYKinematics" then
    if kin_status_for_record_z_pos pr
    then record_z_pos_write commanded_pos_z
    else ret tt
  else
    match String.index 0 "z" (kin_homed_axes pr) with
    | Some _ =>
        try_except (record_z_pos_write commanded_pos_z)
                   (fun _ => Some (ret tt))
    | None => ret tt
    end.

Definition check_move_out_of_range (ep : list Q) : M ErrMsg :=
  pr <- gets printer ;;
  let limit (i : nat) : M (Q * Q) :=
    match kin_limits pr !! i with
    | Some l => ret l
    | None => raise IndexError
    end in
  lx <- limit 0%nat ;;
  ly <- limit 1%nat ;;
  lz <- limit 2%nat ;;
  ep0 <- index ep 0 ;;
  code_key <-
    (if Qlt_bool ep0 (fst lx) || Qlt_bool (snd lx) ep0 then ret "key585"
     else
       ep1 <- index ep 1 ;;
       if Qlt_bool ep1 (fst ly) || Qlt_bool (snd ly) ep1 then ret "key586"
       else
         ep2 <- index ep 2 ;;
         if Qlt_bool ep2 (fst lz) || Qlt_bool (snd lz) ep2
         then ret "key587"
         else ret "key243") ;;
  index ep 1 ;; index ep 2 ;; index ep 3 ;;
  ret (MoveOutOfRange code_key ep).

(** From [if self.double_array[13]==0:] to the end, [simple_move] and
    [move] have the same text. *)
Definition after_PyMove (newpos : list Q) (move : Move) : M unit :=
  da <- gets double_array ;;
  code <- index da 13 ;;
  go <-
  (if Qeq_bool code 0 then
     modify (set_commanded_pos newpos) ;; ret true
   else if Qeq_bool code 1 then
     v <- index newpos 3 ;;
     cp <- gets commanded_pos ;;
     if (3 <? length cp)%nat
     then modify (set_commanded_pos (<[3%nat:=v]> cp)) ;; ret true
     else raise IndexError
   else if Qeq_bool code (-4) then
     raise (command_error ExtrudeBelowMinTemp)
   else if Qeq_bool code (-2) then
     raise (command_error MustHomeAxisFirst)
   else if Qeq_bool code (-3) then
     m <- check_move_out_of_range newpos ;;
     raise (command_error m)
   else if Qeq_bool code (-1) then
     ret false
   else if Qeq_bool code (-5) then
     raise (command_error ExtrudeOnlyMoveTooLong)
   else if Qeq_bool code (-6) then
     raise (command_error MoveExceedsMaximumExtrusion)
   else ret true) ;;
  if negb go then ret tt else
  MoveQueue_add_move move ;;
  pt <- gets print_time ;;
  ncs <- gets need_check_stall ;;
  if Qlt_bool ncs pt then _check_stall else ret tt.


(** [move = mymovie.PyMove()]: the planner reads the buffer and leaves its
    return code in slot 13. *)
Definition call_PyMove : M Move :=
  da <- gets double_array ;;
  r <- call_native (fun n => PyMove n da) ;;
  da_store 13 (fst r) ;;
  ret (snd r).

(** [simple_move] and [move] up to and including
    [move = mymovie.PyMove()]. *)
Definition simple_move_until_PyMove (newpos : list Q) : M Move :=
  z <- index newpos 2 ;;
  record_z_pos z ;;
  call_PyMove.

Definition move_until_PyMove (newpos : list Q) (speed : Q) : M Move :=
  z <- index newpos 2 ;;
  record_z_pos z ;;
  mirror_commanded_pos ;;
  v <- index newpos 0 ;; da_store 8 v ;;
  v <- index newpos 1 ;; da_store 9 v ;;
  v <- index newpos 2 ;; da_store 10 v ;;
  v <- index newpos 3 ;; da_store 11 v ;;
  da_store 12 speed ;;
  call_PyMove.

Definition simple_move (newpos : list Q) : M unit :=
  move <- simple_move_until_PyMove newpos ;;
  after_PyMove newpos move.

Definition move (newpos : list Q) (speed : Q) : M unit :=
  move <- move_until_PyMove newpos speed ;;
  after_PyMove newpos move.

(** The [for] loop of [manual_move], from index [i] on. *)
Fixpoint manual_move_fill (coord : list (option Q)) (i : nat)
    (curpos : list Q) : M (list Q) :=
  match coord with
  | [] => ret curpos
  | None :: coord' => manual_move_fill coord' (S i) curpos
  | Some c :: coord' =>
      if (i <? length curpos)%nat
      then manual_move_fill coord' (S i) (<[i:=c]> curpos)
      else raise IndexError
  end.

Definition manual_move (coord : list (option Q)) (speed : Q) : M unit :=
  cp <- gets commanded_pos ;;
  curpos <- manual_move_fill coord 0 cp ;;
  move curpos speed ;;
  emit (Ev_send_event "toolhead:manual_move").

Definition dwell (delay : Q) : M unit :=
  t <- get_last_move_time ;;
  let next_print_time := t + Qmax 0 delay in
  modify (_update_move_time next_print_time) ;;
  _check_stall.

Fixpoint wait_moves_loop (n : nat) (eventtime : Q) : M unit :=
  sqs <- gets special_queuing_state ;;
  pt <- gets print_time ;;
  if negb (str_true sqs)
     || Qle_bool (estimated_print_time eventtime) pt then
    cp <- gets can_pause ;;
    if negb cp then ret tt else
    match n with
    | O => timeout
    | S n' =>
        eventtime <- reactor_pause (eventtime + 0.100) ;;
        wait_moves_loop n' eventtime
    end
  else ret tt.

Definition wait_moves : M unit :=
  _flush_lookahead ;;
  eventtime <- gets reactor_now ;;
  wait_moves_loop wakeups eventtime.

(** The extruder object is seen through its name, its [last_position]
    and whether it has the attribute [info_array_addr_int]. *)
Definition set_extruder (extruder_name : string) (extruder_last_pos : Q)
    (has_info_array : bool) (extrude_pos : Q) : M unit :=
  modify (set_extruder_last_position extruder_last_pos) ;;
  (if has_info_array
   then call_native (fun n => (Py_set_extruder_info n extruder_name, tt))
   else ret tt) ;;
  cp <- gets commanded_pos ;;
  (if (3 <? length cp)%nat
   then modify (set_commanded_pos (<[3%nat:=extrude_pos]> cp))
   else raise IndexError) ;;
  da_store 7 extrude_pos.

Definition drip_move (newpos : list Q) (speed : Q)
    (drip_completion : Completion) : M unit :=
  kfd <- gets kin_flush_delay ;;
  dwell kfd ;;
  MoveQueue_flush false ;;
  modify (set_special_queuing_state "Drip") ;;
  modify (set_need_check_stall NEVER) ;;
  modify (set_flush_timer NEVER) ;;
  bth <- gets buffer_time_high ;;
  MoveQueue_set_flush_time bth ;;
  modify (set_idle_flush_print_time 0) ;;
  modify (set_drip_completion (Some drip_completion)) ;;
  try_except (move newpos speed)
    (fun e => match e with
              | command_error _ => Some (flush_step_generation ;; raise e)
              | _ => None
              end) ;;
  try_except (MoveQueue_flush false)
    (fun e => match e with
              | DripModeEndSignal =>
                  Some (MoveQueue_reset ;;
                        emit (Ev_trapq_finalize_moves NEVER))
              | _ => None
              end) ;;
  flush_step_generation.

(** ** Misc commands *)

Definition _handle_shutdown : M unit :=
  modify (set_can_pause false) ;;
  MoveQueue_reset.

Definition register_step_generator (handler : StepGen) : M unit :=
  modify (fun s => set_step_generators (step_generators s ++ [handler]) s).

(** [l.pop(l.index(x))]: drops the first element equal to [x]. *)
Fixpoint pop_index (x : Q) (l : list Q) : option (list Q) :=
  match l with
  | [] => None
  | y :: l' => if Qeq_bool y x then Some l'
               else option_map (cons y) (pop_index x l')
  end.

(** [max(l)] of a non-empty Python list [x :: l]. *)
Definition list_max (x : Q) (l : list Q) : Q := fold_left Qmax l x.

Definition note_step_generation_scan_time (delay old_delay : Q) : M unit :=
  flush_step_generation ;;
  (if float_true old_delay then
     kft <- gets kin_flush_times ;;
     match pop_index old_delay kft with
     | Some kft' => modify (set_kin_flush_times kft')
     | None => raise ValueError
     end
   else ret tt) ;;
  (if float_true delay
   then modify (fun s => set_kin_flush_times (kin_flush_times s ++ [delay]) s)
   else ret tt) ;;
  kft <- gets kin_flush_times ;;
  let new_delay := match kft ++ [SDS_CHECK_TIME] with
                   | [] => SDS_CHECK_TIME
                   | x :: l => list_max x l
                   end in
  modify (set_kin_flush_delay new_delay).

Definition register_lookahead_callback (callback : Callback) : M unit :=
  last_move <- MoveQueue_get_last ;;
  match last_move with
  | None =>
      t <- get_last_move_time ;;
      emit (Ev_callback callback t)
  | Some (mv, cbs) =>
      modify (fun s =>
        set_queue (removelast (queue s) ++ [(mv, cbs ++ [callback])]) s)
  end.

Definition note_kinematic_activity (kin_time : Q) : M unit :=
  modify (fun s =>
    set_last_kin_move_time (Qmax (last_kin_move_time s) kin_time) s).

Definition get_max_velocity : M (Q * Q) :=
  gets (fun s => (max_velocity s, max_accel s)).

Definition _calc_junction_deviation : M unit :=
  scv <- gets square_corner_velocity ;;
  let scv2 := scv * scv in
  ma <- gets max_accel ;;
  (if Qeq_bool ma 0 then raise ZeroDivisionError else ret tt) ;;
  modify (set_junction_deviation (scv2 * (sqrt2 - 1) / ma)) ;;
  jd <- gets junction_deviation ;;
  da_store 2 jd ;;
  modify (fun s => set_max_accel_to_decel
                     (Qmin (requested_accel_to_decel s) (max_accel s)) s) ;;
  matd <- gets max_accel_to_decel ;;
  da_store 3 matd.


(** ** G-code commands

    A command is seen through its parameters, already read as numbers. *)

(** Modelled from the spec: [gcmd.get_float] lives in gcode.py.  The spec
    reads [above=0.] as "(>0)" and [minval=0.] as "(≥0)": a parameter that
    is given and breaks its bound is rejected with the command's error; a
    parameter that is not given yields the default. *)
Definition get_float_above (gcmd : gmap string Q) (name : string)
    (above : Q) : M (option Q) :=
  match gcmd !! name with
  | None => ret None
  | Some v => if Qle_bool v above then raise (gcmd_error name)
              else ret (Some v)
  end.

Definition get_float_minval (gcmd : gmap string Q) (name : string)
    (minval : Q) : M (option Q) :=
  match gcmd !! name with
  | None => ret None
  | Some v => if Qlt_bool v minval then raise (gcmd_error name)
              else ret (Some v)
  end.

(** [int(x)] of a Python float: truncation towards zero. *)
Definition int_of_float (x : Q) : Z :=
  if Qlt_bool x 0 then Qceiling x else Qfloor x.

Definition cmd_SET_G29_FLAG (gcmd : gmap string Q) : M unit :=
  let value := match gcmd !! "VALUE" with
               | None => 0
               | Some v => v
               end in
  if Qeq_bool value 1 then modify (set_G29_flag true)
  else modify (set_G29_flag false).

Definition cmd_G4 (gcmd : gmap string Q) : M unit :=
  p <- get_float_minval gcmd "P" 0 ;;
  let delay := match p with None => 0 | Some v => v end / 1000 in
  dwell delay.

Definition cmd_M400 (gcmd : gmap string Q) : M unit := wait_moves.

Definition is_None {A} (o : option A) : bool :=
  match o with None => true | Some _ => false end.

Definition cmd_SET_VELOCITY_LIMIT (gcmd : gmap string Q) : M unit :=
  pr <- gets printer ;;
  modify (set_qmode_flag (custom_macro_qmode_flag pr)) ;;
  let (qmode_max_accel, qmode_max_accel_to_decel) :=
    match Qmode_section pr with
    | Some v => v
    | None => (0, 0)
    end in
  new_max_velocity <- get_float_above gcmd "VELOCITY" 0 ;;
  new_max_accel <- get_float_above gcmd "ACCEL" 0 ;;
  new_square_corner_velocity <-
    get_float_minval gcmd "SQUARE_CORNER_VELOCITY" 0 ;;
  new_requested_accel_to_decel <- get_float_above gcmd "ACCEL_TO_DECEL" 0 ;;
  match new_max_velocity with
  | Some v => modify (set_max_velocity v) ;; da_store 1 v
  | None => ret tt
  end ;;
  match new_max_accel with
  | Some a =>
      qf <- gets qmode_flag ;;
      (if qf && Qlt_bool qmode_max_accel a
       then modify (set_max_accel qmode_max_accel)
       else modify (set_max_accel a)) ;;
      ma <- gets max_accel ;;
      da_store 0 ma
  | None => ret tt
  end ;;
  new_square_corner_velocity <-
    match new_square_corner_velocity with
    | Some v =>
        scmv <- gets square_corner_max_velocity ;;
        let v := if Qlt_bool scmv v then scmv else v in
        modify (set_square_corner_velocity v) ;;
        ret (Some v)
    | None => ret None
    end ;;
  match new_requested_accel_to_decel with
  | Some a =>
      qf <- gets qmode_flag ;;
      if qf && Qlt_bool qmode_max_accel_to_decel a
      then modify (set_requested_accel_to_decel qmode_max_accel_to_decel)
      else modify (set_requested_accel_to_decel a)
  | None => ret tt
  end ;;
  _calc_junction_deviation ;;
  if is_None new_max_velocity && is_None new_max_accel
     && is_None new_square_corner_velocity
     && is_None new_requested_accel_to_decel
  then raise (NameError "msg")
  else ret tt.

(** The end of [cmd_M204], from [self.__max_accel = accel] on: taking
    the acceleration and recording the command in the print file. *)
Definition M204_set_accel (accel : Q) (cmd : M204Cmd) : M unit :=
  modify (set_max_accel accel) ;;
  da_store 0 accel ;;
  _calc_junction_deviation ;;
  pr <- gets printer ;;
  n <- gets count_M204 ;;
  match print_stats_state pr, print_file_exists pr with
  | Some state, Some file_exists =>
      if String.eqb state "printing" && (n <? 3)%Z && file_exists then
        modify (set_count_M204 (n + 1)%Z) ;;
        emit (Ev_record_M204 cmd)
      else ret tt
  | _, _ => ret tt
  end.

Definition cmd_M204 (gcmd : gmap string Q) : M unit :=
  let accel_S := int_of_float (match gcmd !! "S" with
                               | None => -1
                               | Some v => v
                               end) in
  accel <-
    (if negb (accel_S =? -1)%Z && (accel_S <=? 100)%Z then ret (Some 100)
     else get_float_above gcmd "S" 0) ;;
  match accel with
  | Some a => M204_set_accel a (M204_S a)
  | None =>
      p <- get_float_above gcmd "P" 0 ;;
      t <- get_float_above gcmd "T" 0 ;;
      match p, t with
      | Some p, Some t => M204_set_accel (Qmin p t) (M204_P_T p t)
      | _, _ => emit (Ev_respond_info "key73")
      end
  end.

(** ** Operations on a toolhead

    The public methods, the timer callback and the shutdown handler, as
    the rest of the program invokes them; [OpClock] lets reactor time
    pass between two of them, [OpPrinter] lets the other printer objects
    change. *)

Inductive Op : Type :=
| OpMove (newpos : list Q) (speed : Q)
| OpSimpleMove (newpos : list Q)
| OpManualMove (coord : list (option Q)) (speed : Q)
| OpDwell (delay : Q)
| OpFlushStepGeneration
| OpGetLastMoveTime
| OpFlushHandler (eventtime : Q)
| OpSetPosition (newpos : list Q) (homing_axes : list nat)
| OpWaitMoves
| OpSetExtruder (extruder_name : string) (extruder_last_pos : Q)
    (has_info_array : bool) (extrude_pos : Q)
| OpDripMove (newpos : list Q) (speed : Q) (drip_completion : Completion)
| OpHandleShutdown
| OpRegisterStepGenerator (handler : StepGen)
| OpNoteStepGenerationScanTime (delay old_delay : Q)
| OpRegisterLookaheadCallback (callback : Callback)
| OpNoteKinematicActivity (kin_time : Q)
| OpSetG29Flag (gcmd : gmap string Q)
| OpG4 (gcmd : gmap string Q)
| OpM400 (gcmd : gmap string Q)
| OpSetVelocityLimit (gcmd : gmap string Q)
| OpM204 (gcmd : gmap string Q)
| OpClock (now : Q)
| OpPrinter (pr : Printer).

Definition run_op (op : Op) : M unit :=
  match op with
  | OpMove newpos speed => move newpos speed
  | OpSimpleMove newpos => simple_move newpos
  | OpManualMove coord speed => manual_move coord speed
  | OpDwell delay => dwell delay
  | OpFlushStepGeneration => flush_step_generation
  | OpGetLastMoveTime => get_last_move_time ;; ret tt
  | OpFlushHandler eventtime =>
      waketime <- _flush_handler eventtime ;;
      modify (set_flush_timer waketime)
  | OpSetPosition newpos homing_axes => set_position newpos homing_axes
  | OpWaitMoves => wait_moves
  | OpSetExtruder name lp has_info extrude_pos =>
      set_extruder name lp has_info extrude_pos
  | OpDripMove newpos speed dc => drip_move newpos speed dc
  | OpHandleShutdown => _handle_shutdown
  | OpRegisterStepGenerator handler => register_step_generator handler
  | OpNoteStepGenerationScanTime delay old_delay =>
      note_step_generation_scan_time delay old_delay
  | OpRegisterLookaheadCallback callback =>
      register_lookahead_callback callback
  | OpNoteKinematicActivity kin_time => note_kinematic_activity kin_time
  | OpSetG29Flag gcmd => cmd_SET_G29_FLAG gcmd
  | OpG4 gcmd => cmd_G4 gcmd
  | OpM400 gcmd => cmd_M400 gcmd
  | OpSetVelocityLimit gcmd => cmd_SET_VELOCITY_LIMIT gcmd
  | OpM204 gcmd => cmd_M204 gcmd
  | OpClock now => modify (set_reactor_now now)
  | OpPrinter pr => modify (set_printer pr)
  end.

(** A sequence of operations: each starts in the state the previous one
    left, whatever its outcome (the caller of a command catches its
    error). *)
Definition run_ops (ops : list Op) (s : ToolHead) : ToolHead :=
  fold_left (fun s op => st (run_op op s)) ops s.


(** ** The state built by [ToolHead.__init__]

    from the configured values (after their defaults), the printer
    objects, the answer of [self.mcu.is_fileoutput()], the native state
    once the buffer is registered with it, the reactor time and the Z
    position read by [get_z_pos]. *)
Definition ToolHead_init (cfg_max_velocity cfg_max_accel
    cfg_max_accel_to_decel cfg_square_corner_velocity
    cfg_square_corner_max_velocity cfg_buffer_time_low
    cfg_buffer_time_high cfg_buffer_time_start cfg_move_flush_time : Q)
    (pr : Printer) (mcu_is_fileoutput : bool) (n : Native)
    (now cfg_z_pos : Q) : ToolHead :=
  let da := [cfg_max_accel; cfg_max_velocity; 0; cfg_max_accel_to_decel;
             0; 0; 0; 0; 0; 0; 0; 0; 0; 0] in
  let s := {|
    queue := [];
    junction_flush := cfg_buffer_time_high;
    double_array := da;
    qmode_flag := false;
    can_pause := if mcu_is_fileoutput then false else true;
    commanded_pos := [0; 0; 0; 0];
    max_velocity := cfg_max_velocity;
    max_accel := cfg_max_accel;
    requested_accel_to_decel := cfg_max_accel_to_decel;
    max_accel_to_decel := cfg_max_accel_to_decel;
    square_corner_velocity := cfg_square_corner_velocity;
    square_corner_max_velocity := cfg_square_corner_max_velocity;
    junction_deviation := 0;
    buffer_time_low := cfg_buffer_time_low;
    buffer_time_high := cfg_buffer_time_high;
    buffer_time_start := cfg_buffer_time_start;
    move_flush_time := cfg_move_flush_time;
    print_time := 0;
    special_queuing_state := "Flushed";
    need_check_stall := -1;
    flush_timer := NEVER;
    idle_flush_print_time := 0;
    print_stall := 0%Z;
    drip_completion := None;
    kin_flush_delay := SDS_CHECK_TIME;
    kin_flush_times := [];
    last_kin_flush_time := 0;
    last_kin_move_time := 0;
    step_generators := [];
    extruder_last_position := 0;
    z_pos := cfg_z_pos;
    G29_flag := false;
    printer := pr;
    count_M204 := 0%Z;
    print_stats_z_pos := 0;
    native := n;
    reactor_now := now;
    events := []
  |} in
  st (_calc_junction_deviation s).

End ToolHead.

Arguments Ok {_ _} a s.
Arguments Raise {_ _} e s.
Arguments Timeout {_ _} s.

(** * The accessors of the limits, and calls from outside *)

Section Accessors.

Context `{Extern}.

Definition get_max_accel : M Q := gets max_accel.

(** [set_max_accel(value)] of the source; the name [set_max_accel] is the
    field update of the record here, as for the next two setters. *)
Definition ToolHead_set_max_accel (value : Q) : M unit :=
  bind (modify (set_max_accel value)) (fun _ => da_store 0 value).

Definition get_max_velocity_only : M Q := gets max_velocity.

Definition ToolHead_set_max_velocity (value : Q) : M unit :=
  bind (modify (set_max_velocity value)) (fun _ => da_store 1 value).

Definition get_max_accel_to_decel : M Q := gets max_accel_to_decel.

Definition ToolHead_set_max_accel_to_decel (value : Q) : M unit :=
  bind (modify (set_max_accel_to_decel value)) (fun _ => da_store 3 value).

(** [check_busy]: print time, estimated print time, and whether the
    lookahead queue is empty. *)
Definition check_busy (eventtime : Q) : M (Q * Q * bool) :=
  bind (gets print_time) (fun pt =>
  bind (gets queue) (fun q =>
  ret (pt, estimated_print_time eventtime,
       match q with [] => true | _ => false end))).

(** What the rest of the program can call on a toolhead: the operations
    of [Op], the setters of the limits and [check_busy]. *)
Inductive Call : Type :=
| CallOp (op : Op)
| CallSetMaxAccel (value : Q)
| CallSetMaxVelocity (value : Q)
| CallSetMaxAccelToDecel (value : Q)
| CallCheckBusy (eventtime : Q).

Definition run_call (c : Call) : M unit :=
  match c with
  | CallOp op => run_op op
  | CallSetMaxAccel value => ToolHead_set_max_accel value
  | CallSetMaxVelocity value => ToolHead_set_max_velocity value
  | CallSetMaxAccelToDecel value => ToolHead_set_max_accel_to_decel value
  | CallCheckBusy eventtime =>
      bind (check_busy eventtime) (fun _ => ret tt)
  end.

(** A sequence of calls, each from the state the previous one left,
    whatever its outcome. *)
Definition run_calls (calls : list Call) (s : ToolHead) : ToolHead :=
  fold_left (fun s c => st (run_call c s)) calls s.

End Accessors.

(** * Observations and example collaborators *)

Section Observations.

Context `{Extern}.

(** How often [trapq_finalize_moves] was called: once per pass through the
    loop of [_update_move_time]. *)
Definition is_finalize (e : Event) : bool :=
  match e with Ev_trapq_finalize_moves _ => true | _ => false end.

Definition finalize_calls (s : ToolHead) : nat :=
  length (List.filter is_finalize (events s)).

(** Weakest precondition of a run: [Q] for a normal return, [E] for an
    exception ([Some e]) or a cut-off run ([None]). *)
Definition wp {A} (m : M A) (Q : A -> ToolHead -> Prop)
    (E : option Exn -> ToolHead -> Prop) (s : ToolHead) : Prop :=
  match m s with
  | Ok a s' => Q a s'
  | Raise e s' => E (Some e) s'
  | Timeout s' => E None s'
  end.

(** [m] relates the state it starts in to the state it leaves, whatever
    its outcome, and raises only exceptions that satisfy [P]. *)
Definition keeps (R : ToolHead -> ToolHead -> Prop) (P : Exn -> Prop)
    {A} (m : M A) : Prop :=
  forall s, match m s with
            | Ok _ s' => R s s'
            | Raise e s' => R s s' /\ P e
            | Timeout s' => R s s'
            end.

Definition any_exn (e : Exn) : Prop := True.

Definition not_command_error (e : Exn) : Prop :=
  match e with command_error _ => False | _ => True end.

(** What stepping the print clock may change: [print_time] and the trace. *)
Definition clock_step (s s' : ToolHead) : Prop :=
  exists pt evs, s' = set_events (events s ++ evs) (set_print_time pt s).

(** The fields that queueing, flushing and stall checking never write. *)
Definition frame (s s' : ToolHead) : Prop :=
  commanded_pos s' = commanded_pos s
  /\ double_array s' = double_array s
  /\ kin_flush_delay s' = kin_flush_delay s
  /\ kin_flush_times s' = kin_flush_times s
  /\ buffer_time_low s' = buffer_time_low s
  /\ buffer_time_high s' = buffer_time_high s
  /\ buffer_time_start s' = buffer_time_start s
  /\ move_flush_time s' = move_flush_time s
  /\ max_velocity s' = max_velocity s
  /\ max_accel s' = max_accel s
  /\ step_generators s' = step_generators s
  /\ printer s' = printer s
  /\ z_pos s' = z_pos s.

Definition same_queue (s s' : ToolHead) : Prop := queue s' = queue s.

Definition pos_queue (s s' : ToolHead) : Prop :=
  commanded_pos s' = commanded_pos s /\ queue s' = queue s.

(** The rebase target as the specification words it:
    [max(est + buffer_time_start,
         last_kin_flush_time + kin_flush_delay + MIN_KIN_TIME)]. *)
Definition spec_min_print_time (s : ToolHead) : Q :=
  let est_print_time := estimated_print_time (reactor_now s) in
  Qmax (est_print_time + buffer_time_start s)
       (last_kin_flush_time s + kin_flush_delay s + MIN_KIN_TIME).

(** [cmd_M204] has taken [accel]: [max_accel] and its mirror in slot 0
    hold it, the junction deviation is recomputed from it and
    [max_accel_to_decel] is capped by it, both mirrored in slots 2 and 3. *)
Definition M204_applied (accel : Q) (s s' : ToolHead) : Prop :=
  max_accel s' = accel
  /\ junction_deviation s'
     = square_corner_velocity s * square_corner_velocity s * (sqrt2 - 1)
       / accel
  /\ max_accel_to_decel s' = Qmin (requested_accel_to_decel s) accel
  /\ double_array s' !! 0%nat = Some accel
  /\ double_array s' !! 2%nat = Some (junction_deviation s')
  /\ double_array s' !! 3%nat = Some (max_accel_to_decel s').

(** The three clocks do not go back from [s] to [s']; for
    [last_kin_move_time] this is claimed from a state where it is not
    ahead of [print_time], and then it is not ahead of it in [s']
    either. *)
Definition clock_mono (s s' : ToolHead) : Prop :=
  print_time s <= print_time s'
  /\ last_kin_flush_time s <= last_kin_flush_time s'
  /\ (last_kin_move_time s <= print_time s ->
      last_kin_move_time s' <= print_time s'
      /\ last_kin_move_time s <= last_kin_move_time s').

(** [clock_mono], and [print_time] stays at or below [npt] if it was. *)
Definition drip_rel (npt : Q) (s s' : ToolHead) : Prop :=
  clock_mono s s' /\ (print_time s <= npt -> print_time s' <= npt).

(** Only [print_time] and [last_kin_flush_time]. *)
Definition clock_mono_weak (s s' : ToolHead) : Prop :=
  print_time s <= print_time s'
  /\ last_kin_flush_time s <= last_kin_flush_time s'.

Definition is_kin_activity (op : Op) : bool :=
  match op with OpNoteKinematicActivity _ => true | _ => false end.

(** Every time noted by [note_kinematic_activity] in the sequence is at
    or before the [print_time] of the state it is noted in. *)
Fixpoint notes_behind_print_time (ops : list Op) (s : ToolHead) : Prop :=
  match ops with
  | [] => True
  | op :: ops' =>
      match op with
      | OpNoteKinematicActivity kin_time => kin_time <= print_time s
      | _ => True
      end
      /\ notes_behind_print_time ops' (st (run_op op s))
  end.

(** The trapezoid queue answers with a time that is not before the time
    it was given: moves have no negative duration. *)
Definition trapq_time_advances : Prop :=
  forall n t count, t <= fst (snd (trapq_append_from_moveq n t count)).

(** A flush that is not lazy plans every queued move. *)
Definition full_flush_plans_all : Prop :=
  forall n count, snd (Py_move_queue_flush_cal n count false) = count.

(** The state [flush_step_generation] leaves: nothing queued, the
    "Flushed" settings, and the step generators driven up to within
    [kin_flush_delay] of [print_time] and past the last move. *)
Definition flushed (s : ToolHead) : Prop :=
  queue s = []
  /\ special_queuing_state s = "Flushed"
  /\ need_check_stall s = -1
  /\ flush_timer s = NEVER
  /\ junction_flush s = buffer_time_high s
  /\ idle_flush_print_time s = 0
  /\ last_kin_move_time s + kin_flush_delay s <= last_kin_flush_time s
  /\ print_time s - kin_flush_delay s <= last_kin_flush_time s
  /\ last_kin_flush_time s <= print_time s
  /\ 0 <= kin_flush_delay s.

(** The lookahead callbacks invoked so far, in order. *)
Definition is_callback (e : Event) : bool :=
  match e with Ev_callback _ _ => true | _ => false end.

Definition callback_calls (s : ToolHead) : list Event :=
  List.filter is_callback (events s).

(** How many batches were handed to the trapezoid queue. *)
Definition is_trapq_append (e : Event) : bool :=
  match e with Ev_trapq_append_from_moveq _ _ => true | _ => false end.

Definition trapq_appends (s : ToolHead) : nat :=
  length (List.filter is_trapq_append (events s)).

Definition same_callbacks (s s' : ToolHead) : Prop :=
  callback_calls s' = callback_calls s.

End Observations.

(** ** Example collaborators

    A planner whose validator answers with the code held in the native
    state, whose moves all last one second, and which keeps the newest
    move back on a lazy flush; an MCU clock that runs with the reactor
    clock. *)

Definition demo_extern : Extern := {|
  Native := Q;
  Move := Q;
  min_move_t := fun m => m;
  PyMove := fun n da => (n, (n, 1));
  Py_move_queue_flush_cal := fun n count lazy =>
    (n, if lazy then pred count else count);
  Py_move_queue_del := fun n count => n;
  Py_set_extruder_info := fun n name => n;
  trapq_append_from_moveq := fun n t count =>
    (n, (t + inject_Z (Z.of_nat count), 0));
  estimated_print_time := fun t => t;
  NEVER := 9999999999999999;
  NOW := 0;
  sqrt2 := 1.41421356237;
  wakeups := 8
|}.

(** The example planner's move that lasts [t] seconds. *)
Definition demo_move (t : Q) : @Move demo_extern := t.

Definition demo_printer : Printer := {|
  all_mcus := [0%nat];
  kin_class_name := "CoreXYKinematics";
  kin_status_for_record_z_pos := false;
  kin_homed_axes := "xyz";
  kin_limits := [(0, 350); (0, 350); (0, 350)];
  print_stats_state := Some "standby";
  custom_macro_qmode_flag := false;
  Qmode_section := None;
  print_file_exists := None
|}.

(** A freshly configured toolhead (the defaults of the configuration,
    [max_velocity = 300], [max_accel = 3000]) on a real MCU, whose
    validator answers [code]. *)
Definition demo_toolhead (code : Q) : @ToolHead demo_extern :=
  @ToolHead_init demo_extern 300 3000 1500 5 200 1 2 0.250 0.050
    demo_printer false code 0 0.

(** * Further observations *)

Section MoreObservations.

Context `{Extern}.

(** The four queuing states of the toolhead: main ([""]), ["Flushed"],
    ["Priming"] and ["Drip"]. *)
Definition valid_queuing_state (s : ToolHead) : Prop :=
  special_queuing_state s = ""
  \/ special_queuing_state s = "Flushed"
  \/ special_queuing_state s = "Priming"
  \/ special_queuing_state s = "Drip".

(** The buffer shared with the native planner has its 14 slots, and slots
    0 to 3 hold [max_accel], [max_velocity], the junction deviation and
    [max_accel_to_decel]. *)
Definition buffer_mirrors_limits (s : ToolHead) : Prop :=
  length (double_array s) = 14%nat
  /\ double_array s !! 0%nat = Some (max_accel s)
  /\ double_array s !! 1%nat = Some (max_velocity s)
  /\ double_array s !! 2%nat = Some (junction_deviation s)
  /\ double_array s !! 3%nat = Some (max_accel_to_decel s).

(** [max(kin_flush_times + [SDS_CHECK_TIME])]. *)
Definition scan_window (kin_flush_times : list Q) : Q :=
  match kin_flush_times ++ [SDS_CHECK_TIME] with
  | [] => SDS_CHECK_TIME
  | x :: l => list_max x l
  end.

(** What every operation keeps. *)
Definition toolhead_inv (s : ToolHead) : Prop :=
  valid_queuing_state s
  /\ buffer_mirrors_limits s
  /\ kin_flush_delay s = scan_window (kin_flush_times s).

(** The MCU's estimate of the print time does not go back when the
    reactor's time advances. *)
Definition clock_estimate_monotone : Prop :=
  forall a b, a <= b -> estimated_print_time a <= estimated_print_time b.

(** How far [_update_drip_move_time] lets [print_time] run ahead of the
    estimated print time: [flush_delay] and one drip segment. *)
Definition drip_close (flush_delay : Q) (s : ToolHead) : Prop :=
  print_time s
  <= estimated_print_time (reactor_now s) + flush_delay + DRIP_SEGMENT_TIME.

(** The limits [SET_VELOCITY_LIMIT] has taken from its parameters: a
    parameter that is not given leaves its limit alone; in Q-mode the
    accelerations are capped by the values of [gcode_macro Qmode] (0
    without that section); the square corner velocity is capped by
    [square_corner_max_velocity]. *)
Definition SET_VELOCITY_LIMIT_applied (gcmd : gmap string Q)
    (s s' : ToolHead) : Prop :=
  let qmode := custom_macro_qmode_flag (printer s) in
  let caps := match Qmode_section (printer s) with
              | Some v => v
              | None => (0, 0)
              end in
  qmode_flag s' = qmode
  /\ max_velocity s' = match gcmd !! "VELOCITY" with
                       | Some v => v
                       | None => max_velocity s
                       end
  /\ max_accel s' = match gcmd !! "ACCEL" with
                    | Some a => if qmode && Qlt_bool (fst caps) a
                                then fst caps else a
                    | None => max_accel s
                    end
  /\ square_corner_velocity s'
     = match gcmd !! "SQUARE_CORNER_VELOCITY" with
       | Some v => if Qlt_bool (square_corner_max_velocity s) v
                   then square_corner_max_velocity s else v
       | None => square_corner_velocity s
       end
  /\ requested_accel_to_decel s'
     = match gcmd !! "ACCEL_TO_DECEL" with
       | Some a => if qmode && Qlt_bool (snd caps) a then snd caps else a
       | None => requested_accel_to_decel s
       end.

(** The calls that [_update_move_time] and [_calc_print_time] make. *)
Definition is_clock_event (e : Event) : bool :=
  match e with
  | Ev_step_generator _ _ | Ev_trapq_finalize_moves _
  | Ev_extruder_update_move_time _ | Ev_mcu_flush_moves _ _
  | Ev_sync_print_time _ _ _ => true
  | _ => false
  end.

(** The times the toolhead gave control back to the reactor:
    [reactor.pause] and [drip_completion.wait]. *)
Definition is_pause (e : Event) : bool :=
  match e with
  | Ev_pause _ | Ev_completion_wait _ => true
  | _ => false
  end.

Definition pauses (s : ToolHead) : list Event :=
  List.filter is_pause (events s).

(** A toolhead that cannot pause and has paused [k] so far. *)
Definition cannot_pause (k : list Event) (s : ToolHead) : Prop :=
  can_pause s = false /\ pauses s = k.

(** The exceptions of drip mode: the signal that ends it, and the
    [AttributeError] of testing a [drip_completion] that is [None]. *)
Definition drip_exn (e : Exn) : Prop :=
  match e with
  | DripModeEndSignal | AttributeError => True
  | _ => False
  end.

(** A time handed to a step generator, to [trapq_finalize_moves], to the
    extruder or to an MCU lies between [lo] and [hi]. *)
Definition flushed_between (lo hi : Q) (e : Event) : Prop :=
  match e with
  | Ev_step_generator _ t | Ev_trapq_finalize_moves t
  | Ev_extruder_update_move_time t | Ev_mcu_flush_moves _ t =>
      lo <= t /\ t <= hi
  | _ => True
  end.

(** [can_pause] is as before. *)
Definition same_can_pause (s s' : ToolHead) : Prop :=
  can_pause s' = can_pause s.

(** No exception at all. *)
Definition no_exn (e : Exn) : Prop := False.

(** The MCU's estimate of the print time does not run ahead of the
    reactor's clock: over a stretch of reactor time it advances by the
    length of the stretch at most. *)
Definition clock_estimate_paced : Prop :=
  forall a b, a <= b ->
    estimated_print_time b - estimated_print_time a <= b - a.

(** Moves have left the queue at its head only. *)
Definition queue_suffix (s s' : ToolHead) : Prop :=
  exists k, queue s' = drop k (queue s).

(** In "Drip" state there is a completion to test. *)
Definition drip_has_completion (s : ToolHead) : Prop :=
  special_queuing_state s = "Drip" -> drip_completion s <> None.

End MoreObservations.

(** * Properties *)

(** Simplification is for projections and updates of the state; it
    leaves rational arithmetic and the methods folded. *)
Arguments Qmin : simpl never.
Arguments Qmax : simpl never.
Arguments Qplus : simpl never.
Arguments Qminus : simpl never.
Arguments Qmult : simpl never.
Arguments Qdiv : simpl never.
Arguments Qopp : simpl never.
Arguments Qabs : simpl never.
Arguments Qle_bool : simpl never.
Arguments Qeq_bool : simpl never.
Arguments Qlt_bool : simpl never.
Arguments Qceiling : simpl never.
Arguments Qfloor : simpl never.
Arguments inject_Z : simpl never.
Arguments update_move_time_body : simpl never.
Arguments _update_move_time : simpl never.
Arguments _calc_print_time : simpl never.
Arguments min_print_time : simpl never.

(** Reads fields through updates of the state, everywhere in the goal. *)
Ltac st_simpl :=
  cbn beta iota zeta delta [
    queue junction_flush double_array qmode_flag can_pause commanded_pos
    max_velocity max_accel requested_accel_to_decel max_accel_to_decel
    square_corner_velocity square_corner_max_velocity junction_deviation
    buffer_time_low buffer_time_high buffer_time_start move_flush_time
    print_time special_queuing_state need_check_stall flush_timer
    idle_flush_print_time print_stall drip_completion kin_flush_delay
    kin_flush_times last_kin_flush_time last_kin_move_time
    step_generators extruder_last_position z_pos G29_flag printer
    count_M204 print_stats_z_pos native reactor_now events set_queue
    set_junction_flush set_double_array set_qmode_flag set_can_pause
    set_commanded_pos set_max_velocity set_max_accel
    set_requested_accel_to_decel set_max_accel_to_decel
    set_square_corner_velocity set_junction_deviation set_print_time
    set_special_queuing_state set_need_check_stall set_flush_timer
    set_idle_flush_print_time set_print_stall set_drip_completion
    set_kin_flush_delay set_kin_flush_times set_last_kin_flush_time
    set_last_kin_move_time set_step_generators set_extruder_last_position
    set_z_pos set_G29_flag set_printer set_count_M204
    set_print_stats_z_pos set_native set_reactor_now set_events log
    log_all ].

Ltac st_simpl_all :=
  cbn beta iota zeta delta [
    queue junction_flush double_array qmode_flag can_pause commanded_pos
    max_velocity max_accel requested_accel_to_decel max_accel_to_decel
    square_corner_velocity square_corner_max_velocity junction_deviation
    buffer_time_low buffer_time_high buffer_time_start move_flush_time
    print_time special_queuing_state need_check_stall flush_timer
    idle_flush_print_time print_stall drip_completion kin_flush_delay
    kin_flush_times last_kin_flush_time last_kin_move_time
    step_generators extruder_last_position z_pos G29_flag printer
    count_M204 print_stats_z_pos native reactor_now events set_queue
    set_junction_flush set_double_array set_qmode_flag set_can_pause
    set_commanded_pos set_max_velocity set_max_accel
    set_requested_accel_to_decel set_max_accel_to_decel
    set_square_corner_velocity set_junction_deviation set_print_time
    set_special_queuing_state set_need_check_stall set_flush_timer
    set_idle_flush_print_time set_print_stall set_drip_completion
    set_kin_flush_delay set_kin_flush_times set_last_kin_flush_time
    set_last_kin_move_time set_step_generators set_extruder_last_position
    set_z_pos set_G29_flag set_printer set_count_M204
    set_print_stats_z_pos set_native set_reactor_now set_events log
    log_all ] in *.

Ltac st_simpl_in H :=
  cbn beta iota zeta delta [
    queue junction_flush double_array qmode_flag can_pause commanded_pos
    max_velocity max_accel requested_accel_to_decel max_accel_to_decel
    square_corner_velocity square_corner_max_velocity junction_deviation
    buffer_time_low buffer_time_high buffer_time_start move_flush_time
    print_time special_queuing_state need_check_stall flush_timer
    idle_flush_print_time print_stall drip_completion kin_flush_delay
    kin_flush_times last_kin_flush_time last_kin_move_time
    step_generators extruder_last_position z_pos G29_flag printer
    count_M204 print_stats_z_pos native reactor_now events set_queue
    set_junction_flush set_double_array set_qmode_flag set_can_pause
    set_commanded_pos set_max_velocity set_max_accel
    set_requested_accel_to_decel set_max_accel_to_decel
    set_square_corner_velocity set_junction_deviation set_print_time
    set_special_queuing_state set_need_check_stall set_flush_timer
    set_idle_flush_print_time set_print_stall set_drip_completion
    set_kin_flush_delay set_kin_flush_times set_last_kin_flush_time
    set_last_kin_move_time set_step_generators set_extruder_last_position
    set_z_pos set_G29_flag set_printer set_count_M204
    set_print_stats_z_pos set_native set_reactor_now set_events log
    log_all ] in H.


(** ** Comparisons *)

Lemma Qlt_bool_true (x y : Q) : Qlt_bool x y = true <-> x < y.
Proof.
  unfold Qlt_bool. rewrite negb_true_iff.
  split; intros Hxy.
  - apply Qnot_le_lt. intros Hle. apply Qle_bool_iff in Hle. congruence.
  - destruct (Qle_bool y x) eqn:E; [|reflexivity].
    apply Qle_bool_iff in E. lra.
Qed.

Lemma Qlt_bool_false (x y : Q) : Qlt_bool x y = false <-> y <= x.
Proof.
  unfold Qlt_bool. rewrite negb_false_iff. apply Qle_bool_iff.
Qed.

Lemma Qle_bool_false (x y : Q) : Qle_bool x y = false <-> y < x.
Proof.
  rewrite <- Qlt_bool_true. unfold Qlt_bool.
  destruct (Qle_bool x y); simpl; split; congruence.
Qed.

Lemma Qmin_cases (x y : Q) : (x <= y /\ Qmin x y = x) \/ (y < x /\ Qmin x y = y).
Proof.
  unfold Qmin, GenericMinMax.gmin.
  destruct (x ?= y) eqn:E.
  - left. apply Qeq_alt in E. split; [lra | reflexivity].
  - left. apply Qlt_alt in E. split; [lra | reflexivity].
  - right. apply Qgt_alt in E. split; [lra | reflexivity].
Qed.

Lemma Qmax_cases (x y : Q) : (y <= x /\ Qmax x y = x) \/ (x < y /\ Qmax x y = y).
Proof.
  unfold Qmax, GenericMinMax.gmax.
  destruct (x ?= y) eqn:E.
  - left. apply Qeq_alt in E. split; [lra | reflexivity].
  - right. apply Qlt_alt in E. split; [lra | reflexivity].
  - left. apply Qgt_alt in E. split; [lra | reflexivity].
Qed.

(** Case analysis on every [Qmin] and [Qmax] in sight, then linear
    arithmetic. *)
Ltac minmax :=
  repeat match goal with
    | |- context [Qmin ?x ?y] =>
        let Hc := fresh "Hc" in let He := fresh "He" in
        destruct (Qmin_cases x y) as [[Hc He] | [Hc He]]; rewrite He in *; clear He
    | |- context [Qmax ?x ?y] =>
        let Hc := fresh "Hc" in let He := fresh "He" in
        destruct (Qmax_cases x y) as [[Hc He] | [Hc He]]; rewrite He in *; clear He
    | _ : context [Qmin ?x ?y] |- _ =>
        let Hc := fresh "Hc" in let He := fresh "He" in
        destruct (Qmin_cases x y) as [[Hc He] | [Hc He]]; rewrite He in *; clear He
    | _ : context [Qmax ?x ?y] |- _ =>
        let Hc := fresh "Hc" in let He := fresh "He" in
        destruct (Qmax_cases x y) as [[Hc He] | [Hc He]]; rewrite He in *; clear He
    end;
  try lra.

Section PrintClock.

Context `{Extern}.

Lemma filter_finalize_map_sg (t : Q) (l : list StepGen) :
  List.filter is_finalize (map (fun sg => Ev_step_generator sg t) l) = [].
Proof. induction l; simpl; auto. Qed.

Lemma filter_finalize_map_mcu (t : Q) (l : list Mcu) :
  List.filter is_finalize (map (fun m => Ev_mcu_flush_moves m t) l) = [].
Proof. induction l; simpl; auto. Qed.

Lemma body_print_time npt kfd lkft s :
  print_time (update_move_time_body npt kfd lkft s)
  = Qmin (print_time s + MOVE_BATCH_TIME) npt.
Proof. reflexivity. Qed.

Lemma body_finalize_calls npt kfd lkft s :
  finalize_calls (update_move_time_body npt kfd lkft s)
  = S (finalize_calls s).
Proof.
  unfold finalize_calls, update_move_time_body, log_all, log. simpl.
  rewrite !List.filter_app, filter_finalize_map_sg, filter_finalize_map_mcu.
  simpl. rewrite !length_app. simpl. lia.
Qed.

Lemma loop_finalize_calls n npt kfd lkft s :
  (finalize_calls s < finalize_calls (update_move_time_loop n npt kfd lkft s))%nat.
Proof.
  revert s. induction n as [|n IH]; intros s; cbn [update_move_time_loop].
  - destruct (Qle_bool _ _); rewrite body_finalize_calls; lia.
  - destruct (Qle_bool _ _).
    + rewrite body_finalize_calls; lia.
    + eapply Nat.lt_trans; [|apply IH]. rewrite body_finalize_calls. lia.
Qed.

(** With enough passes allowed the loop stops at its [break], where
    [print_time] has reached [next_print_time]. *)
Lemma loop_reaches n npt kfd lkft s :
  npt - print_time s <= (inject_Z (Z.of_nat n) + 1) * MOVE_BATCH_TIME ->
  print_time (update_move_time_loop n npt kfd lkft s) == npt.
Proof.
  revert s. induction n as [|n IH]; intros s Hn; cbn [update_move_time_loop].
  - destruct (Qle_bool npt _) eqn:E.
    + apply Qle_bool_iff in E. rewrite body_print_time in *. minmax.
    + apply Qle_bool_false in E. rewrite body_print_time in *.
      unfold MOVE_BATCH_TIME in *.
      change (inject_Z (Z.of_nat 0)) with 0 in Hn. minmax.
  - destruct (Qle_bool npt _) eqn:E.
    + apply Qle_bool_iff in E. rewrite body_print_time in *. minmax.
    + apply Qle_bool_false in E. apply IH.
      rewrite body_print_time in *.
      rewrite Nat2Z.inj_succ, <- Z.add_1_r, inject_Z_plus in Hn.
      change (inject_Z 1) with 1 in Hn.
      unfold MOVE_BATCH_TIME in *. minmax.
Qed.

Lemma passes_enough npt s :
  npt - print_time s
  <= (inject_Z (Z.of_nat (update_move_time_passes npt s)) + 1)
     * MOVE_BATCH_TIME.
Proof.
  unfold update_move_time_passes.
  set (d := (npt - print_time s) / MOVE_BATCH_TIME).
  assert (Hd : npt - print_time s == d * MOVE_BATCH_TIME).
  { unfold d, MOVE_BATCH_TIME. field. }
  pose proof (Qle_ceiling d) as Hc.
  assert (Hz : inject_Z (Qceiling d)
               <= inject_Z (Z.of_nat (Z.to_nat (Qceiling d))) + 1).
  { destruct (Z_le_gt_dec 0 (Qceiling d)) as [Hp | Hneg].
    - rewrite Z2Nat.id by assumption. lra.
    - assert (Hn0 : Z.to_nat (Qceiling d) = 0%nat) by lia.
      rewrite Hn0. change (inject_Z (Z.of_nat 0)) with 0.
      assert (inject_Z (Qceiling d) <= inject_Z 0) by
        (rewrite <- Zle_Qle; lia).
      change (inject_Z 0) with 0 in *. lra. }
  rewrite Hd. unfold MOVE_BATCH_TIME. nra.
Qed.

Lemma update_move_time_reaches npt s :
  print_time (_update_move_time npt s) == npt.
Proof. apply loop_reaches, passes_enough. Qed.

End PrintClock.

(** ** Rules for runs *)

Section Rules.

Context `{Extern}.

Lemma wp_bind {A B} (m : M A) (f : A -> M B) Q E s :
  wp m (fun a s' => wp (f a) Q E s') E s -> wp (bind m f) Q E s.
Proof. unfold wp, bind. destruct (m s); auto. Qed.

Lemma wp_mono {A} (m : M A) (Q Q' : A -> ToolHead -> Prop) E E' s :
  wp m Q E s ->
  (forall a s', Q a s' -> Q' a s') ->
  (forall oe s', E oe s' -> E' oe s') ->
  wp m Q' E' s.
Proof. unfold wp. destruct (m s); auto. Qed.

Lemma wp_try_except {A} (m : M A) h Q E s :
  wp m Q (fun oe s' =>
            match oe with
            | Some e => match h e with
                        | Some k => wp k Q E s'
                        | None => E (Some e) s'
                        end
            | None => E None s'
            end) s ->
  wp (try_except m h) Q E s.
Proof.
  unfold wp, try_except. destruct (m s) as [a s'|e s'|s']; auto.
  destruct (h e); auto.
Qed.

Lemma wp_ret {A} (a : A) (Q : A -> ToolHead -> Prop) E s :
  Q a s -> wp (ret a) Q E s.
Proof. exact (fun x => x). Qed.

Lemma wp_gets {A} (f : ToolHead -> A) (Q : A -> ToolHead -> Prop) E s :
  Q (f s) s -> wp (gets f) Q E s.
Proof. exact (fun x => x). Qed.

Lemma wp_modify f (Q : unit -> ToolHead -> Prop) E s :
  Q tt (f s) -> wp (modify f) Q E s.
Proof. exact (fun x => x). Qed.

Lemma wp_raise {A} e (Q : A -> ToolHead -> Prop)
    (E : option Exn -> ToolHead -> Prop) s :
  E (Some e) s -> wp (raise e) Q E s.
Proof. exact (fun x => x). Qed.

Lemma wp_timeout {A} (Q : A -> ToolHead -> Prop)
    (E : option Exn -> ToolHead -> Prop) s :
  E None s -> wp timeout Q E s.
Proof. exact (fun x => x). Qed.

Lemma wp_call_native {A} (f : Native -> Native * A)
    (Q : A -> ToolHead -> Prop) E s :
  Q (snd (f (native s))) (set_native (fst (f (native s))) s) ->
  wp (call_native f) Q E s.
Proof. exact (fun x => x). Qed.

Lemma wp_keeps {A} R P (m : M A) (Q : A -> ToolHead -> Prop)
    (E : option Exn -> ToolHead -> Prop) s :
  keeps R P m ->
  (forall a s', R s s' -> Q a s') ->
  (forall e s', R s s' -> P e -> E (Some e) s') ->
  (forall s', R s s' -> E None s') ->
  wp m Q E s.
Proof.
  intros Hk HQ HE HT. specialize (Hk s). unfold wp.
  destruct (m s) as [a s'|e s'|s']; [auto | destruct Hk; auto | auto].
Qed.

Lemma keeps_wp {A} R (P : Exn -> Prop) (m : M A) :
  (forall s, wp m (fun _ => R s)
               (fun oe s' => R s s' /\ match oe with
                                       | Some e => P e
                                       | None => True
                                       end) s) ->
  keeps R P m.
Proof.
  intros Hw s. specialize (Hw s). unfold wp in Hw.
  destruct (m s); tauto.
Qed.

Lemma keeps_weaken {A} (R R' : ToolHead -> ToolHead -> Prop)
    (P P' : Exn -> Prop) (m : M A) :
  keeps R P m ->
  (forall s s', R s s' -> R' s s') -> (forall e, P e -> P' e) ->
  keeps R' P' m.
Proof.
  intros Hk HR HP s. specialize (Hk s).
  destruct (m s); [auto | destruct Hk; auto | auto].
Qed.

Lemma keeps_st {A} R P (m : M A) s : keeps R P m -> R s (st (m s)).
Proof.
  intros Hk. specialize (Hk s). destruct (m s); simpl; tauto.
Qed.

Section Keeps.

Context (R : ToolHead -> ToolHead -> Prop) `{!PreOrder R}.
Context (P : Exn -> Prop).

Lemma keeps_ret {A} (a : A) : keeps R P (ret a).
Proof. intros s. simpl. reflexivity. Qed.

Lemma keeps_gets {A} (f : ToolHead -> A) : keeps R P (gets f).
Proof. intros s. simpl. reflexivity. Qed.

Lemma keeps_raise {A} e : P e -> keeps R P (@raise _ A e).
Proof. intros He s. simpl. split; [reflexivity | exact He]. Qed.

Lemma keeps_timeout {A} : keeps R P (@timeout _ A).
Proof. intros s. simpl. reflexivity. Qed.

Lemma keeps_modify f : (forall s, R s (f s)) -> keeps R P (modify f).
Proof. intros Hf s. apply Hf. Qed.

Lemma keeps_call_native {A} (f : Native -> Native * A) :
  (forall n s, R s (set_native n s)) -> keeps R P (call_native f).
Proof. intros Hf s. apply Hf. Qed.

Lemma keeps_bind {A B} (m : M A) (f : A -> M B) :
  keeps R P m -> (forall a, keeps R P (f a)) -> keeps R P (bind m f).
Proof.
  intros Hm Hf s. specialize (Hm s). unfold bind.
  destruct (m s) as [a s'|e s'|s']; auto.
  specialize (Hf a s').
  destruct (f a s') as [b s''|e s''|s''];
    try destruct Hf; try split; try (etransitivity; eassumption); auto.
Qed.

Lemma keeps_try_except {A} (m : M A) h :
  keeps R P m -> (forall e k, h e = Some k -> keeps R P k) ->
  keeps R P (try_except m h).
Proof.
  intros Hm Hh s. specialize (Hm s). unfold try_except.
  destruct (m s) as [a s'|e s'|s']; auto.
  destruct Hm as [Hm He].
  destruct (h e) as [k|] eqn:Ek; auto.
  specialize (Hh e k Ek s').
  destruct (k s') as [b s''|e' s''|s''];
    try destruct Hh; try split; try (etransitivity; eassumption); auto.
Qed.

End Keeps.

End Rules.

(** Walks through the text of a run: [prim] settles what one state update
    or native call does, [callee] what a called method does. *)
Ltac keeps_step prim callee :=
  lazymatch goal with
  | |- keeps _ _ (bind _ _) =>
      refine (keeps_bind _ _ _ _ _ _); [ | intros ? ]
  | |- keeps _ _ (ret _) => refine (keeps_ret _ _ _)
  | |- keeps _ _ (gets _) => refine (keeps_gets _ _ _)
  | |- keeps _ _ (raise _) => refine (keeps_raise _ _ _ _); exact I
  | |- keeps _ _ timeout => refine (keeps_timeout _ _)
  | |- keeps _ _ (emit _) => apply keeps_modify; intros ?; prim
  | |- keeps _ _ (modify _) => apply keeps_modify; intros ?; prim
  | |- keeps _ _ (call_native _) =>
      apply keeps_call_native; intros ? ?; prim
  | |- keeps _ _ (try_except _ _) =>
      refine (keeps_try_except _ _ _ _ _ _);
      [ | let e := fresh "e" in let k := fresh "k" in
          let Hk := fresh "Hk" in
          intros e k Hk; try destruct e; inversion Hk; subst; clear Hk ]
  | |- keeps _ _ (if ?b then _ else _) => destruct b
  | |- keeps _ _ (match ?x with _ => _ end) => destruct x
  | |- keeps _ _ _ => callee
  end.

Ltac wp_step :=
  lazymatch goal with
  | |- wp (bind _ _) _ _ _ => apply wp_bind
  | |- wp (ret _) _ _ _ => apply wp_ret
  | |- wp (gets _) _ _ _ => apply wp_gets
  | |- wp (modify _) _ _ _ => apply wp_modify
  | |- wp (emit _) _ _ _ => apply wp_modify
  | |- wp (raise _) _ _ _ => apply wp_raise
  | |- wp timeout _ _ _ => apply wp_timeout
  | |- wp (call_native _) _ _ _ => apply wp_call_native
  | |- wp (try_except _ _) _ _ _ => apply wp_try_except
  | |- wp (if ?b then _ else _) _ _ _ =>
      let E := fresh "Eb" in destruct b eqn:E
  | |- wp (match ?x with _ => _ end) _ _ _ =>
      let E := fresh "Ex" in destruct x eqn:E
  end; cbv beta; cbn [negb].

Ltac wp_walk := repeat wp_step.

(** Closes [R s s'] from [R mid s'] in the context, once [prim] has
    related [s] to [mid]. *)
Ltac keeps_close prim :=
  try (split; [ | exact I ]);
  (etransitivity; [ | eassumption ]); prim.

(** A step through a called method, known by what it keeps. *)
Ltac wp_call lem :=
  lazymatch goal with
  | |- wp (bind _ _) _ _ _ => apply wp_bind
  | |- _ => idtac
  end;
  refine (wp_keeps _ _ _ _ _ _ lem _ _ _); cbv beta;
  [ intros ? ? ? | intros ? ? ? ? | intros ? ? ].

Ltac keeps_walk prim callee := repeat (keeps_step prim callee).

(** ** What the flush machinery leaves alone *)

Section Frames.

Context `{Extern}.

Lemma clock_step_refl s : clock_step s s.
Proof.
  exists (print_time s), []. rewrite app_nil_r. destruct s; reflexivity.
Qed.

Lemma clock_step_trans s1 s2 s3 :
  clock_step s1 s2 -> clock_step s2 s3 -> clock_step s1 s3.
Proof.
  intros (p1 & e1 & ->) (p2 & e2 & ->).
  exists p2, (e1 ++ e2). cbn. rewrite app_assoc. reflexivity.
Qed.

Lemma clock_step_set_print_time p s : clock_step s (set_print_time p s).
Proof. exists p, []. rewrite app_nil_r. destruct s; reflexivity. Qed.

Lemma clock_step_log_all es s s' :
  clock_step s s' -> clock_step s (log_all es s').
Proof.
  intros (p & e & ->). exists p, (e ++ es). unfold log_all. cbn.
  rewrite app_assoc. reflexivity.
Qed.

Lemma clock_step_log e s s' : clock_step s s' -> clock_step s (log e s').
Proof. apply (clock_step_log_all [e]). Qed.

Lemma body_clock_step npt kfd lkft s :
  clock_step s (update_move_time_body npt kfd lkft s).
Proof.
  unfold update_move_time_body. cbv zeta.
  do 2 (apply clock_step_log_all || apply clock_step_log).
  do 2 (apply clock_step_log_all || apply clock_step_log).
  apply clock_step_set_print_time.
Qed.

Lemma loop_clock_step n npt kfd lkft s :
  clock_step s (update_move_time_loop n npt kfd lkft s).
Proof.
  revert s. induction n as [|n IH]; intros s; cbn [update_move_time_loop].
  - destruct (Qle_bool _ _); apply body_clock_step.
  - destruct (Qle_bool _ _); [apply body_clock_step|].
    eapply clock_step_trans; [apply body_clock_step | apply IH].
Qed.

Lemma update_move_time_clock_step npt s :
  clock_step s (_update_move_time npt s).
Proof. apply loop_clock_step. Qed.

Lemma calc_print_time_clock_step s : clock_step s (_calc_print_time s).
Proof.
  unfold _calc_print_time. destruct (Qlt_bool _ _).
  - apply clock_step_log, clock_step_set_print_time.
  - apply clock_step_refl.
Qed.

#[global] Instance frame_preorder : PreOrder frame.
Proof.
  split.
  - intros s. unfold frame. repeat split.
  - intros s1 s2 s3. unfold frame. intuition congruence.
Qed.

Lemma clock_step_frame s s' : clock_step s s' -> frame s s'.
Proof. intros (p & e & ->). unfold frame. repeat split. Qed.

#[global] Instance same_queue_preorder : PreOrder same_queue.
Proof.
  split.
  - intros s. reflexivity.
  - intros s1 s2 s3. unfold same_queue. congruence.
Qed.

Lemma clock_step_same_queue s s' : clock_step s s' -> same_queue s s'.
Proof. intros (p & e & ->). reflexivity. Qed.

#[global] Instance same_callbacks_preorder : PreOrder same_callbacks.
Proof.
  split.
  - intros s. reflexivity.
  - intros s1 s2 s3. unfold same_callbacks. congruence.
Qed.

Lemma filter_callback_map_sg (t : Q) (l : list StepGen) :
  List.filter is_callback (map (fun sg => Ev_step_generator sg t) l) = [].
Proof. induction l; simpl; auto. Qed.

Lemma filter_callback_map_mcu (t : Q) (l : list Mcu) :
  List.filter is_callback (map (fun m => Ev_mcu_flush_moves m t) l) = [].
Proof. induction l; simpl; auto. Qed.

Lemma same_callbacks_body npt kfd lkft s :
  same_callbacks s (update_move_time_body npt kfd lkft s).
Proof.
  unfold same_callbacks, callback_calls, update_move_time_body, log_all, log.
  st_simpl.
  rewrite !List.filter_app, filter_callback_map_sg, filter_callback_map_mcu.
  cbn [List.filter is_callback]. rewrite !app_nil_r. reflexivity.
Qed.

Lemma same_callbacks_update_move_time npt s :
  same_callbacks s (_update_move_time npt s).
Proof.
  unfold _update_move_time.
  generalize (update_move_time_passes npt s) as n.
  generalize (kin_flush_delay s) as kfd.
  generalize (last_kin_flush_time s) as lkft. intros lkft kfd n.
  revert s. induction n as [|n IH]; intros s; cbn [update_move_time_loop].
  - destruct (Qle_bool _ _); apply same_callbacks_body.
  - destruct (Qle_bool _ _); [apply same_callbacks_body|].
    etransitivity; [apply same_callbacks_body | apply IH].
Qed.

Lemma same_callbacks_calc_print_time s :
  same_callbacks s (_calc_print_time s).
Proof.
  unfold _calc_print_time. destruct (Qlt_bool _ _); [|reflexivity].
  unfold same_callbacks, callback_calls, log. st_simpl.
  rewrite List.filter_app. cbn [List.filter is_callback].
  rewrite app_nil_r. reflexivity.
Qed.

End Frames.

Ltac frame_prim :=
  first [ apply clock_step_frame;
          first [ apply update_move_time_clock_step
                | apply calc_print_time_clock_step ]
        | unfold frame, log; repeat split ].

Ltac same_queue_prim :=
  first [ apply clock_step_same_queue;
          first [ apply update_move_time_clock_step
                | apply calc_print_time_clock_step ]
        | reflexivity ].

Ltac frame_walk callee := keeps_walk ltac:(idtac; frame_prim) callee.

Ltac same_queue_walk callee :=
  keeps_walk ltac:(idtac; same_queue_prim) callee.

Section FrameOfMethods.

Context `{Extern}.

Lemma frame_update_drip_move_time_loop n npt fd :
  keeps frame not_command_error (update_drip_move_time_loop n npt fd).
Proof.
  induction n as [|n IH]; cbn [update_drip_move_time_loop];
    unfold update_drip_move_time_body, completion_wait.
  - frame_walk idtac.
  - frame_walk ltac:(exact IH).
Qed.

Lemma frame_process_moves moves : keeps frame not_command_error (_process_moves moves).
Proof.
  unfold _process_moves, _update_drip_move_time.
  frame_walk ltac:(apply frame_update_drip_move_time_loop).
Qed.

Lemma frame_MoveQueue_flush lazy : keeps frame not_command_error (MoveQueue_flush lazy).
Proof.
  unfold MoveQueue_flush. frame_walk ltac:(apply frame_process_moves).
Qed.

Lemma frame_MoveQueue_reset : keeps frame not_command_error MoveQueue_reset.
Proof. unfold MoveQueue_reset. frame_walk idtac. Qed.

Lemma frame_MoveQueue_add_move m : keeps frame not_command_error (MoveQueue_add_move m).
Proof.
  unfold MoveQueue_add_move. frame_walk ltac:(apply frame_MoveQueue_flush).
Qed.

Lemma frame_flush_step_generation : keeps frame not_command_error flush_step_generation.
Proof.
  unfold flush_step_generation, MoveQueue_set_flush_time.
  frame_walk ltac:(apply frame_MoveQueue_flush).
Qed.

Lemma frame_flush_handler eventtime :
  keeps frame not_command_error (_flush_handler eventtime).
Proof.
  unfold _flush_handler.
  frame_walk ltac:(apply frame_flush_step_generation).
Qed.

Lemma frame_run_flush_timer n waketime :
  keeps frame not_command_error (run_flush_timer n waketime).
Proof.
  induction n as [|n IH]; cbn [run_flush_timer];
    frame_walk ltac:(first [ exact IH | apply frame_flush_handler ]).
Qed.

Lemma frame_reactor_pause waketime :
  keeps frame not_command_error (reactor_pause waketime).
Proof.
  unfold reactor_pause. frame_walk ltac:(apply frame_run_flush_timer).
Qed.

Lemma frame_check_stall_loop n eventtime :
  keeps frame not_command_error (check_stall_loop n eventtime).
Proof.
  revert eventtime. induction n as [|n IH]; intros eventtime;
    cbn [check_stall_loop];
    frame_walk ltac:(first [ apply IH | apply frame_reactor_pause ]).
Qed.

Lemma frame_check_stall : keeps frame not_command_error _check_stall.
Proof.
  unfold _check_stall. frame_walk ltac:(apply frame_check_stall_loop).
Qed.

End FrameOfMethods.

(** ** The print clock *)

Section PrintClockClaims.

Context `{Extern}.

(** C9.  [_update_move_time(next_print_time)] runs the body of its loop
    at least once (each pass calls [trapq_finalize_moves] once) and
    returns with [print_time] equal to [next_print_time]; when
    [next_print_time] is below [print_time] at entry, the call lowers
    [print_time]. *)
Theorem update_move_time_sets_print_time (next_print_time : Q)
    (s : ToolHead) :
  let s' := _update_move_time next_print_time s in
  (finalize_calls s < finalize_calls s')%nat
  /\ print_time s' == next_print_time
  /\ (next_print_time < print_time s -> print_time s' < print_time s).
Proof.
  cbv zeta. split; [apply loop_finalize_calls|].
  pose proof (update_move_time_reaches next_print_time s) as Hr.
  split; [exact Hr|]. intros Hlt. rewrite Hr. exact Hlt.
Qed.

(** C3, as the code has it.  With
    [est = mcu.estimated_print_time(reactor.monotonic())],
    [_calc_print_time] compares [print_time] with
    [max(est + buffer_time_start,
         max(est + MIN_KIN_TIME, last_kin_flush_time) + kin_flush_delay)]:
    when that value is above [print_time] it becomes the new [print_time]
    and [toolhead:sync_print_time(now, est, print_time)] is sent;
    otherwise nothing changes and nothing is sent. *)
Theorem calc_print_time_rebase (s : ToolHead) :
  let now := reactor_now s in
  let est := estimated_print_time now in
  let target :=
    Qmax (est + buffer_time_start s)
         (Qmax (est + MIN_KIN_TIME) (last_kin_flush_time s)
          + kin_flush_delay s) in
  (print_time s < target ->
   _calc_print_time s
   = log (Ev_sync_print_time now est target) (set_print_time target s))
  /\ (target <= print_time s -> _calc_print_time s = s).
Proof.
  cbv zeta. unfold _calc_print_time, min_print_time. split; intros Hc.
  - apply Qlt_bool_true in Hc. rewrite Hc. reflexivity.
  - apply Qlt_bool_false in Hc. rewrite Hc. reflexivity.
Qed.

End PrintClockClaims.

Section PrintClockExamples.

#[local] Existing Instance demo_extern.

Lemma update_move_time_sets_print_time_witness :
  print_time (_update_move_time 3 (set_print_time 5 (demo_toolhead 0))) < 5.
Proof.
  apply (update_move_time_sets_print_time 3
           (set_print_time 5 (demo_toolhead 0))).
  vm_compute. reflexivity.
Defined.

(** The idle toolhead of the example is rebased to
    [est + buffer_time_start = 0.250]. *)
Lemma calc_print_time_rebase_witness :
  _calc_print_time (demo_toolhead 0)
  = log (Ev_sync_print_time 0 0 (Qmax (0 + 0.250) (Qmax (0 + 0.100) 0 + 0.001)))
        (set_print_time (Qmax (0 + 0.250) (Qmax (0 + 0.100) 0 + 0.001))
           (demo_toolhead 0)).
Proof.
  apply (calc_print_time_rebase (demo_toolhead 0)).
  vm_compute. reflexivity.
Defined.

(** C3 as worded fails after a one second dwell and a flush: then
    [last_kin_flush_time = 1.249] and [print_time = 1.250]; the worded
    target [1.249 + 0.001 + 0.100 = 1.350] is above [print_time], yet
    the code's own target is [1.250] and [_calc_print_time] changes
    nothing. *)
Lemma calc_print_time_spec_counterexample :
  let s := run_ops [OpDwell 1; OpFlushStepGeneration] (demo_toolhead 0) in
  print_time s < spec_min_print_time s
  /\ ~ print_time (_calc_print_time s) == spec_min_print_time s
  /\ events (_calc_print_time s) = events s.
Proof.
  vm_compute. split; [reflexivity|]. split; [|reflexivity].
  intros Hc. discriminate Hc.
Qed.

End PrintClockExamples.

(** ** Appending to the lookahead queue *)

Section AddMove.

Context `{Extern}.

(** C5, as the code has it.  [add_move] places the move at the tail.  On
    an empty queue that is all: the countdown keeps its value and nothing
    is flushed.  On a non-empty queue [min_move_t] is subtracted from
    [junction_flush], and [flush(lazy=True)] runs exactly when the new
    countdown is [<= 0]. *)
Theorem add_move_countdown (mv : Move) (s : ToolHead) :
  (queue s = [] ->
   MoveQueue_add_move mv s = Ok tt (set_queue [(mv, [])] s))
  /\ (queue s <> [] ->
      let s1 := set_junction_flush (junction_flush s - min_move_t mv)
                  (set_queue (queue s ++ [(mv, [])]) s) in
      (0 < junction_flush s - min_move_t mv ->
       MoveQueue_add_move mv s = Ok tt s1)
      /\ (junction_flush s - min_move_t mv <= 0 ->
          MoveQueue_add_move mv s = MoveQueue_flush true s1)).
Proof.
  split.
  - intros Hq. unfold MoveQueue_add_move, bind, modify, gets, ret. cbn.
    rewrite Hq. reflexivity.
  - intros Hq. cbv zeta.
    assert (Hlen : (length (queue s ++ [(mv, [])]) =? 1)%nat = false).
    { apply Nat.eqb_neq. rewrite length_app. cbn.
      destruct (queue s); [congruence | cbn; lia]. }
    split; intros Hc.
    + apply Qle_bool_false in Hc.
      unfold MoveQueue_add_move, bind, modify, gets, ret. st_simpl.
      rewrite Hlen. st_simpl. rewrite Hc. reflexivity.
    + apply Qle_bool_iff in Hc.
      unfold MoveQueue_add_move, bind, modify, gets, ret. st_simpl.
      rewrite Hlen. st_simpl. rewrite Hc. reflexivity.
Qed.

End AddMove.

Section AddMoveExamples.

#[local] Existing Instance demo_extern.

(** A second three-second move on a countdown of two seconds: the lazy
    flush runs. *)
Lemma add_move_countdown_witness :
  let s := st (MoveQueue_add_move (demo_move 3) (demo_toolhead 0)) in
  MoveQueue_add_move (demo_move 3) s
  = MoveQueue_flush true
      (set_junction_flush (junction_flush s - 3)
         (set_queue (queue s ++ [((demo_move 3), [])]) s)).
Proof.
  cbv zeta.
  apply (add_move_countdown (demo_move 3)
           (st (MoveQueue_add_move (demo_move 3) (demo_toolhead 0)))).
  - vm_compute. discriminate.
  - vm_compute. discriminate.
Defined.

(** C5 as worded fails for the first move: a three-second move placed
    into the empty queue leaves the two-second countdown untouched and
    flushes nothing. *)
Lemma add_move_first_move_counterexample :
  let s := demo_toolhead 0 in
  let s' := st (MoveQueue_add_move (demo_move 3) s) in
  queue s = []
  /\ junction_flush s' == junction_flush s
  /\ ~ junction_flush s' == junction_flush s - min_move_t (demo_move 3)
  /\ events s' = events s.
Proof.
  vm_compute. repeat split; try reflexivity. intros Hc. discriminate Hc.
Qed.

End AddMoveExamples.

(** ** Moves *)

Ltac pos_queue_prim := unfold pos_queue, log; split; reflexivity.
Ltac pos_queue_walk callee :=
  keeps_walk ltac:(idtac; pos_queue_prim) callee.

Section MoveFacts.

Context `{Extern}.

#[global] Instance pos_queue_preorder : PreOrder pos_queue.
Proof.
  split.
  - intros s. split; reflexivity.
  - intros s1 s2 s3 [? ?] [? ?]. split; congruence.
Qed.

Lemma pos_queue_index l i : keeps pos_queue any_exn (index l i).
Proof. unfold index. pos_queue_walk idtac. Qed.

Lemma pos_queue_da_store i v : keeps pos_queue any_exn (da_store i v).
Proof. unfold da_store. pos_queue_walk idtac. Qed.

Lemma pos_queue_record_z_pos z : keeps pos_queue any_exn (record_z_pos z).
Proof. unfold record_z_pos, record_z_pos_write. pos_queue_walk idtac. Qed.

Lemma pos_queue_mirror_commanded_pos :
  keeps pos_queue any_exn mirror_commanded_pos.
Proof.
  unfold mirror_commanded_pos.
  pos_queue_walk ltac:(first [apply pos_queue_index | apply pos_queue_da_store]).
Qed.

Lemma pos_queue_call_PyMove : keeps pos_queue any_exn call_PyMove.
Proof.
  unfold call_PyMove. pos_queue_walk ltac:(apply pos_queue_da_store).
Qed.

Lemma pos_queue_move_until_PyMove newpos speed :
  keeps pos_queue any_exn (move_until_PyMove newpos speed).
Proof.
  unfold move_until_PyMove.
  pos_queue_walk ltac:(first [ apply pos_queue_index
                             | apply pos_queue_da_store
                             | apply pos_queue_record_z_pos
                             | apply pos_queue_mirror_commanded_pos
                             | apply pos_queue_call_PyMove ]).
Qed.

End MoveFacts.
Section MoveClaims.

Context `{Extern}.

Lemma wp_st {A} (m : M A) (P : ToolHead -> Prop) s :
  wp m (fun _ => P) (fun _ => P) s -> P (st (m s)).
Proof. unfold wp. destruct (m s); auto. Qed.

Lemma wp_run {A} (m : M A) Q E s : wp m Q E s ->
  match m s with
  | Ok a s' => Q a s'
  | Raise e s' => E (Some e) s'
  | Timeout s' => E None s'
  end.
Proof. exact (fun x => x). Qed.

Lemma eq_check_move_out_of_range ep :
  keeps eq not_command_error (check_move_out_of_range ep).
Proof.
  unfold check_move_out_of_range, index.
  keeps_walk ltac:(idtac; reflexivity) idtac.
Qed.

(** A [command_error] leaves [after_PyMove] before anything is written:
    the branches that go on to [add_move] never raise one. *)
Lemma after_PyMove_wp newpos mv s :
  wp (after_PyMove newpos mv) (fun _ _ => True)
     (fun oe s' => forall e, oe = Some (command_error e) -> s' = s) s.
Proof.
  unfold after_PyMove, index.
  wp_walk.
  all: try (intros ? [=]; fail).
  all: try reflexivity.
  all: try exact I.
  all: try (wp_call (frame_MoveQueue_add_move mv);
       [ wp_walk; try exact I;
         wp_call frame_check_stall;
         [ exact I | intros ? [= ->]; contradiction | intros ? [=] ]
       | intros ? [= ->]; contradiction
       | intros ? [=] ]).
  wp_call (eq_check_move_out_of_range newpos).
  - subst. wp_walk. reflexivity.
  - intros ? [= ->]; contradiction.
  - intros ? [=].
Qed.

(** The validator's codes -2, -4, -5 and -6 each end [move] in a
    [command_error], in the state the dispatch started in. *)
Lemma after_PyMove_validation_error newpos mv s code :
  double_array s !! 13%nat = Some code ->
  (code == -2 ->
   after_PyMove newpos mv s = Raise (command_error MustHomeAxisFirst) s)
  /\ (code == -4 ->
      after_PyMove newpos mv s = Raise (command_error ExtrudeBelowMinTemp) s)
  /\ (code == -5 ->
      after_PyMove newpos mv s
      = Raise (command_error ExtrudeOnlyMoveTooLong) s)
  /\ (code == -6 ->
      after_PyMove newpos mv s
      = Raise (command_error MoveExceedsMaximumExtrusion) s).
Proof.
  intros Hda.
  repeat split; intros Hc;
    match type of Hc with
    | code == ?a =>
        assert (Hb : forall b, Qeq_bool code b = Qeq_bool a b)
          by (intros b; rewrite Hc; reflexivity)
    end;
    unfold after_PyMove, index, bind, gets, ret, raise;
    rewrite Hda, !Hb;
    repeat match goal with
      | |- context [Qeq_bool ?a ?b] =>
          let v := eval vm_compute in (Qeq_bool a b) in
          change (Qeq_bool a b) with v
      end;
    reflexivity.
Qed.

(** What is known once [move] has reached the validator. *)
Lemma move_until_PyMove_wp newpos speed s :
  wp (move_until_PyMove newpos speed)
     (fun _ s1 => pos_queue s s1
                  /\ (exists v, newpos !! 3%nat = Some v)
                  /\ (3 < length (commanded_pos s))%nat)
     (fun _ _ => True) s.
Proof.
  unfold move_until_PyMove. unfold index at 1. wp_walk; try exact I.
  wp_call (pos_queue_record_z_pos q); try exact I.
  match goal with Hpq : pos_queue _ _ |- _ => destruct Hpq as [Hcp Hq] end.
  unfold mirror_commanded_pos, call_PyMove, index, da_store.
  wp_walk; try exact I.
  split; [split; st_simpl; assumption|].
  split; [eauto|].
  rewrite <- Hcp. eapply lookup_lt_Some; eassumption.
Qed.

(** C7.  When [move(newpos, speed)] raises a [command_error] (the
    validator's codes -2 to -6: must home, out of range, extrude below
    minimum temperature, extrude only move too long, maximum extrusion
    exceeded), [commanded_pos] and the move queue are as they were before
    the call. *)
Theorem move_command_error_leaves_pos_and_queue (newpos : list Q)
    (speed : Q) (s s' : ToolHead) (e : ErrMsg) :
  move newpos speed s = Raise (command_error e) s' ->
  commanded_pos s' = commanded_pos s /\ queue s' = queue s.
Proof.
  intros Hrun.
  assert (Hw : wp (move newpos speed) (fun _ _ => True)
                 (fun oe s' => forall e, oe = Some (command_error e) ->
                                         pos_queue s s') s).
  { unfold move.
    wp_call (pos_queue_move_until_PyMove newpos speed).
    - eapply wp_mono; [apply after_PyMove_wp | auto |].
      cbv beta. intros oe s2 Hs2 e0 He0. rewrite (Hs2 e0 He0). assumption.
    - intros e1 _. assumption.
    - intros e1 [=]. }
  apply wp_run in Hw. rewrite Hrun in Hw. exact (Hw e eq_refl).
Qed.

(** C10.  When the validator has answered [1] (extruder only move), that
    is, [double_array[13] == 1] once [move] has called [PyMove()],
    [move] writes [newpos[3]] to [commanded_pos[3]] and leaves
    [commanded_pos[0]], [commanded_pos[1]] and [commanded_pos[2]] as they
    were, whatever happens afterwards in the call. *)
Theorem move_extruder_only (newpos : list Q) (speed : Q) (s s1 : ToolHead)
    (mv : Move) (code : Q) :
  move_until_PyMove newpos speed s = Ok mv s1 ->
  double_array s1 !! 13%nat = Some code ->
  code == 1 ->
  let s' := st (move newpos speed s) in
  commanded_pos s' !! 3%nat = newpos !! 3%nat
  /\ commanded_pos s' !! 0%nat = commanded_pos s !! 0%nat
  /\ commanded_pos s' !! 1%nat = commanded_pos s !! 1%nat
  /\ commanded_pos s' !! 2%nat = commanded_pos s !! 2%nat.
Proof.
  intros Hpre Hda Hcode. cbv zeta.
  pose proof (wp_run _ _ _ _ (move_until_PyMove_wp newpos speed s)) as Hw.
  rewrite Hpre in Hw. destruct Hw as ([Hcp Hq] & [v Hv] & Hlen).
  assert (Hmove : move newpos speed s = after_PyMove newpos mv s1).
  { unfold move, bind. rewrite Hpre. reflexivity. }
  rewrite Hmove.
  assert (Hfin : commanded_pos (st (after_PyMove newpos mv s1))
                 = <[3%nat:=v]> (commanded_pos s)).
  { apply (wp_st _ (fun s' => commanded_pos s' = <[3%nat:=v]> (commanded_pos s))).
    unfold after_PyMove, index. wp_step. wp_step. wp_step.
    st_simpl_all. rewrite Hda. wp_step. wp_step.
    assert (E0 : Qeq_bool code 0 = false).
    { destruct (Qeq_bool code 0) eqn:E; [|reflexivity].
      apply Qeq_bool_iff in E. lra. }
    assert (E1 : Qeq_bool code 1 = true) by (apply Qeq_bool_iff; exact Hcode).
    assert (E3 : (3 <? length (commanded_pos s1))%nat = true).
    { apply Nat.ltb_lt. rewrite Hcp. exact Hlen. }
    rewrite E0, E1, Hv. do 4 wp_step. rewrite E3. wp_walk.
    wp_call (frame_MoveQueue_add_move mv).
    - wp_walk; try (st_simpl; unfold frame in *; st_simpl_all; intuition congruence).
      wp_call frame_check_stall;
        unfold frame in *; st_simpl_all; intuition congruence.
    - unfold frame in *; st_simpl_all; intuition congruence.
    - unfold frame in *; st_simpl_all; intuition congruence. }
  rewrite Hfin, Hv.
  split; [apply list_lookup_insert_eq; exact Hlen|].
  repeat split; apply list_lookup_insert_ne; lia.
Qed.

End MoveClaims.

Section MoveExamples.

#[local] Existing Instance demo_extern.

(** An unhomed printer (validator code -2): the move is refused and the
    toolhead stays at the origin with an empty queue. *)
Lemma move_command_error_leaves_pos_and_queue_witness :
  let s := demo_toolhead (-2) in
  let s' := st (move [10; 20; 0; 0] 50 s) in
  move [10; 20; 0; 0] 50 s = Raise (command_error MustHomeAxisFirst) s'
  /\ commanded_pos s' = commanded_pos s /\ queue s' = queue s.
Proof.
  cbv zeta.
  assert (Hrun : move [10; 20; 0; 0] 50 (demo_toolhead (-2))
                 = Raise (command_error MustHomeAxisFirst)
                     (st (move [10; 20; 0; 0] 50 (demo_toolhead (-2))))).
  { vm_compute. reflexivity. }
  split; [exact Hrun|].
  exact (move_command_error_leaves_pos_and_queue _ _ _ _ _ Hrun).
Defined.

(** An extruder only move (validator code 1) to E = 4. *)
Lemma move_extruder_only_witness :
  let s := demo_toolhead 1 in
  let s' := st (move [0; 0; 0; 4] 50 s) in
  commanded_pos s' !! 3%nat = Some 4
  /\ commanded_pos s' !! 0%nat = commanded_pos s !! 0%nat
  /\ commanded_pos s' !! 1%nat = commanded_pos s !! 1%nat
  /\ commanded_pos s' !! 2%nat = commanded_pos s !! 2%nat.
Proof.
  cbv zeta.
  refine (move_extruder_only [0; 0; 0; 4] 50 (demo_toolhead 1)
            (st (move_until_PyMove [0; 0; 0; 4] 50 (demo_toolhead 1)))
            (demo_move 1) 1 _ _ _).
  - vm_compute. reflexivity.
  - vm_compute. reflexivity.
  - reflexivity.
Defined.

End MoveExamples.
(** ** G-code commands *)

Section Commands.

Context `{Extern}.

(** C8, as the code has it.  [SET_VELOCITY_LIMIT] with none of
    [VELOCITY], [ACCEL], [SQUARE_CORNER_VELOCITY], [ACCEL_TO_DECEL] never
    reports the limits.  On a toolhead whose [max_accel] is not zero it
    ends in the name error of the undefined [msg]; on one whose
    [max_accel] is zero, [_calc_junction_deviation] divides by it first
    and the command ends in [ZeroDivisionError].  Either way nothing is
    reported and the four limits keep their values (the buffer is taken
    to have its slots). *)
Theorem set_velocity_limit_without_arguments (gcmd : gmap string Q)
    (s : ToolHead) :
  gcmd !! "VELOCITY" = None ->
  gcmd !! "ACCEL" = None ->
  gcmd !! "SQUARE_CORNER_VELOCITY" = None ->
  gcmd !! "ACCEL_TO_DECEL" = None ->
  (3 < length (double_array s))%nat ->
  exists s',
    cmd_SET_VELOCITY_LIMIT gcmd s
    = Raise (if Qeq_bool (max_accel s) 0 then ZeroDivisionError
             else NameError "msg") s'
    /\ events s' = events s
    /\ max_velocity s' = max_velocity s
    /\ max_accel s' = max_accel s
    /\ square_corner_velocity s' = square_corner_velocity s
    /\ requested_accel_to_decel s' = requested_accel_to_decel s.
Proof.
  intros Hv Ha Hs Hr Hlen.
  assert (Hw : wp (cmd_SET_VELOCITY_LIMIT gcmd) (fun _ _ => False)
            (fun oe s' =>
               oe = Some (if Qeq_bool (max_accel s) 0 then ZeroDivisionError
                          else NameError "msg")
               /\ events s' = events s
               /\ max_velocity s' = max_velocity s
               /\ max_accel s' = max_accel s
               /\ square_corner_velocity s' = square_corner_velocity s
               /\ requested_accel_to_decel s' = requested_accel_to_decel s) s).
  { unfold cmd_SET_VELOCITY_LIMIT, get_float_above, get_float_minval.
    rewrite Hv, Ha, Hs, Hr.
    unfold _calc_junction_deviation, da_store.
    wp_walk; st_simpl_all;
      try match goal with
          | Hb : Qeq_bool (max_accel s) 0 = _ |- _ => rewrite Hb
          end;
      try (repeat split; reflexivity);
      try discriminate;
      try (match goal with
           | Hb : (_ <? _)%nat = false |- _ =>
               apply Nat.ltb_ge in Hb;
               try rewrite length_insert in Hb; lia
           end). }
  apply wp_run in Hw.
  destruct (cmd_SET_VELOCITY_LIMIT gcmd s) as [a s'|e s'|s'].
  - contradiction.
  - destruct Hw as ([= ->] & Hw). exists s'. split; [reflexivity | exact Hw].
  - destruct Hw as [Hw _]. discriminate Hw.
Qed.

(** Truncation of a number whose integer part is above 100. *)
Lemma int_of_float_above (v : Q) :
  (100 < int_of_float v)%Z -> 100 < v.
Proof.
  unfold int_of_float. destruct (Qlt_bool v 0) eqn:E; intros Hz.
  - apply Qlt_bool_true in E.
    assert (Hc : inject_Z (Qceiling v - 1) < v) by apply Qceiling_lt.
    assert (Hi : inject_Z 100 <= inject_Z (Qceiling v - 1)).
    { rewrite <- Zle_Qle. lia. }
    change (inject_Z 100) with 100 in Hi. lra.
  - assert (Hf : inject_Z (Qfloor v) <= v) by apply Qfloor_le.
    assert (Hi : inject_Z 101 <= inject_Z (Qfloor v)).
    { rewrite <- Zle_Qle. lia. }
    change (inject_Z 101) with 101 in Hi. lra.
Qed.


Lemma M204_set_accel_wp (accel : Q) (cmd : M204Cmd) (s : ToolHead) :
  ~ accel == 0 ->
  (3 < length (double_array s))%nat ->
  wp (M204_set_accel accel cmd)
     (fun _ s' => M204_applied accel s s') (fun _ _ => False) s.
Proof.
  intros Ha Hlen.
  unfold M204_set_accel, _calc_junction_deviation, da_store.
  wp_walk; st_simpl_all;
    try (match goal with
         | Hb : Qeq_bool _ _ = true |- _ =>
             apply Qeq_bool_iff in Hb; contradiction
         end);
    try (match goal with
         | Hb : (_ <? _)%nat = false |- _ =>
             apply Nat.ltb_ge in Hb;
             repeat rewrite length_insert in Hb; lia
         end).
  all: unfold M204_applied; st_simpl.
  all: repeat split.
  all: try (rewrite list_lookup_insert_ne by lia).
  all: try (rewrite list_lookup_insert_ne by lia).
  all: apply list_lookup_insert_eq; repeat rewrite length_insert; lia.
Qed.


(** C6, as the code has it.  [cmd_M204] compares the integer part of [S]
    ([int(float(S))]) with 100.  With [S] given and its integer part at
    most 100 (and not the -1 that stands for "no S"), the acceleration
    becomes 100; with the integer part of [S] above 100 it becomes [S];
    without [S] it becomes [min(P, T)] when [P] and [T] are both given
    and above zero; without [S] and with [P] or [T] missing (the one
    given, if any, above zero) only the key73 response is produced.
    Whenever an acceleration is taken, [max_accel] holds it and the
    junction deviation is recomputed from it. *)
Theorem M204_sets_acceleration (gcmd : gmap string Q) (s : ToolHead) :
  (3 < length (double_array s))%nat ->
  (forall v, gcmd !! "S" = Some v ->
     int_of_float v <> (-1)%Z -> (int_of_float v <= 100)%Z ->
     exists s', cmd_M204 gcmd s = Ok tt s' /\ M204_applied 100 s s')
  /\ (forall v, gcmd !! "S" = Some v -> (100 < int_of_float v)%Z ->
      exists s', cmd_M204 gcmd s = Ok tt s' /\ M204_applied v s s')
  /\ (forall p t, gcmd !! "S" = None ->
      gcmd !! "P" = Some p -> gcmd !! "T" = Some t -> 0 < p -> 0 < t ->
      exists s', cmd_M204 gcmd s = Ok tt s'
                 /\ M204_applied (Qmin p t) s s')
  /\ (gcmd !! "S" = None ->
      gcmd !! "P" = None \/ gcmd !! "T" = None ->
      (forall p, gcmd !! "P" = Some p -> 0 < p) ->
      (forall t, gcmd !! "T" = Some t -> 0 < t) ->
      cmd_M204 gcmd s = Ok tt (log (Ev_respond_info "key73") s)).
Proof.
  intros Hlen.
  assert (Hok : forall accel cmd, ~ accel == 0 ->
            exists s', M204_set_accel accel cmd s = Ok tt s'
                       /\ M204_applied accel s s').
  { intros accel cmd Ha.
    pose proof (wp_run _ _ _ _ (M204_set_accel_wp accel cmd s Ha Hlen)) as Hw.
    destruct (M204_set_accel accel cmd s) as [[] s'|e s'|s'];
      [eauto | contradiction | contradiction]. }
  assert (Hnone : int_of_float (-1) = (-1)%Z) by reflexivity.
  repeat split.
  - intros v HS Hm1 H100.
    unfold cmd_M204. rewrite HS.
    apply Z.eqb_neq in Hm1. apply Z.leb_le in H100.
    rewrite Hm1, H100. cbn [negb andb].
    unfold bind at 1, ret. apply Hok. lra.
  - intros v HS H100.
    pose proof (int_of_float_above v H100) as Hv.
    unfold cmd_M204, get_float_above. rewrite HS.
    assert (E1 : (int_of_float v <=? 100)%Z = false) by (apply Z.leb_gt; lia).
    assert (E2 : Qle_bool v 0 = false) by (apply Qle_bool_false; lra).
    rewrite E1, E2, andb_false_r.
    unfold bind at 1, ret. apply Hok. lra.
  - intros p t HS HP HT Hp Ht.
    unfold cmd_M204, get_float_above. rewrite HS, HP, HT, Hnone.
    assert (E1 : Qle_bool p 0 = false) by (apply Qle_bool_false; lra).
    assert (E2 : Qle_bool t 0 = false) by (apply Qle_bool_false; lra).
    rewrite E1, E2. cbn [Z.eqb negb andb].
    unfold bind, ret. apply Hok.
    destruct (Qmin_cases p t) as [[_ ->]|[_ ->]]; lra.
  - intros HS HPT HP HT.
    unfold cmd_M204, get_float_above. rewrite HS, Hnone.
    cbn [Z.eqb negb andb]. unfold bind, ret.
    destruct (gcmd !! "P") as [p|] eqn:EP.
    + assert (E1 : Qle_bool p 0 = false)
        by (apply Qle_bool_false; apply HP; reflexivity).
      rewrite E1.
      destruct (gcmd !! "T") as [t|] eqn:ET;
        [destruct HPT; discriminate | reflexivity].
    + destruct (gcmd !! "T") as [t|] eqn:ET; [|reflexivity].
      assert (E2 : Qle_bool t 0 = false)
        by (apply Qle_bool_false; apply HT; reflexivity).
      rewrite E2. reflexivity.
Qed.

End Commands.

Section CommandExamples.

#[local] Existing Instance demo_extern.

Lemma set_velocity_limit_without_arguments_witness :
  exists s',
    cmd_SET_VELOCITY_LIMIT ∅ (demo_toolhead 0) = Raise (NameError "msg") s'
    /\ events s' = events (demo_toolhead 0)
    /\ max_velocity s' = max_velocity (demo_toolhead 0)
    /\ max_accel s' = max_accel (demo_toolhead 0)
    /\ square_corner_velocity s' = square_corner_velocity (demo_toolhead 0)
    /\ requested_accel_to_decel s'
       = requested_accel_to_decel (demo_toolhead 0).
Proof.
  apply (set_velocity_limit_without_arguments ∅ (demo_toolhead 0));
    try reflexivity.
  vm_compute. lia.
Defined.

(** C8 as worded fails on a toolhead whose [max_accel] is zero.  In
    Q-mode without a [gcode_macro Qmode] section,
    [SET_VELOCITY_LIMIT ACCEL=5000] leaves [max_accel] at the default cap
    0; the command without arguments then ends in [ZeroDivisionError],
    before [msg] is referenced. *)
Lemma set_velocity_limit_zero_accel_counterexample :
  let pr := {|
    all_mcus := [0%nat];
    kin_class_name := "CoreXYKinematics";
    kin_status_for_record_z_pos := false;
    kin_homed_axes := "xyz";
    kin_limits := [(0, 350); (0, 350); (0, 350)];
    print_stats_state := Some "standby";
    custom_macro_qmode_flag := true;
    Qmode_section := None;
    print_file_exists := None
  |} in
  let s := run_ops [OpPrinter pr; OpSetVelocityLimit {[ "ACCEL" := 5000 ]}]
             (demo_toolhead 0) in
  max_accel s = 0
  /\ cmd_SET_VELOCITY_LIMIT ∅ s
     = Raise ZeroDivisionError (st (cmd_SET_VELOCITY_LIMIT ∅ s))
  /\ cmd_SET_VELOCITY_LIMIT ∅ s
     <> Raise (NameError "msg") (st (cmd_SET_VELOCITY_LIMIT ∅ s)).
Proof.
  cbv zeta. split; [vm_compute; reflexivity|].
  assert (Hrun : forall s : @ToolHead demo_extern,
            max_accel s = 0 ->
            cmd_SET_VELOCITY_LIMIT ∅ s
            = Raise ZeroDivisionError (st (cmd_SET_VELOCITY_LIMIT ∅ s))).
  { intros s Hm.
    unfold cmd_SET_VELOCITY_LIMIT, get_float_above, get_float_minval,
      _calc_junction_deviation, bind, gets, ret, modify, raise.
    rewrite !lookup_empty. st_simpl.
    destruct (Qmode_section (printer s)) as [[a b]|]; st_simpl;
      rewrite Hm; reflexivity. }
  split.
  - apply Hrun. vm_compute. reflexivity.
  - rewrite Hrun by (vm_compute; reflexivity). discriminate.
Qed.

(** [M204 S5000] on the example toolhead. *)
Lemma M204_sets_acceleration_witness :
  exists s', cmd_M204 {["S" := 5000]} (demo_toolhead 0) = Ok tt s'
             /\ M204_applied 5000 (demo_toolhead 0) s'.
Proof.
  refine (proj1 (proj2 (M204_sets_acceleration {["S" := 5000]}
                          (demo_toolhead 0) _)) 5000 _ _).
  - vm_compute. lia.
  - reflexivity.
  - vm_compute. reflexivity.
Defined.

(** C6 as worded fails for [M204 S100.5]: [S] is given and above 100, yet
    the acceleration becomes 100, not [S]. *)
Lemma M204_fractional_S_counterexample :
  let gcmd : gmap string Q := {["S" := 100.5]} in
  let s' := st (cmd_M204 gcmd (demo_toolhead 0)) in
  gcmd !! "S" = Some 100.5
  /\ 100 < 100.5
  /\ max_accel s' == 100
  /\ ~ max_accel s' == 100.5.
Proof.
  vm_compute. repeat split; try reflexivity. intros Hc. discriminate Hc.
Qed.

End CommandExamples.
(** ** The clocks only advance *)

Ltac clock_mono_prim :=
  unfold drip_rel, clock_mono, log, log_all; st_simpl;
  repeat split; intros; minmax.

Section Monotone.

Context `{Extern}.

#[global] Instance clock_mono_preorder : PreOrder clock_mono.
Proof.
  split.
  - intros s. unfold clock_mono. repeat split; intros; lra.
  - intros s1 s2 s3 (Hp1 & Hf1 & Hm1) (Hp2 & Hf2 & Hm2).
    unfold clock_mono. repeat split; lra.
Qed.

#[global] Instance drip_rel_preorder npt : PreOrder (drip_rel npt).
Proof.
  split.
  - intros s. split; [reflexivity | auto].
  - intros s1 s2 s3 [Hc1 Hn1] [Hc2 Hn2].
    split; [etransitivity; eassumption | auto].
Qed.

Lemma clock_mono_clock_step s s' :
  clock_step s s' -> print_time s <= print_time s' -> clock_mono s s'.
Proof.
  intros (p & e & ->). st_simpl. intros Hle.
  unfold clock_mono. st_simpl. repeat split; intros; lra.
Qed.

Lemma clock_mono_update_move_time npt s :
  print_time s <= npt -> clock_mono s (_update_move_time npt s).
Proof.
  intros Hle. apply clock_mono_clock_step.
  - apply update_move_time_clock_step.
  - rewrite update_move_time_reaches. exact Hle.
Qed.

Lemma clock_mono_calc_print_time s : clock_mono s (_calc_print_time s).
Proof.
  apply clock_mono_clock_step; [apply calc_print_time_clock_step|].
  unfold _calc_print_time. destruct (Qlt_bool _ _) eqn:E; [|lra].
  apply Qlt_bool_true in E. st_simpl. lra.
Qed.

Lemma drip_rel_update_drip_move_time_loop n npt fd :
  keeps (drip_rel npt) any_exn (update_drip_move_time_loop n npt fd).
Proof.
  induction n as [|n IH]; apply keeps_wp; intros s;
    cbn [update_drip_move_time_loop];
    unfold update_drip_move_time_body, completion_wait.
  - wp_walk; first [reflexivity | split; [reflexivity | exact I]].
  - wp_walk; try first [reflexivity | split; [reflexivity | exact I]].
    + wp_call IH; keeps_close ltac:(idtac; clock_mono_prim).
    + apply Qlt_bool_true in Eb.
      wp_call IH; keeps_close ltac:(idtac;
        split; [ apply clock_mono_update_move_time; unfold DRIP_SEGMENT_TIME; minmax
               | intros _; rewrite update_move_time_reaches; minmax ]).
Qed.

Lemma clock_mono_finish q s :
  print_time s <= q ->
  clock_mono s (set_last_kin_move_time q (_update_move_time q s)).
Proof.
  intros Hle.
  pose proof (update_move_time_reaches q s) as Hr.
  destruct (update_move_time_clock_step q s) as (p & e & Heq).
  rewrite Heq in *. st_simpl_all.
  unfold clock_mono. st_simpl. repeat split; intros; lra.
Qed.

Hypothesis Hnmt : trapq_time_advances.

Lemma clock_mono_process_moves moves :
  keeps clock_mono any_exn (_process_moves moves).
Proof.
  apply keeps_wp; intros s. unfold _process_moves, _update_drip_move_time.
  do 2 wp_step.
  apply wp_bind.
  refine (wp_keeps clock_mono any_exn _ _ _ _ _ _ _ _); cbv beta.
  { keeps_walk ltac:(idtac; first [apply clock_mono_calc_print_time
                                  | clock_mono_prim]) idtac. }
  2: { intros; split; [assumption | exact I]. }
  2: { intros; split; [assumption | exact I]. }
  intros _ s1 H1.
  wp_walk.
  all: pose proof (Hnmt (native s1) (print_time s1) (length moves)) as Hq.
  all: st_simpl_all; rewrite Ex in Hq; cbn [fst] in Hq.
  1, 3: wp_call (drip_rel_update_drip_move_time_loop wakeups q
           (DRIP_TIME + move_flush_time s1 + kin_flush_delay s1)).
  all: try wp_walk.
  all: try (split; [ | exact I ]).
  all: try match goal with
       | HR : drip_rel _ _ ?s3 |- _ =>
           destruct HR as [Hc3 Hn3]; st_simpl_in Hn3; specialize (Hn3 Hq)
       end.
  all: transitivity s1; [exact H1|].
  all: try exact Hc3.
  all: match goal with
       | |- clock_mono _ (set_last_kin_move_time _ (_update_move_time _ ?x)) =>
           transitivity x;
           [ first [exact Hc3 | clock_mono_prim]
           | apply clock_mono_finish; first [exact Hn3 | st_simpl; exact Hq] ]
       end.
Qed.

Ltac cm_prim :=
  cbv beta;
  first [ apply clock_mono_calc_print_time
        | apply clock_mono_update_move_time; minmax
        | clock_mono_prim ].

Ltac cm_walk callee := keeps_walk ltac:(idtac; cm_prim) callee.

Lemma clock_mono_MoveQueue_flush lazy :
  keeps clock_mono any_exn (MoveQueue_flush lazy).
Proof.
  unfold MoveQueue_flush. cm_walk ltac:(apply clock_mono_process_moves).
Qed.

Lemma clock_mono_MoveQueue_reset : keeps clock_mono any_exn MoveQueue_reset.
Proof. unfold MoveQueue_reset. cm_walk idtac. Qed.

Lemma clock_mono_MoveQueue_add_move mv :
  keeps clock_mono any_exn (MoveQueue_add_move mv).
Proof.
  unfold MoveQueue_add_move.
  cm_walk ltac:(apply clock_mono_MoveQueue_flush).
Qed.

Lemma clock_mono_flush_step_generation :
  keeps clock_mono any_exn flush_step_generation.
Proof.
  unfold flush_step_generation, MoveQueue_set_flush_time.
  cm_walk ltac:(apply clock_mono_MoveQueue_flush).
Qed.

Lemma clock_mono_flush_lookahead : keeps clock_mono any_exn _flush_lookahead.
Proof.
  unfold _flush_lookahead.
  cm_walk ltac:(first [ apply clock_mono_flush_step_generation
                      | apply clock_mono_MoveQueue_flush ]).
Qed.

(** [get_last_move_time] returns the [print_time] it leaves. *)
Lemma get_last_move_time_wp s :
  wp get_last_move_time
     (fun t s' => clock_mono s s' /\ t = print_time s')
     (fun _ s' => clock_mono s s') s.
Proof.
  unfold get_last_move_time.
  wp_call clock_mono_flush_lookahead; try assumption.
  wp_walk; (split; [|reflexivity]).
  - etransitivity; [eassumption | apply clock_mono_calc_print_time].
  - assumption.
Qed.

Lemma clock_mono_get_last_move_time :
  keeps clock_mono any_exn get_last_move_time.
Proof.
  apply keeps_wp. intros s.
  eapply wp_mono; [apply get_last_move_time_wp | |]; cbv beta.
  - intros t s' [Hc _]. exact Hc.
  - intros oe s' Hc. split; [exact Hc | destruct oe; exact I].
Qed.

Lemma clock_mono_flush_handler eventtime :
  keeps clock_mono any_exn (_flush_handler eventtime).
Proof.
  unfold _flush_handler.
  cm_walk ltac:(apply clock_mono_flush_step_generation).
Qed.

Lemma clock_mono_run_flush_timer n waketime :
  keeps clock_mono any_exn (run_flush_timer n waketime).
Proof.
  induction n as [|n IH]; cbn [run_flush_timer];
    cm_walk ltac:(first [ exact IH | apply clock_mono_flush_handler ]).
Qed.

Lemma clock_mono_reactor_pause waketime :
  keeps clock_mono any_exn (reactor_pause waketime).
Proof.
  unfold reactor_pause. cm_walk ltac:(apply clock_mono_run_flush_timer).
Qed.

Lemma clock_mono_check_stall_loop n eventtime :
  keeps clock_mono any_exn (check_stall_loop n eventtime).
Proof.
  revert eventtime. induction n as [|n IH]; intros eventtime;
    cbn [check_stall_loop];
    cm_walk ltac:(first [ apply IH | apply clock_mono_reactor_pause ]).
Qed.

Lemma clock_mono_check_stall : keeps clock_mono any_exn _check_stall.
Proof.
  unfold _check_stall. cm_walk ltac:(apply clock_mono_check_stall_loop).
Qed.

Lemma clock_mono_record_z_pos z : keeps clock_mono any_exn (record_z_pos z).
Proof. unfold record_z_pos, record_z_pos_write. cm_walk idtac. Qed.

Lemma clock_mono_mirror_commanded_pos :
  keeps clock_mono any_exn mirror_commanded_pos.
Proof. unfold mirror_commanded_pos, index, da_store. cm_walk idtac. Qed.

Lemma clock_mono_set_position newpos homing_axes :
  keeps clock_mono any_exn (set_position newpos homing_axes).
Proof.
  unfold set_position, index.
  cm_walk ltac:(first [ apply clock_mono_flush_step_generation
                      | apply clock_mono_mirror_commanded_pos ]).
Qed.

Lemma clock_mono_call_PyMove : keeps clock_mono any_exn call_PyMove.
Proof. unfold call_PyMove, da_store. cm_walk idtac. Qed.

Lemma clock_mono_after_PyMove newpos mv :
  keeps clock_mono any_exn (after_PyMove newpos mv).
Proof.
  unfold after_PyMove, check_move_out_of_range, index.
  cm_walk ltac:(first [ apply clock_mono_MoveQueue_add_move
                      | apply clock_mono_check_stall ]).
Qed.

Lemma clock_mono_simple_move newpos :
  keeps clock_mono any_exn (simple_move newpos).
Proof.
  unfold simple_move, simple_move_until_PyMove, index.
  cm_walk ltac:(first [ apply clock_mono_record_z_pos
                      | apply clock_mono_call_PyMove
                      | apply clock_mono_after_PyMove ]).
Qed.

Lemma clock_mono_move newpos speed :
  keeps clock_mono any_exn (move newpos speed).
Proof.
  unfold move, move_until_PyMove, index, da_store.
  cm_walk ltac:(first [ apply clock_mono_record_z_pos
                      | apply clock_mono_mirror_commanded_pos
                      | apply clock_mono_call_PyMove
                      | apply clock_mono_after_PyMove ]).
Qed.

Lemma clock_mono_manual_move_fill coord i curpos :
  keeps clock_mono any_exn (manual_move_fill coord i curpos).
Proof.
  revert i curpos. induction coord as [|c coord IH]; intros i curpos;
    cbn [manual_move_fill]; cm_walk ltac:(apply IH).
Qed.

Lemma clock_mono_manual_move coord speed :
  keeps clock_mono any_exn (manual_move coord speed).
Proof.
  unfold manual_move.
  cm_walk ltac:(first [ apply clock_mono_manual_move_fill
                      | apply clock_mono_move ]).
Qed.

Lemma clock_mono_dwell delay : keeps clock_mono any_exn (dwell delay).
Proof.
  apply keeps_wp. intros s. unfold dwell.
  apply wp_bind.
  eapply wp_mono; [apply get_last_move_time_wp | |]; cbv beta.
  - intros t s1 [Hc ->]. wp_walk.
    wp_call clock_mono_check_stall;
      keeps_close ltac:(idtac;
        etransitivity; [exact Hc|];
        apply clock_mono_update_move_time; minmax).
  - intros oe s' Hc. split; [exact Hc | destruct oe; exact I].
Qed.

Lemma clock_mono_wait_moves_loop n eventtime :
  keeps clock_mono any_exn (wait_moves_loop n eventtime).
Proof.
  revert eventtime. induction n as [|n IH]; intros eventtime;
    cbn [wait_moves_loop];
    cm_walk ltac:(first [ apply IH | apply clock_mono_reactor_pause ]).
Qed.

Lemma clock_mono_wait_moves : keeps clock_mono any_exn wait_moves.
Proof.
  unfold wait_moves.
  cm_walk ltac:(first [ apply clock_mono_flush_lookahead
                      | apply clock_mono_wait_moves_loop ]).
Qed.

Lemma clock_mono_set_extruder name lp has_info extrude_pos :
  keeps clock_mono any_exn (set_extruder name lp has_info extrude_pos).
Proof. unfold set_extruder, da_store. cm_walk idtac. Qed.

Lemma clock_mono_drip_move newpos speed dc :
  keeps clock_mono any_exn (drip_move newpos speed dc).
Proof.
  unfold drip_move, MoveQueue_set_flush_time.
  cm_walk ltac:(first [ apply clock_mono_dwell
                      | apply clock_mono_MoveQueue_flush
                      | apply clock_mono_MoveQueue_reset
                      | apply clock_mono_move
                      | apply clock_mono_flush_step_generation ]).
Qed.

Lemma clock_mono_handle_shutdown : keeps clock_mono any_exn _handle_shutdown.
Proof.
  unfold _handle_shutdown. cm_walk ltac:(apply clock_mono_MoveQueue_reset).
Qed.

Lemma clock_mono_note_step_generation_scan_time delay old_delay :
  keeps clock_mono any_exn (note_step_generation_scan_time delay old_delay).
Proof.
  unfold note_step_generation_scan_time.
  cm_walk ltac:(apply clock_mono_flush_step_generation).
Qed.

Lemma clock_mono_register_lookahead_callback cb :
  keeps clock_mono any_exn (register_lookahead_callback cb).
Proof.
  unfold register_lookahead_callback, MoveQueue_get_last.
  cm_walk ltac:(apply clock_mono_get_last_move_time).
Qed.

Lemma clock_mono_calc_junction_deviation :
  keeps clock_mono any_exn _calc_junction_deviation.
Proof. unfold _calc_junction_deviation, da_store. cm_walk idtac. Qed.

Lemma clock_mono_cmd_SET_VELOCITY_LIMIT gcmd :
  keeps clock_mono any_exn (cmd_SET_VELOCITY_LIMIT gcmd).
Proof.
  unfold cmd_SET_VELOCITY_LIMIT, get_float_above, get_float_minval, da_store.
  cm_walk ltac:(apply clock_mono_calc_junction_deviation).
Qed.

Lemma clock_mono_cmd_M204 gcmd : keeps clock_mono any_exn (cmd_M204 gcmd).
Proof.
  unfold cmd_M204, M204_set_accel, get_float_above, da_store.
  cm_walk ltac:(apply clock_mono_calc_junction_deviation).
Qed.

Lemma clock_mono_cmd_G4 gcmd : keeps clock_mono any_exn (cmd_G4 gcmd).
Proof.
  unfold cmd_G4, get_float_minval. cm_walk ltac:(apply clock_mono_dwell).
Qed.

Lemma clock_mono_run_op op :
  is_kin_activity op = false -> keeps clock_mono any_exn (run_op op).
Proof.
  intros Hop. destruct op; try discriminate Hop; cbn [run_op];
    unfold register_step_generator, cmd_SET_G29_FLAG, cmd_M400;
    cm_walk ltac:(first
      [ apply clock_mono_move | apply clock_mono_simple_move
      | apply clock_mono_manual_move | apply clock_mono_dwell
      | apply clock_mono_flush_step_generation
      | apply clock_mono_get_last_move_time
      | apply clock_mono_flush_handler | apply clock_mono_set_position
      | apply clock_mono_wait_moves | apply clock_mono_set_extruder
      | apply clock_mono_drip_move | apply clock_mono_handle_shutdown
      | apply clock_mono_note_step_generation_scan_time
      | apply clock_mono_register_lookahead_callback
      | apply clock_mono_cmd_G4 | apply clock_mono_cmd_SET_VELOCITY_LIMIT
      | apply clock_mono_cmd_M204 ]).
Qed.

#[global] Instance clock_mono_weak_preorder : PreOrder clock_mono_weak.
Proof.
  split.
  - intros s. unfold clock_mono_weak. split; lra.
  - intros s1 s2 s3 [? ?] [? ?]. unfold clock_mono_weak. split; lra.
Qed.

Lemma clock_mono_weak_run_op op : keeps clock_mono_weak any_exn (run_op op).
Proof.
  destruct (is_kin_activity op) eqn:Hop.
  - destruct op; try discriminate Hop. cbn [run_op].
    unfold note_kinematic_activity. apply keeps_modify. intros s.
    unfold clock_mono_weak. st_simpl. split; lra.
  - eapply keeps_weaken; [apply (clock_mono_run_op op Hop) | | auto].
    intros s s' (Hp & Hf & _). split; assumption.
Qed.

Lemma clock_mono_weak_run_ops ops s : clock_mono_weak s (run_ops ops s).
Proof.
  revert s. induction ops as [|op ops IH]; intros s; cbn [run_ops fold_left].
  - reflexivity.
  - etransitivity; [|apply IH].
    apply (keeps_st _ _ _ _ (clock_mono_weak_run_op op)).
Qed.

Lemma clock_mono_note_kinematic_activity kin_time s :
  kin_time <= print_time s ->
  clock_mono s (st (note_kinematic_activity kin_time s)).
Proof.
  intros Hk. unfold note_kinematic_activity, modify, st, clock_mono.
  st_simpl. split; [apply Qle_refl|]. split; [apply Qle_refl|].
  intros Hm. split; [apply Q.max_lub; assumption | apply Q.le_max_l].
Qed.

Lemma clock_mono_run_ops ops s :
  notes_behind_print_time ops s -> clock_mono s (run_ops ops s).
Proof.
  revert s. induction ops as [|op ops IH]; intros s Hops;
    cbn [run_ops fold_left].
  - reflexivity.
  - cbn [notes_behind_print_time] in Hops. destruct Hops as [Hop Hops].
    etransitivity; [|apply IH; exact Hops].
    destruct (is_kin_activity op) eqn:Ek.
    + destruct op; try discriminate Ek. cbn [run_op].
      apply clock_mono_note_kinematic_activity. exact Hop.
    + apply (keeps_st _ _ _ _ (clock_mono_run_op op Ek)).
Qed.

End Monotone.

Section MonotoneClaim.

Context `{Extern}.

(** The part of C2 that holds.  When the trapezoid queue never answers
    with a time before the one it is given, [print_time] and
    [last_kin_flush_time] do not decrease across any sequence of
    operations.  [last_kin_move_time] does not decrease across a sequence
    that starts with [last_kin_move_time <= print_time] (as the initial
    state does) and in which [note_kinematic_activity] never notes a time
    ahead of [print_time]. *)
Theorem clocks_never_go_back (ops : list Op) (s : ToolHead) :
  trapq_time_advances ->
  let s' := run_ops ops s in
  print_time s <= print_time s'
  /\ last_kin_flush_time s <= last_kin_flush_time s'
  /\ (notes_behind_print_time ops s ->
      last_kin_move_time s <= print_time s ->
      last_kin_move_time s <= last_kin_move_time s').
Proof.
  intros Hnmt. cbv zeta.
  destruct (clock_mono_weak_run_ops Hnmt ops s) as [Hp Hf].
  repeat split; [exact Hp | exact Hf |].
  intros Hops Hinv.
  destruct (clock_mono_run_ops Hnmt ops s Hops) as (_ & _ & Hm).
  apply Hm. exact Hinv.
Qed.

End MonotoneClaim.

Section MonotoneExamples.

#[local] Existing Instance demo_extern.

Lemma demo_trapq_time_advances : trapq_time_advances.
Proof.
  intros n t count. cbn [trapq_append_from_moveq demo_extern fst snd].
  assert (0 <= inject_Z (Z.of_nat count)).
  { change 0 with (inject_Z 0). rewrite <- Zle_Qle. lia. }
  lra.
Qed.

(** A dwell, a time noted behind [print_time], a move and a flush on
    the example toolhead. *)
Lemma clocks_never_go_back_witness :
  let ops := [OpDwell 1; OpNoteKinematicActivity 0.2;
              OpMove [10; 0; 0; 0] 50; OpFlushStepGeneration] in
  let s := demo_toolhead 0 in
  let s' := run_ops ops s in
  print_time s <= print_time s'
  /\ last_kin_flush_time s <= last_kin_flush_time s'
  /\ last_kin_move_time s <= last_kin_move_time s'.
Proof.
  cbv zeta.
  destruct (clocks_never_go_back
              [OpDwell 1; OpNoteKinematicActivity 0.2;
               OpMove [10; 0; 0; 0] 50; OpFlushStepGeneration]
              (demo_toolhead 0) demo_trapq_time_advances)
    as (Hp & Hf & Hm).
  repeat split; [exact Hp | exact Hf |].
  apply Hm; [|vm_compute; discriminate].
  vm_compute. repeat split; first [ exact I | discriminate ].
Defined.

(** C2 at a failing input.  [note_kinematic_activity(10)] takes
    [last_kin_move_time] to 10 (its [max] keeps the later time); the next
    processed move assigns its end time 1.25 to [last_kin_move_time]
    without a [max]: the field has gone back. *)
Lemma last_kin_move_time_goes_back :
  let s1 := run_ops [OpNoteKinematicActivity 10] (demo_toolhead 0) in
  let s2 := run_ops [OpMove [10; 0; 0; 0] 50; OpFlushStepGeneration] s1 in
  last_kin_move_time s1 == 10
  /\ last_kin_move_time s2 == 1.25
  /\ last_kin_move_time s2 < last_kin_move_time s1.
Proof. vm_compute. repeat split; reflexivity. Qed.

End MonotoneExamples.
(** ** Flushing twice *)

Section FlushTwice.

Context `{Extern}.

Lemma same_queue_update_drip_move_time_loop n npt fd :
  keeps same_queue any_exn (update_drip_move_time_loop n npt fd).
Proof.
  induction n as [|n IH]; cbn [update_drip_move_time_loop];
    unfold update_drip_move_time_body, completion_wait.
  - same_queue_walk idtac.
  - same_queue_walk ltac:(exact IH).
Qed.

Lemma same_queue_process_moves moves :
  keeps same_queue any_exn (_process_moves moves).
Proof.
  unfold _process_moves, _update_drip_move_time.
  same_queue_walk ltac:(apply same_queue_update_drip_move_time_loop).
Qed.

(** Stepping the clock to where it already is: one pass, and only the
    collaborators notice. *)
Lemma update_move_time_same s :
  exists evs,
    _update_move_time (print_time s) s = set_events (events s ++ evs) s.
Proof.
  unfold _update_move_time.
  generalize (update_move_time_passes (print_time s) s) as n. intros n.
  set (b := update_move_time_body (print_time s) (kin_flush_delay s)
              (last_kin_flush_time s) s).
  assert (Hpt : print_time b = print_time s).
  { unfold b. rewrite body_print_time. unfold MOVE_BATCH_TIME.
    destruct (Qmin_cases (print_time s + 0.500) (print_time s))
      as [[Hc _]|[_ ->]]; [lra | reflexivity]. }
  assert (Hbreak : Qle_bool (print_time s) (print_time b) = true).
  { rewrite Hpt. apply Qle_bool_iff. lra. }
  assert (Hloop : update_move_time_loop n (print_time s) (kin_flush_delay s)
                    (last_kin_flush_time s) s = b).
  { destruct n; cbn [update_move_time_loop]; fold b; rewrite Hbreak;
      reflexivity. }
  rewrite Hloop.
  destruct (body_clock_step (print_time s) (kin_flush_delay s)
              (last_kin_flush_time s) s) as (p & e & Heq).
  fold b in Heq. exists e. rewrite Heq in Hpt. st_simpl_in Hpt.
  rewrite Heq, Hpt. destruct s; reflexivity.
Qed.

Hypothesis Hfull : full_flush_plans_all.

Lemma MoveQueue_flush_false_wp s :
  wp (MoveQueue_flush false)
     (fun _ s' => queue s' = [] /\ frame s s') (fun _ _ => True) s.
Proof.
  unfold MoveQueue_flush.
  wp_walk; try exact I.
  - apply Nat.eqb_eq in Eb. st_simpl_all.
    split; [apply length_zero_iff_nil; exact Eb | frame_prim].
  - st_simpl_all. rewrite Hfull in *.
    refine (wp_keeps (fun s s' => frame s s' /\ same_queue s s') any_exn
              _ _ _ _ _ _ _ _); cbv beta.
    + intros s0. pose proof (frame_process_moves
                               (take (length (queue s)) (queue s)) s0) as Hf.
      pose proof (same_queue_process_moves
                    (take (length (queue s)) (queue s)) s0) as Hq.
      destruct (_process_moves _ s0); intuition.
    + intros _ s' [Hf Hq]. wp_walk. st_simpl.
      unfold same_queue in Hq. st_simpl_in Hq.
      split; [rewrite Hq; apply drop_all|].
      unfold frame in *. st_simpl_all. exact Hf.
    + intros; exact I.
    + intros; exact I.
  - st_simpl_all. rewrite Hfull in *. apply negb_false_iff in Eb0.
    congruence.
Qed.

Lemma flush_step_generation_flushed s :
  0 <= kin_flush_delay s ->
  wp flush_step_generation (fun _ s' => flushed s') (fun _ _ => True) s.
Proof.
  intros Hk. unfold flush_step_generation, MoveQueue_set_flush_time.
  apply wp_bind.
  eapply wp_mono; [apply MoveQueue_flush_false_wp | | auto]; cbv beta.
  intros _ s1 [Hq Hf]. wp_walk.
  match goal with
  | |- flushed (_update_move_time ?x ?sa) =>
      pose proof (update_move_time_reaches x sa) as Hr;
      destruct (update_move_time_clock_step x sa) as (p & e & Heq);
      rewrite Heq in *
  end.
  clear Heq. unfold frame in Hf. unfold flushed. st_simpl_all.
  destruct Hf as (_ & _ & Hkfd & _).
  rewrite Hkfd in *.
  repeat split; try reflexivity; try assumption; minmax.
Qed.

(** On a flushed toolhead [flush_step_generation] returns and changes
    nothing but the trace of its calls to the collaborators. *)
Lemma flush_step_generation_again s :
  flushed s ->
  exists evs,
    flush_step_generation s = Ok tt (set_events (events s ++ evs) s).
Proof.
  intros (Hq & Hsqs & Hncs & Htimer & Hjf & Hidle & Hm & Hp & Hl & Hk).
  assert (E1 : Qmax (last_kin_flush_time s)
                 (Qmax (last_kin_move_time s + kin_flush_delay s)
                       (print_time s - kin_flush_delay s))
               = last_kin_flush_time s).
  { destruct (Qmax_cases (last_kin_flush_time s)
                (Qmax (last_kin_move_time s + kin_flush_delay s)
                      (print_time s - kin_flush_delay s)))
      as [[_ ->]|[Hc _]]; [reflexivity | minmax]. }
  assert (E2 : Qmax (print_time s) (last_kin_flush_time s) = print_time s).
  { destruct (Qmax_cases (print_time s) (last_kin_flush_time s))
      as [[_ ->]|[Hc _]]; [reflexivity | lra]. }
  destruct (update_move_time_same s) as [evs Hevs].
  exists evs. rewrite <- Hevs.
  unfold flush_step_generation, MoveQueue_flush, MoveQueue_set_flush_time,
    bind, modify, gets, ret.
  st_simpl. rewrite Hq. cbn [length Nat.eqb]. st_simpl.
  rewrite E1, E2.
  f_equal. f_equal.
  destruct s; cbn in *; subst; reflexivity.
Qed.

End FlushTwice.

Section FlushTwiceClaim.

Context `{Extern}.

(** C4.  When a flush that is not lazy plans every queued move and
    [kin_flush_delay] is not negative, a second [flush_step_generation]
    right after one that returned also returns and leaves every field of
    the toolhead ([print_time], [special_queuing_state],
    [need_check_stall], the queue and [junction_flush],
    [idle_flush_print_time], [last_kin_flush_time], [last_kin_move_time],
    the flush timer and all the others) exactly as the first call left
    it; only the trace of calls to the collaborators grows. *)
Theorem flush_step_generation_idempotent (s s1 : ToolHead) :
  full_flush_plans_all ->
  0 <= kin_flush_delay s ->
  flush_step_generation s = Ok tt s1 ->
  exists evs,
    flush_step_generation s1 = Ok tt (set_events (events s1 ++ evs) s1).
Proof.
  intros Hfull Hk Hrun.
  apply flush_step_generation_again.
  pose proof (wp_run _ _ _ _ (flush_step_generation_flushed Hfull s Hk)) as Hw.
  rewrite Hrun in Hw. exact Hw.
Qed.

End FlushTwiceClaim.

Section FlushTwiceExamples.

#[local] Existing Instance demo_extern.

Lemma demo_full_flush_plans_all : full_flush_plans_all.
Proof. intros n count. reflexivity. Qed.

(** Flushing twice after one queued move. *)
Lemma flush_step_generation_idempotent_witness :
  let s := run_ops [OpMove [10; 0; 0; 0] 50] (demo_toolhead 0) in
  let s1 := st (flush_step_generation s) in
  exists evs,
    flush_step_generation s1 = Ok tt (set_events (events s1 ++ evs) s1).
Proof.
  cbv zeta.
  apply (flush_step_generation_idempotent
           (run_ops [OpMove [10; 0; 0; 0] 50] (demo_toolhead 0))).
  - exact demo_full_flush_plans_all.
  - vm_compute. discriminate.
  - vm_compute. reflexivity.
Defined.

End FlushTwiceExamples.

(** ** Lookahead callbacks *)

Ltac same_callbacks_prim :=
  cbv beta;
  first [ apply same_callbacks_update_move_time
        | apply same_callbacks_calc_print_time
        | unfold same_callbacks, callback_calls, log, log_all; st_simpl;
          rewrite ?List.filter_app; cbn [List.filter is_callback];
          rewrite ?app_nil_r; reflexivity ].

Ltac same_callbacks_walk callee :=
  keeps_walk ltac:(idtac; same_callbacks_prim) callee.

Section NoCallbackFires.

Context `{Extern}.

(** No path through a flush invokes a callback, whatever is stored with
    the queued moves. *)
Lemma same_callbacks_update_drip_move_time_loop n npt fd :
  keeps same_callbacks any_exn (update_drip_move_time_loop n npt fd).
Proof.
  induction n as [|n IH]; cbn [update_drip_move_time_loop];
    unfold update_drip_move_time_body, completion_wait.
  - same_callbacks_walk idtac.
  - same_callbacks_walk ltac:(exact IH).
Qed.

Lemma same_callbacks_process_moves moves :
  keeps same_callbacks any_exn (_process_moves moves).
Proof.
  unfold _process_moves, _update_drip_move_time.
  same_callbacks_walk ltac:(apply same_callbacks_update_drip_move_time_loop).
Qed.

Lemma same_callbacks_MoveQueue_flush lazy :
  keeps same_callbacks any_exn (MoveQueue_flush lazy).
Proof.
  unfold MoveQueue_flush.
  same_callbacks_walk ltac:(apply same_callbacks_process_moves).
Qed.

Lemma same_callbacks_flush_step_generation :
  keeps same_callbacks any_exn flush_step_generation.
Proof.
  unfold flush_step_generation, MoveQueue_set_flush_time.
  same_callbacks_walk ltac:(apply same_callbacks_MoveQueue_flush).
Qed.

(** On a non-empty queue [register_lookahead_callback] only stores the
    callback with the tail move. *)
Lemma register_lookahead_callback_stores cb mv cbs s :
  last (queue s) = Some (mv, cbs) ->
  register_lookahead_callback cb s
  = Ok tt (set_queue (removelast (queue s) ++ [(mv, cbs ++ [cb])]) s).
Proof.
  intros Hlast.
  unfold register_lookahead_callback, MoveQueue_get_last, bind, gets, ret.
  rewrite Hlast. reflexivity.
Qed.

Lemma get_last_move_time_returns_print_time s :
  wp get_last_move_time (fun t s' => t = print_time s') (fun _ _ => True) s.
Proof.
  unfold get_last_move_time. apply wp_bind.
  refine (wp_keeps (fun _ _ => True) any_exn _ _ _ _ _ _ _ _); cbv beta.
  - intros s0. destruct (_flush_lookahead s0); cbv beta; unfold any_exn; auto.
  - intros _ s1 _. wp_walk; reflexivity.
  - intros; exact I.
  - intros; exact I.
Qed.

(** On an empty queue the callback is invoked at once, with the
    [print_time] that [get_last_move_time] returns. *)
Lemma register_lookahead_callback_immediate cb s :
  queue s = [] ->
  wp (register_lookahead_callback cb)
     (fun _ s' => exists evs,
        events s' = evs ++ [Ev_callback cb (print_time s')])
     (fun _ _ => True) s.
Proof.
  intros Hq.
  unfold register_lookahead_callback, MoveQueue_get_last.
  do 3 wp_step. rewrite Hq. cbn [last]. apply wp_bind.
  eapply wp_mono; [apply get_last_move_time_returns_print_time | | auto].
  cbv beta. intros t s1 ->. wp_walk. eexists. st_simpl. reflexivity.
Qed.

End NoCallbackFires.


Section CallbackExamples.

#[local] Existing Instance demo_extern.

(** C1 at a failing input.  Callback 7 is registered while the first
    move is the tail of the queue and is stored with it.  That move is
    then flushed to the trapezoid queue, a second move is queued and
    flushed too: two batches have been appended, the queue is empty, and
    callback 7 was never invoked. *)
Lemma lookahead_callback_on_queued_move_never_fires :
  let s1 := run_ops [OpMove [10; 0; 0; 0] 50] (demo_toolhead 0) in
  let s2 := run_ops [OpRegisterLookaheadCallback 7%nat] s1 in
  let s3 := run_ops [OpFlushStepGeneration; OpMove [20; 0; 0; 0] 50;
                     OpFlushStepGeneration] s2 in
  queue s1 = [(demo_move 1, [])]
  /\ queue s2 = [(demo_move 1, [7%nat])]
  /\ queue s3 = []
  /\ trapq_appends s3 = 2%nat
  /\ callback_calls s3 = [].
Proof. vm_compute. repeat split; reflexivity. Qed.

(** The other half of C1 holds: on an empty queue the callback is
    invoked at once with the time [get_last_move_time] returns. *)
Lemma lookahead_callback_on_empty_queue_fires :
  let s := demo_toolhead 0 in
  let s' := st (register_lookahead_callback 7%nat s) in
  queue s = []
  /\ callback_calls s' = [Ev_callback 7%nat (print_time s')].
Proof. vm_compute. repeat split; reflexivity. Qed.

End CallbackExamples.
(** * More of the toolhead *)

(** ** Invariants of every operation *)

(** Replaces the steps of the print clock by what they may change. *)
Ltac clock_shapes :=
  repeat match goal with
    | |- context [_update_move_time ?x ?e] =>
        let p := fresh "p" in let ev := fresh "ev" in
        destruct (update_move_time_clock_step x e) as (p & ev & ->)
    | |- context [_calc_print_time ?e] =>
        let p := fresh "p" in let ev := fresh "ev" in
        destruct (calc_print_time_clock_step e) as (p & ev & ->)
    end.

(** One invariant through a run: [prim] proves it of an updated state,
    [calls] steps through a called method. *)
Ltac inv_cut I :=
  apply wp_bind;
  apply wp_mono with (Q := fun _ => I) (E := fun _ => I);
  [ | cbv beta; intros ? ? ? | cbv beta; intros ? ? ?; assumption ].

Ltac inv_flat := apply wp_bind.

Ltac inv_auto binder I prim calls :=
  let continue :=
    (cbv beta;
     lazymatch goal with
     | |- wp _ _ _ _ => inv_auto binder I prim calls
     | |- _ => prim
     end) in
  lazymatch goal with
  | |- wp (bind (gets _) _) _ _ _ =>
      apply wp_bind; apply wp_gets; continue
  | |- wp (bind (ret _) _) _ _ _ =>
      apply wp_bind; apply wp_ret; continue
  | |- wp (bind (modify _) _) _ _ _ =>
      apply wp_bind; apply wp_modify; continue
  | |- wp (bind (emit _) _) _ _ _ =>
      apply wp_bind; apply wp_modify; continue
  | |- wp (bind _ _) _ _ _ => binder; inv_auto binder I prim calls
  | |- wp (ret _) _ _ _ => apply wp_ret; continue
  | |- wp (gets _) _ _ _ => apply wp_gets; continue
  | |- wp (modify _) _ _ _ => apply wp_modify; continue
  | |- wp (emit _) _ _ _ => apply wp_modify; continue
  | |- wp (raise _) _ _ _ => apply wp_raise; cbv beta; prim
  | |- wp timeout _ _ _ => apply wp_timeout; cbv beta; prim
  | |- wp (call_native _) _ _ _ => apply wp_call_native; continue
  | |- wp (try_except _ _) _ _ _ =>
      apply wp_try_except;
      apply wp_mono with (Q := fun _ => I) (E := fun _ => I);
      [ inv_auto binder I prim calls
      | cbv beta; intros ? ? ?; assumption
      | let oe := fresh "oe" in let e := fresh "e" in
        cbv beta; intros oe ? ?; destruct oe as [e|];
        [ try destruct e; cbv beta iota; try assumption;
          inv_auto binder I prim calls
        | assumption ] ]
  | |- wp (if ?b then _ else _) _ _ _ =>
      let E := fresh "Eb" in
      destruct b eqn:E; inv_auto binder I prim calls
  | |- wp (match ?x with _ => _ end) _ _ _ =>
      let E := fresh "Ex" in
      destruct x eqn:E; inv_auto binder I prim calls
  | |- wp _ _ _ _ =>
      first [ progress calls;
              lazymatch goal with
              | |- wp _ _ _ _ => inv_auto binder I prim calls
              | |- _ => idtac
              end
            | idtac ]
  | |- _ => idtac
  end.

(** A step through a called method that keeps the invariant. *)
Tactic Notation "inv_by" uconstr(lem) tactic3(prim) :=
  (eapply wp_mono;
   [ simple apply lem; first [ assumption | prim ]
   | cbv beta; intros ? ? ?; try assumption
   | cbv beta; intros ? ? ?; assumption ]).

Ltac toolhead_inv_prim :=
  clock_shapes;
  match goal with
  | HI : toolhead_inv ?x |- toolhead_inv ?e =>
      match e with context [x] => idtac end;
      try exact HI;
      repeat match goal with
        | HI' : toolhead_inv ?y |- _ =>
            tryif constr_eq x y then fail else clear HI'
        end;
      let Hv := fresh "Hv" in let Hl := fresh "Hl" in
      let H0 := fresh "H0" in let H1 := fresh "H1" in
      let H2 := fresh "H2" in let H3 := fresh "H3" in
      let Hk := fresh "Hk" in
      destruct HI as (Hv & (Hl & H0 & H1 & H2 & H3) & Hk);
      unfold toolhead_inv, valid_queuing_state, buffer_mirrors_limits,
        log, log_all;
      unfold valid_queuing_state in Hv;
      st_simpl;
      repeat rewrite length_insert;
      repeat split;
      try assumption;
      try (left; reflexivity);
      try (right; left; reflexivity);
      try (right; right; left; reflexivity);
      try (right; right; right; reflexivity);
      try (unfold scan_window; reflexivity);
      try (repeat rewrite list_lookup_insert_ne by lia; assumption);
      try (repeat rewrite list_lookup_insert_ne by lia;
           apply list_lookup_insert_eq;
           repeat rewrite length_insert; lia);
      try (exfalso; st_simpl_all;
           repeat match goal with
             | E : (_ <? _)%nat = false |- _ => apply Nat.ltb_ge in E
             end;
           repeat rewrite length_insert in *; lia)
  end.

Ltac thi calls :=
  let I := constr:(toolhead_inv) in
  inv_auto ltac:(idtac; inv_cut I) I ltac:(idtac; toolhead_inv_prim) calls.

Ltac thi_flat calls :=
  let I := constr:(toolhead_inv) in
  inv_auto ltac:(idtac; inv_flat) I ltac:(idtac; toolhead_inv_prim) calls.

Tactic Notation "thi_by" uconstr(lem) := inv_by lem toolhead_inv_prim.

Section Invariants.

Context `{Extern}.

Lemma toolhead_inv_drip_loop n npt fd s :
  toolhead_inv s ->
  wp (update_drip_move_time_loop n npt fd)
     (fun _ => toolhead_inv) (fun _ => toolhead_inv) s.
Proof.
  revert s. induction n as [|n IH]; intros s HI;
    cbn [update_drip_move_time_loop];
    unfold update_drip_move_time_body, completion_wait.
  - thi idtac.
  - thi ltac:(idtac; apply IH; assumption).
Qed.

Lemma toolhead_inv_process_moves moves s :
  toolhead_inv s ->
  wp (_process_moves moves)
     (fun _ => toolhead_inv) (fun _ => toolhead_inv) s.
Proof.
  intros HI. unfold _process_moves, _update_drip_move_time.
  thi ltac:(idtac; thi_by toolhead_inv_drip_loop).
Qed.


Lemma toolhead_inv_MoveQueue_flush lazy s :
  toolhead_inv s ->
  wp (MoveQueue_flush lazy)
     (fun _ => toolhead_inv) (fun _ => toolhead_inv) s.
Proof.
  intros HI. unfold MoveQueue_flush.
  thi ltac:(idtac; thi_by toolhead_inv_process_moves).
Qed.

Lemma toolhead_inv_MoveQueue_reset s :
  toolhead_inv s ->
  wp MoveQueue_reset (fun _ => toolhead_inv) (fun _ => toolhead_inv) s.
Proof. intros HI. unfold MoveQueue_reset. thi idtac. Qed.

Lemma toolhead_inv_MoveQueue_add_move mv s :
  toolhead_inv s ->
  wp (MoveQueue_add_move mv)
     (fun _ => toolhead_inv) (fun _ => toolhead_inv) s.
Proof.
  intros HI. unfold MoveQueue_add_move.
  thi ltac:(idtac; thi_by toolhead_inv_MoveQueue_flush).
Qed.

Lemma toolhead_inv_flush_step_generation s :
  toolhead_inv s ->
  wp flush_step_generation
     (fun _ => toolhead_inv) (fun _ => toolhead_inv) s.
Proof.
  intros HI. unfold flush_step_generation, MoveQueue_set_flush_time.
  thi ltac:(idtac; thi_by toolhead_inv_MoveQueue_flush).
Qed.

Lemma toolhead_inv_flush_lookahead s :
  toolhead_inv s ->
  wp _flush_lookahead (fun _ => toolhead_inv) (fun _ => toolhead_inv) s.
Proof.
  intros HI. unfold _flush_lookahead.
  thi ltac:(first [ idtac; thi_by toolhead_inv_flush_step_generation
                  | thi_by toolhead_inv_MoveQueue_flush ]).
Qed.

Lemma toolhead_inv_get_last_move_time s :
  toolhead_inv s ->
  wp get_last_move_time (fun _ => toolhead_inv) (fun _ => toolhead_inv) s.
Proof.
  intros HI. unfold get_last_move_time.
  thi ltac:(idtac; thi_by toolhead_inv_flush_lookahead).
Qed.

Lemma toolhead_inv_flush_handler eventtime s :
  toolhead_inv s ->
  wp (_flush_handler eventtime)
     (fun _ => toolhead_inv) (fun _ => toolhead_inv) s.
Proof.
  intros HI. unfold _flush_handler.
  thi ltac:(idtac; thi_by toolhead_inv_flush_step_generation).
Qed.

Lemma toolhead_inv_run_flush_timer n waketime s :
  toolhead_inv s ->
  wp (run_flush_timer n waketime)
     (fun _ => toolhead_inv) (fun _ => toolhead_inv) s.
Proof.
  revert s. induction n as [|n IH]; intros s HI; cbn [run_flush_timer].
  - thi idtac.
  - thi ltac:(first [ idtac; apply IH; assumption
                    | idtac; thi_by toolhead_inv_flush_handler ]).
Qed.

Lemma toolhead_inv_reactor_pause waketime s :
  toolhead_inv s ->
  wp (reactor_pause waketime)
     (fun _ => toolhead_inv) (fun _ => toolhead_inv) s.
Proof.
  intros HI. unfold reactor_pause.
  thi ltac:(idtac; thi_by toolhead_inv_run_flush_timer).
Qed.

Lemma toolhead_inv_check_stall_loop n eventtime s :
  toolhead_inv s ->
  wp (check_stall_loop n eventtime)
     (fun _ => toolhead_inv) (fun _ => toolhead_inv) s.
Proof.
  revert eventtime s. induction n as [|n IH]; intros eventtime s HI;
    cbn [check_stall_loop].
  - thi idtac.
  - thi ltac:(first [ idtac; apply IH; assumption
                    | idtac; thi_by toolhead_inv_reactor_pause ]).
Qed.

Lemma toolhead_inv_check_stall s :
  toolhead_inv s ->
  wp _check_stall (fun _ => toolhead_inv) (fun _ => toolhead_inv) s.
Proof.
  intros HI. unfold _check_stall.
  thi ltac:(idtac; thi_by toolhead_inv_check_stall_loop).
Qed.



Lemma toolhead_inv_mirror_commanded_pos s :
  toolhead_inv s ->
  wp mirror_commanded_pos (fun _ => toolhead_inv) (fun _ => toolhead_inv) s.
Proof. intros HI. unfold mirror_commanded_pos, index, da_store. thi idtac. Qed.

Lemma toolhead_inv_set_position newpos homing_axes s :
  toolhead_inv s ->
  wp (set_position newpos homing_axes)
     (fun _ => toolhead_inv) (fun _ => toolhead_inv) s.
Proof.
  intros HI. unfold set_position, index.
  thi ltac:(first [ idtac; thi_by toolhead_inv_flush_step_generation
                  | idtac; thi_by toolhead_inv_mirror_commanded_pos ]).
Qed.

Lemma toolhead_inv_record_z_pos z s :
  toolhead_inv s ->
  wp (record_z_pos z) (fun _ => toolhead_inv) (fun _ => toolhead_inv) s.
Proof. intros HI. unfold record_z_pos, record_z_pos_write. thi idtac. Qed.

Lemma toolhead_inv_check_move_out_of_range ep s :
  toolhead_inv s ->
  wp (check_move_out_of_range ep)
     (fun _ => toolhead_inv) (fun _ => toolhead_inv) s.
Proof. intros HI. unfold check_move_out_of_range, index. thi idtac. Qed.

Lemma toolhead_inv_after_PyMove newpos mv s :
  toolhead_inv s ->
  wp (after_PyMove newpos mv)
     (fun _ => toolhead_inv) (fun _ => toolhead_inv) s.
Proof.
  intros HI. unfold after_PyMove, index.
  thi ltac:(first [ idtac; thi_by toolhead_inv_check_move_out_of_range
                  | idtac; thi_by toolhead_inv_MoveQueue_add_move
                  | idtac; thi_by toolhead_inv_check_stall ]).
Qed.

Lemma toolhead_inv_call_PyMove s :
  toolhead_inv s ->
  wp call_PyMove (fun _ => toolhead_inv) (fun _ => toolhead_inv) s.
Proof. intros HI. unfold call_PyMove, da_store. thi idtac. Qed.

Lemma toolhead_inv_simple_move newpos s :
  toolhead_inv s ->
  wp (simple_move newpos) (fun _ => toolhead_inv) (fun _ => toolhead_inv) s.
Proof.
  intros HI. unfold simple_move, simple_move_until_PyMove, index.
  thi ltac:(first [ idtac; thi_by toolhead_inv_record_z_pos
                  | idtac; thi_by toolhead_inv_call_PyMove
                  | idtac; thi_by toolhead_inv_after_PyMove ]).
Qed.

Lemma toolhead_inv_move newpos speed s :
  toolhead_inv s ->
  wp (move newpos speed) (fun _ => toolhead_inv) (fun _ => toolhead_inv) s.
Proof.
  intros HI. unfold move, move_until_PyMove, index, da_store.
  thi ltac:(first [ idtac; thi_by toolhead_inv_record_z_pos
                  | idtac; thi_by toolhead_inv_mirror_commanded_pos
                  | idtac; thi_by toolhead_inv_call_PyMove
                  | idtac; thi_by toolhead_inv_after_PyMove ]).
Qed.

Lemma toolhead_inv_manual_move_fill coord i curpos s :
  toolhead_inv s ->
  wp (manual_move_fill coord i curpos)
     (fun _ => toolhead_inv) (fun _ => toolhead_inv) s.
Proof.
  revert i curpos. induction coord as [|[c|] coord IH]; intros i curpos HI;
    cbn [manual_move_fill].
  - thi idtac.
  - thi ltac:(idtac; apply IH; assumption).
  - apply IH; assumption.
Qed.

Lemma toolhead_inv_manual_move coord speed s :
  toolhead_inv s ->
  wp (manual_move coord speed)
     (fun _ => toolhead_inv) (fun _ => toolhead_inv) s.
Proof.
  intros HI. unfold manual_move.
  thi ltac:(first [ idtac; thi_by toolhead_inv_manual_move_fill
                  | idtac; thi_by toolhead_inv_move ]).
Qed.

Lemma toolhead_inv_dwell delay s :
  toolhead_inv s ->
  wp (dwell delay) (fun _ => toolhead_inv) (fun _ => toolhead_inv) s.
Proof.
  intros HI. unfold dwell.
  thi ltac:(first [ idtac; thi_by toolhead_inv_get_last_move_time
                  | idtac; thi_by toolhead_inv_check_stall ]).
Qed.

Lemma toolhead_inv_wait_moves_loop n eventtime s :
  toolhead_inv s ->
  wp (wait_moves_loop n eventtime)
     (fun _ => toolhead_inv) (fun _ => toolhead_inv) s.
Proof.
  revert eventtime s. induction n as [|n IH]; intros eventtime s HI;
    cbn [wait_moves_loop].
  - thi idtac.
  - thi ltac:(first [ idtac; apply IH; assumption
                    | idtac; thi_by toolhead_inv_reactor_pause ]).
Qed.

Lemma toolhead_inv_wait_moves s :
  toolhead_inv s ->
  wp wait_moves (fun _ => toolhead_inv) (fun _ => toolhead_inv) s.
Proof.
  intros HI. unfold wait_moves.
  thi ltac:(first [ idtac; thi_by toolhead_inv_flush_lookahead
                  | idtac; thi_by toolhead_inv_wait_moves_loop ]).
Qed.

Lemma toolhead_inv_set_extruder name lp has_info extrude_pos s :
  toolhead_inv s ->
  wp (set_extruder name lp has_info extrude_pos)
     (fun _ => toolhead_inv) (fun _ => toolhead_inv) s.
Proof. intros HI. unfold set_extruder, da_store. thi idtac. Qed.

Lemma toolhead_inv_drip_move newpos speed dc s :
  toolhead_inv s ->
  wp (drip_move newpos speed dc)
     (fun _ => toolhead_inv) (fun _ => toolhead_inv) s.
Proof.
  intros HI. unfold drip_move, MoveQueue_set_flush_time.
  thi ltac:(first [ idtac; thi_by toolhead_inv_dwell
                  | idtac; thi_by toolhead_inv_MoveQueue_flush
                  | idtac; thi_by toolhead_inv_MoveQueue_reset
                  | idtac; thi_by toolhead_inv_move
                  | idtac; thi_by toolhead_inv_flush_step_generation ]).
Qed.

Lemma toolhead_inv_handle_shutdown s :
  toolhead_inv s ->
  wp _handle_shutdown (fun _ => toolhead_inv) (fun _ => toolhead_inv) s.
Proof.
  intros HI. unfold _handle_shutdown.
  thi ltac:(idtac; thi_by toolhead_inv_MoveQueue_reset).
Qed.

Lemma toolhead_inv_register_lookahead_callback cb s :
  toolhead_inv s ->
  wp (register_lookahead_callback cb)
     (fun _ => toolhead_inv) (fun _ => toolhead_inv) s.
Proof.
  intros HI. unfold register_lookahead_callback, MoveQueue_get_last.
  thi ltac:(idtac; thi_by toolhead_inv_get_last_move_time).
Qed.


Lemma toolhead_inv_calc_junction_deviation s :
  toolhead_inv s ->
  wp _calc_junction_deviation
     (fun _ => toolhead_inv) (fun _ => toolhead_inv) s.
Proof.
  intros HI. unfold _calc_junction_deviation, da_store. thi_flat idtac.
Qed.

Lemma toolhead_inv_note_step_generation_scan_time delay old_delay s :
  toolhead_inv s ->
  wp (note_step_generation_scan_time delay old_delay)
     (fun _ => toolhead_inv) (fun _ => toolhead_inv) s.
Proof.
  intros HI. unfold note_step_generation_scan_time.
  inv_cut (toolhead_inv).
  - apply toolhead_inv_flush_step_generation, HI.
  - clear HI. thi_flat idtac.
Qed.

Lemma toolhead_inv_cmd_SET_VELOCITY_LIMIT gcmd s :
  toolhead_inv s ->
  wp (cmd_SET_VELOCITY_LIMIT gcmd)
     (fun _ => toolhead_inv) (fun _ => toolhead_inv) s.
Proof.
  intros HI.
  unfold cmd_SET_VELOCITY_LIMIT, get_float_above, get_float_minval, da_store.
  thi_flat ltac:(idtac; thi_by toolhead_inv_calc_junction_deviation).
Qed.

Lemma toolhead_inv_M204_set_accel accel cmd s :
  toolhead_inv s ->
  wp (M204_set_accel accel cmd)
     (fun _ => toolhead_inv) (fun _ => toolhead_inv) s.
Proof.
  intros HI. unfold M204_set_accel, da_store.
  thi_flat ltac:(idtac; thi_by toolhead_inv_calc_junction_deviation).
Qed.

Lemma toolhead_inv_cmd_M204 gcmd s :
  toolhead_inv s ->
  wp (cmd_M204 gcmd) (fun _ => toolhead_inv) (fun _ => toolhead_inv) s.
Proof.
  intros HI. unfold cmd_M204, get_float_above.
  thi ltac:(idtac; thi_by toolhead_inv_M204_set_accel).
Qed.

Lemma toolhead_inv_cmd_G4 gcmd s :
  toolhead_inv s ->
  wp (cmd_G4 gcmd) (fun _ => toolhead_inv) (fun _ => toolhead_inv) s.
Proof.
  intros HI. unfold cmd_G4, get_float_minval.
  thi ltac:(idtac; thi_by toolhead_inv_dwell).
Qed.

Lemma toolhead_inv_run_op op s :
  toolhead_inv s ->
  wp (run_op op) (fun _ => toolhead_inv) (fun _ => toolhead_inv) s.
Proof.
  intros HI. destruct op; cbn [run_op].
  - apply toolhead_inv_move, HI.
  - apply toolhead_inv_simple_move, HI.
  - apply toolhead_inv_manual_move, HI.
  - apply toolhead_inv_dwell, HI.
  - apply toolhead_inv_flush_step_generation, HI.
  - thi ltac:(idtac; thi_by toolhead_inv_get_last_move_time).
  - thi ltac:(idtac; thi_by toolhead_inv_flush_handler).
  - apply toolhead_inv_set_position, HI.
  - apply toolhead_inv_wait_moves, HI.
  - apply toolhead_inv_set_extruder, HI.
  - apply toolhead_inv_drip_move, HI.
  - apply toolhead_inv_handle_shutdown, HI.
  - unfold register_step_generator. thi idtac.
  - apply toolhead_inv_note_step_generation_scan_time, HI.
  - apply toolhead_inv_register_lookahead_callback, HI.
  - unfold note_kinematic_activity. thi idtac.
  - unfold cmd_SET_G29_FLAG. thi idtac.
  - apply toolhead_inv_cmd_G4, HI.
  - apply toolhead_inv_wait_moves, HI.
  - apply toolhead_inv_cmd_SET_VELOCITY_LIMIT, HI.
  - apply toolhead_inv_cmd_M204, HI.
  - thi idtac.
  - thi idtac.
Qed.

Lemma toolhead_inv_run_call c s :
  toolhead_inv s ->
  wp (run_call c) (fun _ => toolhead_inv) (fun _ => toolhead_inv) s.
Proof.
  intros HI. destruct c; cbn [run_call].
  - apply toolhead_inv_run_op, HI.
  - unfold ToolHead_set_max_accel, da_store. thi_flat idtac.
  - unfold ToolHead_set_max_velocity, da_store. thi_flat idtac.
  - unfold ToolHead_set_max_accel_to_decel, da_store. thi_flat idtac.
  - unfold check_busy. thi_flat idtac.
Qed.

Lemma toolhead_inv_run_calls calls s :
  toolhead_inv s -> toolhead_inv (run_calls calls s).
Proof.
  revert s. induction calls as [|c calls IH]; intros s HI; [exact HI|].
  cbn [run_calls fold_left]. apply IH.
  apply wp_st, toolhead_inv_run_call, HI.
Qed.

Lemma toolhead_inv_init mv ma matd scv scmv btl bth bts mft pr fo n now z :
  toolhead_inv
    (ToolHead_init mv ma matd scv scmv btl bth bts mft pr fo n now z).
Proof.
  unfold ToolHead_init. apply wp_st.
  apply toolhead_inv_calc_junction_deviation.
  repeat split; try reflexivity. right; left; reflexivity.
Qed.

Lemma list_max_ge x l : x <= list_max x l.
Proof.
  unfold list_max. revert x. induction l as [|y l IH]; intros x; cbn.
  - apply Qle_refl.
  - eapply Qle_trans; [ apply Q.le_max_l | apply IH ].
Qed.

Lemma list_max_ge_each x l :
  Forall (fun d => d <= list_max x l) l.
Proof.
  unfold list_max. revert x. induction l as [|y l IH]; intros x; cbn.
  - constructor.
  - constructor.
    + eapply Qle_trans; [ apply Q.le_max_r | apply (list_max_ge _ l) ].
    + apply IH.
Qed.

Lemma scan_window_covers kft :
  SDS_CHECK_TIME <= scan_window kft
  /\ Forall (fun d => d <= scan_window kft) kft.
Proof.
  unfold scan_window.
  destruct kft as [|x l]; cbn [app].
  - split; [ apply Qle_refl | constructor ].
  - pose proof (list_max_ge_each x (l ++ [SDS_CHECK_TIME])) as HF.
    apply Forall_app in HF. destruct HF as [HF1 HF2].
    split.
    + inversion HF2; assumption.
    + constructor; [ apply list_max_ge | exact HF1 ].
Qed.

End Invariants.

Section InvariantTheorems.

Context `{Extern}.

(** X1.  Whatever calls have been made on a toolhead since [__init__],
    [special_queuing_state] is one of the four strings the code compares
    it with: [""], ["Flushed"], ["Priming"] or ["Drip"]. *)
Theorem queuing_state_always_valid
    (mv ma matd scv scmv btl bth bts mft : Q) (pr : Printer) (fo : bool)
    (n : Native) (now z : Q) (calls : list Call) :
  valid_queuing_state
    (run_calls calls
       (ToolHead_init mv ma matd scv scmv btl bth bts mft pr fo n now z)).
Proof. apply toolhead_inv_run_calls, toolhead_inv_init. Qed.

(** X2.  Whatever calls have been made on a toolhead since [__init__], in
    every outcome, the buffer read by the native planner keeps its 14
    slots, and its slots 0 to 3 hold the current [max_accel],
    [max_velocity], junction deviation and [max_accel_to_decel]. *)
Theorem buffer_always_mirrors_limits
    (mv ma matd scv scmv btl bth bts mft : Q) (pr : Printer) (fo : bool)
    (n : Native) (now z : Q) (calls : list Call) :
  buffer_mirrors_limits
    (run_calls calls
       (ToolHead_init mv ma matd scv scmv btl bth bts mft pr fo n now z)).
Proof. apply toolhead_inv_run_calls, toolhead_inv_init. Qed.

(** X3.  Whatever calls have been made on a toolhead since [__init__],
    [kin_flush_delay] is at least [SDS_CHECK_TIME] and at least every scan
    time still registered in [kin_flush_times]. *)
Theorem kin_flush_delay_covers_scan_times
    (mv ma matd scv scmv btl bth bts mft : Q) (pr : Printer) (fo : bool)
    (n : Native) (now z : Q) (calls : list Call) :
  let s := run_calls calls
             (ToolHead_init mv ma matd scv scmv btl bth bts mft pr fo n now z) in
  SDS_CHECK_TIME <= kin_flush_delay s
  /\ Forall (fun d => d <= kin_flush_delay s) (kin_flush_times s).
Proof.
  intros s.
  assert (Hk : kin_flush_delay s = scan_window (kin_flush_times s))
    by apply toolhead_inv_run_calls, toolhead_inv_init.
  rewrite Hk. apply scan_window_covers.
Qed.

End InvariantTheorems.

(** ** Two facts about one run *)

Lemma wp_conj {A} `{Extern} (m : M A) Q1 Q2 E1 E2 s :
  wp m Q1 E1 s -> wp m Q2 E2 s ->
  wp m (fun a s' => Q1 a s' /\ Q2 a s') (fun oe s' => E1 oe s' /\ E2 oe s') s.
Proof. unfold wp. destruct (m s); auto. Qed.

Lemma keeps_to_wp {A} `{Extern} R P (m : M A) s :
  keeps R P m -> wp m (fun _ s' => R s s') (fun _ s' => R s s') s.
Proof.
  intros Hk. specialize (Hk s). unfold wp. destruct (m s); tauto.
Qed.

Lemma wp_any {A} `{Extern} (m : M A) (Q : A -> ToolHead -> Prop)
    (E : option Exn -> ToolHead -> Prop) s :
  (forall a s', Q a s') -> (forall oe s', E oe s') -> wp m Q E s.
Proof. intros HQ HE. unfold wp. destruct (m s); auto. Qed.

(** ** The flush timer and the reactor's pause *)

Section CanPause.

Context `{Extern}.

#[global] Instance same_can_pause_preorder : PreOrder same_can_pause.
Proof.
  split.
  - intros s. reflexivity.
  - intros s1 s2 s3. unfold same_can_pause. congruence.
Qed.

Lemma clock_step_same_can_pause s s' :
  clock_step s s' -> same_can_pause s s'.
Proof. intros (p & e & ->). reflexivity. Qed.

End CanPause.

Ltac same_can_pause_prim :=
  first [ apply clock_step_same_can_pause;
          first [ apply update_move_time_clock_step
                | apply calc_print_time_clock_step ]
        | reflexivity ].

Ltac same_can_pause_walk callee :=
  keeps_walk ltac:(idtac; same_can_pause_prim) callee.

Section FlushTimer.

Context `{Extern}.

Lemma same_can_pause_update_drip_move_time_loop n npt fd :
  keeps same_can_pause any_exn (update_drip_move_time_loop n npt fd).
Proof.
  induction n as [|n IH]; cbn [update_drip_move_time_loop];
    unfold update_drip_move_time_body, completion_wait.
  - same_can_pause_walk idtac.
  - same_can_pause_walk ltac:(exact IH).
Qed.

Lemma same_can_pause_process_moves moves :
  keeps same_can_pause any_exn (_process_moves moves).
Proof.
  unfold _process_moves, _update_drip_move_time.
  same_can_pause_walk ltac:(apply same_can_pause_update_drip_move_time_loop).
Qed.

Lemma same_can_pause_MoveQueue_flush lazy :
  keeps same_can_pause any_exn (MoveQueue_flush lazy).
Proof.
  unfold MoveQueue_flush.
  same_can_pause_walk ltac:(apply same_can_pause_process_moves).
Qed.

Lemma same_can_pause_flush_step_generation :
  keeps same_can_pause any_exn flush_step_generation.
Proof.
  unfold flush_step_generation, MoveQueue_set_flush_time.
  same_can_pause_walk ltac:(apply same_can_pause_MoveQueue_flush).
Qed.

(** The run of the timer callback, by cases. *)
Lemma flush_handler_run eventtime s :
  _flush_handler eventtime s
  = if Qlt_bool (buffer_time_low s)
         (print_time s - estimated_print_time eventtime)
    then Ok (eventtime + (print_time s - estimated_print_time eventtime)
             - buffer_time_low s) s
    else match flush_step_generation s with
         | Ok _ s1 =>
             Ok NEVER
                (if Qeq_bool (print_time s) (print_time s1) then s1
                 else set_idle_flush_print_time (print_time s1) s1)
         | Raise _ s1 =>
             Ok NEVER
                (log (Ev_invoke_shutdown "Exception in flush_handler") s1)
         | Timeout s1 => Timeout s1
         end.
Proof.
  unfold _flush_handler, try_except, bind, gets, ret, emit, modify.
  destruct (Qlt_bool (buffer_time_low s) _); [reflexivity|].
  destruct (flush_step_generation s) as [[] s1|e s1|s1]; [|reflexivity..].
  destruct (Qeq_bool (print_time s) (print_time s1)); reflexivity.
Qed.

(** X6.  The timer callback [_flush_handler] never lets an exception
    out.  While the planned moves are more than [buffer_time_low] ahead of
    the estimated print time it changes nothing and asks to be woken when
    they no longer are.  Otherwise it runs [flush_step_generation] and
    answers [NEVER]: after a flush that returned, [idle_flush_print_time]
    is set to the new [print_time] if the flush moved it; after a flush
    that raised, [invoke_shutdown] is called in the state the flush
    left. *)
Theorem flush_handler_never_raises (eventtime : Q) (s : ToolHead) :
  let buffer_time := print_time s - estimated_print_time eventtime in
  _flush_handler eventtime s
  = if Qlt_bool (buffer_time_low s) buffer_time
    then Ok (eventtime + buffer_time - buffer_time_low s) s
    else match flush_step_generation s with
         | Ok _ s1 =>
             Ok NEVER
                (if Qeq_bool (print_time s) (print_time s1) then s1
                 else set_idle_flush_print_time (print_time s1) s1)
         | Raise _ s1 =>
             Ok NEVER
                (log (Ev_invoke_shutdown "Exception in flush_handler") s1)
         | Timeout s1 => Timeout s1
         end.
Proof. cbv zeta. apply flush_handler_run. Qed.

Lemma same_can_pause_flush_handler eventtime :
  keeps same_can_pause no_exn (_flush_handler eventtime).
Proof.
  intros s. rewrite flush_handler_run.
  pose proof (same_can_pause_flush_step_generation s) as Hf.
  destruct (Qlt_bool _ _); [reflexivity|].
  destruct (flush_step_generation s) as [[] s1|e s1|s1].
  - destruct (Qeq_bool _ _); exact Hf.
  - destruct Hf as [Hf _]. exact Hf.
  - exact Hf.
Qed.

Lemma same_can_pause_run_flush_timer n waketime :
  keeps same_can_pause no_exn (run_flush_timer n waketime).
Proof.
  induction n as [|n IH]; cbn [run_flush_timer];
    same_can_pause_walk
      ltac:(first [ exact IH | apply same_can_pause_flush_handler ]).
Qed.

(** A pause ends at its wake time, with no exception of the timer's
    callback let through. *)
Lemma reactor_pause_wp waketime s :
  wp (reactor_pause waketime)
     (fun r s' =>
        r = waketime /\ reactor_now s' = waketime
        /\ can_pause s' = can_pause s)
     (fun oe _ => oe = None) s.
Proof.
  unfold reactor_pause.
  wp_call (same_can_pause_run_flush_timer wakeups waketime).
  - wp_walk. st_simpl. auto.
  - contradiction.
  - reflexivity.
Qed.

(** The timer during a pause in which the planned moves stay more than
    [buffer_time_low] ahead: its callback only asks to be woken later. *)
Lemma run_flush_timer_reschedules n waketime s :
  reactor_now s <= waketime ->
  (forall t, reactor_now s <= t -> t <= waketime ->
             buffer_time_low s < print_time s - estimated_print_time t) ->
  wp (run_flush_timer n waketime)
     (fun _ s' =>
        exists now ft, s' = set_flush_timer ft (set_reactor_now now s))
     (fun oe _ => oe = None) s.
Proof.
  revert s. induction n as [|n IH]; intros s Hnow Hhigh;
    cbn [run_flush_timer]; do 3 wp_step.
  - wp_step. reflexivity.
  - wp_step. exists (reactor_now s), (flush_timer s).
    destruct s; reflexivity.
  - apply Qle_bool_iff in Eb.
    assert (Hlo : reactor_now s <= Qmax (reactor_now s) (flush_timer s))
      by apply Q.le_max_l.
    assert (Hhi : Qmax (reactor_now s) (flush_timer s) <= waketime)
      by (apply Q.max_lub; assumption).
    do 4 wp_step. apply wp_bind.
    unfold wp at 1. rewrite flush_handler_run. st_simpl.
    rewrite (proj2 (Qlt_bool_true _ _) (Hhigh _ Hlo Hhi)).
    wp_step. wp_step.
    eapply wp_mono; [ apply IH | cbv beta | auto ]; st_simpl.
    + exact Hhi.
    + intros t Ht1 Ht2. apply Hhigh; [|exact Ht2].
      eapply Qle_trans; [exact Hlo | exact Ht1].
    + intros _ s' (now & ft & ->). exists now, ft.
      destruct s; reflexivity.
  - wp_step. exists (reactor_now s), (flush_timer s).
    destruct s; reflexivity.
Qed.

Lemma reactor_pause_reschedules waketime s :
  reactor_now s <= waketime ->
  (forall t, reactor_now s <= t -> t <= waketime ->
             buffer_time_low s < print_time s - estimated_print_time t) ->
  wp (reactor_pause waketime)
     (fun r s' =>
        r = waketime
        /\ exists ft,
             s' = log (Ev_pause waketime)
                      (set_reactor_now waketime (set_flush_timer ft s)))
     (fun oe _ => oe = None) s.
Proof.
  intros Hnow Hhigh. unfold reactor_pause. apply wp_bind.
  eapply wp_mono;
    [ apply (run_flush_timer_reschedules wakeups waketime s Hnow Hhigh)
    | cbv beta | auto ].
  intros _ s' (now & ft & ->). wp_walk.
  split; [reflexivity|]. exists ft. destruct s; reflexivity.
Qed.

End FlushTimer.

(** ** Stall checking *)

Section CheckStall.

Context `{Extern}.

(** The waiting loop of [_check_stall], entered with the reactor's time:
    through [break] the buffer is at most [buffer_time_high] ahead of the
    estimated print time at the reactor's time; through [return] the
    toolhead cannot pause. *)
Lemma check_stall_loop_wp n s :
  wp (check_stall_loop n (reactor_now s))
     (fun r s' =>
        can_pause s' = can_pause s
        /\ match r with
           | Some est =>
               est = estimated_print_time (reactor_now s')
               /\ print_time s' - est <= buffer_time_high s'
           | None => can_pause s' = false
           end)
     (fun oe _ => oe = None) s.
Proof.
  revert s. induction n as [|n IH]; intros s;
    cbn [check_stall_loop]; wp_walk; st_simpl.
  - repeat split; auto. apply Qle_bool_iff in Eb. lra.
  - split; [reflexivity|].
    destruct (can_pause s); [discriminate|reflexivity].
  - reflexivity.
  - repeat split; auto. apply Qle_bool_iff in Eb. lra.
  - split; [reflexivity|].
    destruct (can_pause s); [discriminate|reflexivity].
  - eapply wp_mono; [ apply reactor_pause_wp | cbv beta | auto ].
    intros r s1 (-> & Hnow & Hcp). rewrite <- Hnow at 1.
    eapply wp_mono; [ apply IH | cbv beta | auto ].
    intros r s' (Hc & Hr). split; [congruence | exact Hr].
Qed.

(** On a toolhead that cannot pause the loop is left at once. *)
Lemma check_stall_loop_cannot_pause n eventtime s :
  can_pause s = false ->
  check_stall_loop n eventtime s
  = if Qle_bool (print_time s - estimated_print_time eventtime
                 - buffer_time_high s) 0
    then Ok (Some (estimated_print_time eventtime)) s
    else Ok None (set_need_check_stall NEVER s).
Proof.
  intros Hcp.
  destruct n; cbn [check_stall_loop]; unfold bind, gets, ret, modify;
    destruct (Qle_bool _ 0); try reflexivity; rewrite Hcp; reflexivity.
Qed.

(** During a stall the planned moves are more than [buffer_time_high]
    ahead; with [buffer_time_low] below [buffer_time_high] and a clock
    estimate that keeps pace, the timer only reschedules and the loop
    leaves [print_time] alone. *)
Lemma check_stall_loop_print_time n s :
  clock_estimate_paced ->
  buffer_time_low s < buffer_time_high s ->
  wp (check_stall_loop n (reactor_now s))
     (fun _ s' => print_time s' = print_time s)
     (fun _ _ => True) s.
Proof.
  intros Hpaced. revert s. induction n as [|n IH]; intros s Hlow;
    cbn [check_stall_loop]; wp_walk; st_simpl; try reflexivity;
    try exact I.
  apply Qle_bool_false in Eb.
  set (stall := print_time s - estimated_print_time (reactor_now s)
                - buffer_time_high s) in *.
  assert (Hmin0 : 0 < Qmin 1 stall)
    by (destruct (Qmin_cases 1 stall) as [[_ ->]|[_ ->]]; lra).
  assert (Hmin : Qmin 1 stall <= stall) by apply Q.le_min_r.
  eapply wp_mono;
    [ apply (reactor_pause_reschedules (reactor_now s + Qmin 1 stall) s)
    | cbv beta | cbv beta ].
  - lra.
  - intros t Ht1 Ht2. specialize (Hpaced _ _ Ht1). unfold stall in *. lra.
  - intros r s1 (-> & ft & ->).
    match goal with
    | |- wp (check_stall_loop n ?t) _ _ ?s1 =>
        change t with (reactor_now s1)
    end.
    eapply wp_mono; [ apply IH | cbv beta | cbv beta ]; st_simpl; auto.
  - intros; exact I.
Qed.

Lemma check_stall_wp s :
  wp _check_stall
     (fun _ s' =>
        can_pause s = true ->
        print_time s' - estimated_print_time (reactor_now s')
        <= buffer_time_high s')
     (fun oe _ => oe = None) s.
Proof.
  unfold _check_stall. wp_walk;
  match goal with
  | |- wp _ _ _ ?s0 =>
      change (reactor_now s) with (reactor_now s0);
      eapply wp_mono; [ apply check_stall_loop_wp | cbv beta | auto ]
  end; st_simpl.
  all: intros r s' (Hc & Hr); destruct r as [est|]; wp_walk; st_simpl;
    intros Hcp; first [ destruct Hr as (-> & Hr); exact Hr | congruence ].
Qed.

Lemma check_stall_print_time s :
  clock_estimate_paced ->
  buffer_time_low s < buffer_time_high s ->
  wp _check_stall (fun _ s' => print_time s' = print_time s)
     (fun _ _ => True) s.
Proof.
  intros Hpaced Hlow. unfold _check_stall. wp_walk;
  match goal with
  | |- wp _ _ _ ?s0 =>
      change (reactor_now s) with (reactor_now s0);
      eapply wp_mono;
        [ apply (check_stall_loop_print_time wakeups s0 Hpaced Hlow)
        | cbv beta | auto ]
  end; st_simpl.
  all: intros r s' Hp; destruct r as [est|]; wp_walk; st_simpl; exact Hp.
Qed.

(** X4.  When [_check_stall] returns on a toolhead that can pause, it has
    let the reactor's time pass until the planned moves are at most
    [buffer_time_high] ahead of the estimated print time.  [print_time]
    itself is as before when the flush timer, which runs during the
    pauses, only reschedules: with [buffer_time_low] below
    [buffer_time_high] (as [__init__] configures them) and a clock
    estimate that does not run ahead of the reactor's clock. *)
Theorem check_stall_bounds_buffer (s s' : ToolHead) :
  _check_stall s = Ok tt s' ->
  can_pause s = true ->
  (clock_estimate_paced ->
   buffer_time_low s < buffer_time_high s ->
   print_time s' = print_time s)
  /\ print_time s' - estimated_print_time (reactor_now s')
     <= buffer_time_high s'.
Proof.
  intros Hrun Hcp. split.
  - intros Hpaced Hlow.
    pose proof (wp_run _ _ _ _ (check_stall_print_time s Hpaced Hlow)) as Hw.
    rewrite Hrun in Hw. exact Hw.
  - pose proof (wp_run _ _ _ _ (check_stall_wp s)) as Hw.
    rewrite Hrun in Hw. auto.
Qed.

(** X5.  On a toolhead that cannot pause, [_check_stall] returns without
    pausing: the reactor's time and [print_time] are as before and no
    pause was made.  A toolhead in a special queuing state has been
    switched to "Priming" with its flush timer re-armed 100 ms from now;
    in the main state both are as before.  If the planned moves are more
    than [buffer_time_high] ahead, [need_check_stall] is [NEVER]. *)
Theorem check_stall_without_pause (s : ToolHead) :
  can_pause s = false ->
  exists s',
    _check_stall s = Ok tt s'
    /\ reactor_now s' = reactor_now s
    /\ pauses s' = pauses s
    /\ print_time s' = print_time s
    /\ (if str_true (special_queuing_state s)
        then special_queuing_state s' = "Priming"
             /\ flush_timer s' = reactor_now s + 0.100
        else special_queuing_state s' = special_queuing_state s
             /\ flush_timer s' = flush_timer s)
    /\ (buffer_time_high s
        < print_time s - estimated_print_time (reactor_now s) ->
        need_check_stall s' = NEVER).
Proof.
  intros Hcp.
  assert (Hw : wp _check_stall
    (fun _ s' =>
       reactor_now s' = reactor_now s
       /\ pauses s' = pauses s
       /\ print_time s' = print_time s
       /\ (if str_true (special_queuing_state s)
           then special_queuing_state s' = "Priming"
                /\ flush_timer s' = reactor_now s + 0.100
           else special_queuing_state s' = special_queuing_state s
                /\ flush_timer s' = flush_timer s)
       /\ (buffer_time_high s
           < print_time s - estimated_print_time (reactor_now s) ->
           need_check_stall s' = NEVER))
    (fun _ _ => False) s).
  { unfold _check_stall, pauses. wp_walk.
    all: unfold wp at 1;
      rewrite check_stall_loop_cannot_pause by (st_simpl; exact Hcp);
      st_simpl;
      destruct (Qle_bool _ 0) eqn:Est;
      [ apply Qle_bool_iff in Est | ];
      wp_walk; st_simpl; repeat split; try reflexivity;
      try (intros Hlt; exfalso; lra). }
  apply wp_run in Hw.
  destruct (_check_stall s) as [[] s'|e s'|s']; [|contradiction..].
  exists s'. split; [reflexivity | exact Hw].
Qed.

End CheckStall.

Section CheckStallExamples.

#[local] Existing Instance demo_extern.

(** With a move queued and the clock five seconds on, the timer's
    callback flushes: the queue is empty, the toolhead "Flushed", and
    [idle_flush_print_time] holds the new [print_time]. *)
Lemma flush_handler_never_raises_witness :
  let s := run_ops [OpMove [10; 0; 0; 0] 50; OpClock 5] (demo_toolhead 0) in
  exists s',
    _flush_handler 5 s = Ok NEVER s'
    /\ queue s = [(demo_move 1, [])]
    /\ queue s' = []
    /\ special_queuing_state s' = "Flushed"
    /\ idle_flush_print_time s' = print_time s'.
Proof.
  intros s. pose proof (flush_handler_never_raises 5 s) as Hrun.
  cbv zeta in Hrun.
  exists (st (_flush_handler 5 s)).
  split; [rewrite Hrun; vm_compute; reflexivity|].
  repeat split; vm_compute; reflexivity.
Defined.

Lemma demo_clock_estimate_paced : clock_estimate_paced.
Proof.
  intros a b Hab. cbn [estimated_print_time demo_extern]. apply Qle_refl.
Qed.

(** A toolhead five seconds ahead: three pauses of one second, during
    which the flush timer, armed for 0.1, runs once and reschedules. *)
Lemma check_stall_bounds_buffer_witness :
  let s := set_print_time 5 (demo_toolhead 0) in
  reactor_now (st (_check_stall s)) = 3
  /\ length (pauses (st (_check_stall s))) = 3%nat
  /\ flush_timer (st (_check_stall s)) == 4
  /\ print_time (st (_check_stall s)) = print_time s
  /\ print_time (st (_check_stall s))
     - estimated_print_time (reactor_now (st (_check_stall s)))
     <= buffer_time_high (st (_check_stall s)).
Proof.
  intros s.
  split; [vm_compute; reflexivity|].
  split; [vm_compute; reflexivity|].
  split; [vm_compute; reflexivity|].
  destruct (check_stall_bounds_buffer s (st (_check_stall s)))
    as [Hp Hb]; [vm_compute; reflexivity..|].
  split; [|exact Hb].
  apply Hp; [exact demo_clock_estimate_paced | vm_compute; reflexivity].
Defined.

Lemma check_stall_without_pause_witness :
  let s := set_can_pause false (set_print_time 5 (demo_toolhead 0)) in
  exists s',
    _check_stall s = Ok tt s'
    /\ reactor_now s' = reactor_now s
    /\ pauses s' = pauses s
    /\ print_time s' = print_time s
    /\ (special_queuing_state s' = "Priming"
        /\ flush_timer s' = reactor_now s + 0.100)
    /\ need_check_stall s' = NEVER.
Proof.
  intros s.
  destruct (check_stall_without_pause s) as (s' & Hrun & Hn & Hp & Ht & Hq & Hs);
    [vm_compute; reflexivity|].
  exists s'. repeat split; try assumption; try apply Hq.
  apply Hs. vm_compute. reflexivity.
Defined.

End CheckStallExamples.
(** ** The flush timer, waiting and dwelling *)

Section Waiting.

Context `{Extern}.

Lemma wait_moves_loop_wp n s :
  wp (wait_moves_loop n (reactor_now s))
     (fun _ s' =>
        can_pause s' = true ->
        str_true (special_queuing_state s') = true
        /\ print_time s' < estimated_print_time (reactor_now s'))
     (fun _ _ => True) s.
Proof.
  assert (Hexit : forall s : ToolHead,
    negb (str_true (special_queuing_state s))
    || Qle_bool (estimated_print_time (reactor_now s)) (print_time s) = false ->
    str_true (special_queuing_state s) = true
    /\ print_time s < estimated_print_time (reactor_now s)).
  { intros s0 Eb. apply orb_false_iff in Eb. destruct Eb as [Hs Hp].
    apply negb_false_iff in Hs. apply Qle_bool_false in Hp. auto. }
  revert s. induction n as [|n IH]; intros s;
    cbn [wait_moves_loop]; wp_walk; st_simpl.
  all: try exact I.
  all: try (intros _; apply Hexit; assumption).
  all: try (intros Hcp; destruct (can_pause s); discriminate).
  eapply wp_mono; [ apply reactor_pause_wp | cbv beta | auto ].
  intros r s1 (-> & Hnow & _). rewrite <- Hnow at 1. apply IH.
Qed.

(** X7.  When [wait_moves] returns on a toolhead that can pause, the
    planned moves are over: the toolhead is in one of its special queuing
    states (nothing is primed for printing) and the estimated print time
    at the reactor's time has passed [print_time]. *)
Theorem wait_moves_returns_after_moves (s s' : ToolHead) :
  wait_moves s = Ok tt s' ->
  can_pause s' = true ->
  special_queuing_state s' <> ""
  /\ print_time s' < estimated_print_time (reactor_now s').
Proof.
  intros Hrun Hcp.
  assert (Hw : wp wait_moves
            (fun _ s' => can_pause s' = true ->
               special_queuing_state s' <> ""
               /\ print_time s' < estimated_print_time (reactor_now s'))
            (fun _ _ => True) s).
  { unfold wait_moves. apply wp_bind.
    refine (wp_keeps (fun _ _ => True) any_exn _ _ _ _ _ _ _ _); cbv beta.
    - intros s0. destruct (_flush_lookahead s0); cbv beta;
        unfold any_exn; auto.
    - intros _ s1 _. apply wp_bind; apply wp_gets; cbv beta.
      eapply wp_mono; [ apply wait_moves_loop_wp | cbv beta | auto ].
      intros _ s2 Ht Hcp2.
      destruct (Ht Hcp2) as [Hs Hp]. split; [|exact Hp].
      intros He. rewrite He in Hs. discriminate.
    - intros; exact I.
    - intros; exact I. }
  apply wp_run in Hw. rewrite Hrun in Hw. auto.
Qed.

(** [get_last_move_time] from its result on. *)
Lemma get_last_move_time_ahead s :
  wp get_last_move_time
     (fun t s' =>
        t = print_time s'
        /\ (special_queuing_state s' <> "" ->
            estimated_print_time (reactor_now s') + buffer_time_start s'
            <= t
            /\ Qmax (estimated_print_time (reactor_now s') + MIN_KIN_TIME)
                    (last_kin_flush_time s') + kin_flush_delay s' <= t))
     (fun _ _ => True) s.
Proof.
  unfold get_last_move_time. apply wp_bind.
  refine (wp_keeps (fun _ _ => True) any_exn _ _ _ _ _ _ _ _); cbv beta.
  - intros s0. destruct (_flush_lookahead s0); cbv beta; unfold any_exn; auto.
  - intros _ s1 _. wp_walk; (split; [reflexivity|]).
    + intros _. unfold _calc_print_time, min_print_time.
      destruct (Qlt_bool (print_time s1) _) eqn:E; st_simpl.
      * split; [apply Q.le_max_l | apply Q.le_max_r].
      * apply Qlt_bool_false in E. unfold min_print_time in E.
        split; (eapply Qle_trans; [|exact E]);
          [apply Q.le_max_l | apply Q.le_max_r].
    + intros Hne. exfalso. apply Hne.
      unfold str_true in Eb. apply negb_false_iff in Eb.
      apply String.eqb_eq in Eb. exact Eb.
  - intros; exact I.
  - intros; exact I.
Qed.

(** X8.  What [get_last_move_time] returns is the [print_time] it leaves,
    and when it leaves the toolhead in a special queuing state (it was
    not printing), that time lies in the future: at least
    [buffer_time_start] after the estimated print time, and at least
    [kin_flush_delay] after both the last flush of the step generators
    and [MIN_KIN_TIME] from now. *)
Theorem get_last_move_time_schedules_ahead (s s' : ToolHead) (t : Q) :
  get_last_move_time s = Ok t s' ->
  t = print_time s'
  /\ (special_queuing_state s' <> "" ->
      let est := estimated_print_time (reactor_now s') in
      est + buffer_time_start s' <= t
      /\ est + MIN_KIN_TIME + kin_flush_delay s' <= t
      /\ last_kin_flush_time s' + kin_flush_delay s' <= t).
Proof.
  intros Hrun. pose proof (wp_run _ _ _ _ (get_last_move_time_ahead s)) as Hw.
  rewrite Hrun in Hw. destruct Hw as [Ht Hs]. split; [exact Ht|].
  intros Hne. cbv zeta. destruct (Hs Hne) as [H1 H2]. split; [exact H1|].
  pose proof (Q.le_max_l (estimated_print_time (reactor_now s') + MIN_KIN_TIME)
                (last_kin_flush_time s')).
  pose proof (Q.le_max_r (estimated_print_time (reactor_now s') + MIN_KIN_TIME)
                (last_kin_flush_time s')).
  split; lra.
Qed.

Lemma dwell_wp (Hnmt : trapq_time_advances) delay s :
  wp (dwell delay)
     (fun _ s' => print_time s + Qmax 0 delay <= print_time s')
     (fun _ _ => True) s.
Proof.
  unfold dwell. apply wp_bind.
  eapply wp_mono; [ apply (get_last_move_time_wp Hnmt) | cbv beta | auto ].
  intros t s1 [(Hpt & _) ->]. apply wp_bind, wp_modify.
  refine (wp_keeps _ _ _ _ _ _ (clock_mono_check_stall Hnmt) _ _ _);
    cbv beta; try (intros; exact I).
  intros _ s2 (Hp & _). rewrite update_move_time_reaches in Hp. lra.
Qed.

(** X9.  With a trapezoid queue whose moves have no negative duration,
    [dwell(delay)] that returns has moved [print_time] forward by at
    least [delay]; a negative [delay] counts as zero. *)
Theorem dwell_advances_print_time (delay : Q) (s s' : ToolHead) :
  trapq_time_advances ->
  dwell delay s = Ok tt s' ->
  print_time s + Qmax 0 delay <= print_time s'.
Proof.
  intros Hnmt Hrun. pose proof (wp_run _ _ _ _ (dwell_wp Hnmt delay s)) as Hw.
  rewrite Hrun in Hw. exact Hw.
Qed.

(** X10.  [G4 P<ms>] with a negative [P] is rejected before anything
    changes; otherwise, with a trapezoid queue whose moves have no
    negative duration, a [G4] that returns has moved [print_time] forward
    by at least [P] milliseconds. *)
Theorem cmd_G4_dwells (gcmd : gmap string Q) (s : ToolHead) :
  trapq_time_advances ->
  match gcmd !! "P" with
  | Some p =>
      if Qlt_bool p 0 then cmd_G4 gcmd s = Raise (gcmd_error "P") s
      else forall s', cmd_G4 gcmd s = Ok tt s' ->
                      print_time s + p / 1000 <= print_time s'
  | None => forall s', cmd_G4 gcmd s = Ok tt s' ->
                       print_time s <= print_time s'
  end.
Proof.
  intros Hnmt. unfold cmd_G4, get_float_minval.
  destruct (gcmd !! "P") as [p|] eqn:Ep.
  - destruct (Qlt_bool p 0) eqn:E; [reflexivity|].
    apply Qlt_bool_false in E.
    intros s' Hrun. unfold bind, ret in Hrun.
    pose proof (wp_run _ _ _ _ (dwell_wp Hnmt (p / 1000) s)) as Hw.
    rewrite Hrun in Hw.
    assert (0 <= p / 1000) by (apply Qle_shift_div_l; lra).
    pose proof (Q.le_max_r 0 (p / 1000)). lra.
  - intros s' Hrun. unfold bind, ret in Hrun.
    pose proof (wp_run _ _ _ _ (dwell_wp Hnmt (0 / 1000) s)) as Hw.
    rewrite Hrun in Hw.
    pose proof (Q.le_max_l 0 (0 / 1000)). lra.
Qed.

End Waiting.

Section WaitingExamples.

#[local] Existing Instance demo_extern.

(** Three moves leave the example toolhead printing (main state) with
    its flush timer armed; ten seconds later [wait_moves] pauses once,
    the timer flushes during that pause, and [wait_moves] returns. *)
Lemma wait_moves_returns_after_moves_witness :
  let s := run_ops [OpMove [10; 0; 0; 0] 50; OpMove [20; 0; 0; 0] 50;
                    OpMove [30; 0; 0; 0] 50; OpClock 10] (demo_toolhead 0) in
  special_queuing_state s = ""
  /\ length (pauses (st (wait_moves s))) = S (length (pauses s))
  /\ special_queuing_state (st (wait_moves s)) <> ""
  /\ print_time (st (wait_moves s))
     < estimated_print_time (reactor_now (st (wait_moves s))).
Proof.
  intros s.
  split; [vm_compute; reflexivity|].
  split; [vm_compute; reflexivity|].
  apply (wait_moves_returns_after_moves s (st (wait_moves s)));
    vm_compute; reflexivity.
Defined.

Lemma get_last_move_time_schedules_ahead_witness :
  let s := set_reactor_now 1 (demo_toolhead 0) in
  let s' := st (get_last_move_time s) in
  let t := 1.250 in
  t = print_time s'
  /\ (special_queuing_state s' <> "" ->
      let est := estimated_print_time (reactor_now s') in
      est + buffer_time_start s' <= t
      /\ est + MIN_KIN_TIME + kin_flush_delay s' <= t
      /\ last_kin_flush_time s' + kin_flush_delay s' <= t).
Proof.
  intros s s' t.
  apply (get_last_move_time_schedules_ahead s s' t).
  vm_compute. reflexivity.
Defined.

Lemma dwell_advances_print_time_witness :
  let s := demo_toolhead 0 in
  print_time s + Qmax 0 1 <= print_time (st (dwell 1 s)).
Proof.
  intros s. apply (dwell_advances_print_time 1 s (st (dwell 1 s)));
    [ exact demo_trapq_time_advances | vm_compute; reflexivity ].
Defined.

Lemma cmd_G4_dwells_witness :
  let gcmd : gmap string Q := {[ "P" := 500 ]} in
  let s := demo_toolhead 0 in
  print_time s + 500 / 1000 <= print_time (st (cmd_G4 gcmd s)).
Proof.
  intros gcmd s.
  pose proof (cmd_G4_dwells gcmd s demo_trapq_time_advances) as Hg.
  change (gcmd !! "P") with (Some 500 : option Q) in Hg.
  change (Qlt_bool 500 0) with false in Hg. cbv iota in Hg.
  apply Hg. vm_compute. reflexivity.
Defined.

End WaitingExamples.

(** ** Fields that stepping the print clock leaves alone *)

Section ClockFields.

Context `{Extern}.

Lemma special_queuing_state_update_move_time npt s :
  special_queuing_state (_update_move_time npt s) = special_queuing_state s.
Proof.
  destruct (update_move_time_clock_step npt s) as (p & e & ->). reflexivity.
Qed.

Lemma special_queuing_state_calc_print_time s :
  special_queuing_state (_calc_print_time s) = special_queuing_state s.
Proof.
  destruct (calc_print_time_clock_step s) as (p & e & ->). reflexivity.
Qed.

Lemma queue_update_move_time npt s :
  queue (_update_move_time npt s) = queue s.
Proof.
  destruct (update_move_time_clock_step npt s) as (p & e & ->). reflexivity.
Qed.

Lemma queue_calc_print_time s :
  queue (_calc_print_time s) = queue s.
Proof.
  destruct (calc_print_time_clock_step s) as (p & e & ->). reflexivity.
Qed.

Lemma can_pause_update_move_time npt s :
  can_pause (_update_move_time npt s) = can_pause s.
Proof.
  destruct (update_move_time_clock_step npt s) as (p & e & ->). reflexivity.
Qed.

Lemma can_pause_calc_print_time s :
  can_pause (_calc_print_time s) = can_pause s.
Proof.
  destruct (calc_print_time_clock_step s) as (p & e & ->). reflexivity.
Qed.

Lemma reactor_now_update_move_time npt s :
  reactor_now (_update_move_time npt s) = reactor_now s.
Proof.
  destruct (update_move_time_clock_step npt s) as (p & e & ->). reflexivity.
Qed.

Lemma reactor_now_calc_print_time s :
  reactor_now (_calc_print_time s) = reactor_now s.
Proof.
  destruct (calc_print_time_clock_step s) as (p & e & ->). reflexivity.
Qed.

Lemma commanded_pos_update_move_time npt s :
  commanded_pos (_update_move_time npt s) = commanded_pos s.
Proof.
  destruct (update_move_time_clock_step npt s) as (p & e & ->). reflexivity.
Qed.

Lemma commanded_pos_calc_print_time s :
  commanded_pos (_calc_print_time s) = commanded_pos s.
Proof.
  destruct (calc_print_time_clock_step s) as (p & e & ->). reflexivity.
Qed.

Lemma double_array_update_move_time npt s :
  double_array (_update_move_time npt s) = double_array s.
Proof.
  destruct (update_move_time_clock_step npt s) as (p & e & ->). reflexivity.
Qed.

Lemma double_array_calc_print_time s :
  double_array (_calc_print_time s) = double_array s.
Proof.
  destruct (calc_print_time_clock_step s) as (p & e & ->). reflexivity.
Qed.

Lemma kin_flush_delay_update_move_time npt s :
  kin_flush_delay (_update_move_time npt s) = kin_flush_delay s.
Proof.
  destruct (update_move_time_clock_step npt s) as (p & e & ->). reflexivity.
Qed.

Lemma kin_flush_delay_calc_print_time s :
  kin_flush_delay (_calc_print_time s) = kin_flush_delay s.
Proof.
  destruct (calc_print_time_clock_step s) as (p & e & ->). reflexivity.
Qed.

Lemma last_kin_flush_time_update_move_time npt s :
  last_kin_flush_time (_update_move_time npt s) = last_kin_flush_time s.
Proof.
  destruct (update_move_time_clock_step npt s) as (p & e & ->). reflexivity.
Qed.

Lemma last_kin_flush_time_calc_print_time s :
  last_kin_flush_time (_calc_print_time s) = last_kin_flush_time s.
Proof.
  destruct (calc_print_time_clock_step s) as (p & e & ->). reflexivity.
Qed.

Lemma last_kin_move_time_update_move_time npt s :
  last_kin_move_time (_update_move_time npt s) = last_kin_move_time s.
Proof.
  destruct (update_move_time_clock_step npt s) as (p & e & ->). reflexivity.
Qed.

Lemma last_kin_move_time_calc_print_time s :
  last_kin_move_time (_calc_print_time s) = last_kin_move_time s.
Proof.
  destruct (calc_print_time_clock_step s) as (p & e & ->). reflexivity.
Qed.

Lemma buffer_time_high_update_move_time npt s :
  buffer_time_high (_update_move_time npt s) = buffer_time_high s.
Proof.
  destruct (update_move_time_clock_step npt s) as (p & e & ->). reflexivity.
Qed.

Lemma buffer_time_high_calc_print_time s :
  buffer_time_high (_calc_print_time s) = buffer_time_high s.
Proof.
  destruct (calc_print_time_clock_step s) as (p & e & ->). reflexivity.
Qed.

Lemma buffer_time_low_update_move_time npt s :
  buffer_time_low (_update_move_time npt s) = buffer_time_low s.
Proof.
  destruct (update_move_time_clock_step npt s) as (p & e & ->). reflexivity.
Qed.

Lemma buffer_time_low_calc_print_time s :
  buffer_time_low (_calc_print_time s) = buffer_time_low s.
Proof.
  destruct (calc_print_time_clock_step s) as (p & e & ->). reflexivity.
Qed.

Lemma buffer_time_start_update_move_time npt s :
  buffer_time_start (_update_move_time npt s) = buffer_time_start s.
Proof.
  destruct (update_move_time_clock_step npt s) as (p & e & ->). reflexivity.
Qed.

Lemma buffer_time_start_calc_print_time s :
  buffer_time_start (_calc_print_time s) = buffer_time_start s.
Proof.
  destruct (calc_print_time_clock_step s) as (p & e & ->). reflexivity.
Qed.

Lemma native_update_move_time npt s :
  native (_update_move_time npt s) = native s.
Proof.
  destruct (update_move_time_clock_step npt s) as (p & e & ->). reflexivity.
Qed.

Lemma native_calc_print_time s :
  native (_calc_print_time s) = native s.
Proof.
  destruct (calc_print_time_clock_step s) as (p & e & ->). reflexivity.
Qed.

Lemma need_check_stall_update_move_time npt s :
  need_check_stall (_update_move_time npt s) = need_check_stall s.
Proof.
  destruct (update_move_time_clock_step npt s) as (p & e & ->). reflexivity.
Qed.

Lemma need_check_stall_calc_print_time s :
  need_check_stall (_calc_print_time s) = need_check_stall s.
Proof.
  destruct (calc_print_time_clock_step s) as (p & e & ->). reflexivity.
Qed.

Lemma junction_flush_update_move_time npt s :
  junction_flush (_update_move_time npt s) = junction_flush s.
Proof.
  destruct (update_move_time_clock_step npt s) as (p & e & ->). reflexivity.
Qed.

Lemma junction_flush_calc_print_time s :
  junction_flush (_calc_print_time s) = junction_flush s.
Proof.
  destruct (calc_print_time_clock_step s) as (p & e & ->). reflexivity.
Qed.

Lemma drip_completion_update_move_time npt s :
  drip_completion (_update_move_time npt s) = drip_completion s.
Proof.
  destruct (update_move_time_clock_step npt s) as (p & e & ->). reflexivity.
Qed.

Lemma drip_completion_calc_print_time s :
  drip_completion (_calc_print_time s) = drip_completion s.
Proof.
  destruct (calc_print_time_clock_step s) as (p & e & ->). reflexivity.
Qed.

Lemma printer_update_move_time npt s :
  printer (_update_move_time npt s) = printer s.
Proof.
  destruct (update_move_time_clock_step npt s) as (p & e & ->). reflexivity.
Qed.

Lemma printer_calc_print_time s :
  printer (_calc_print_time s) = printer s.
Proof.
  destruct (calc_print_time_clock_step s) as (p & e & ->). reflexivity.
Qed.

Lemma max_accel_update_move_time npt s :
  max_accel (_update_move_time npt s) = max_accel s.
Proof.
  destruct (update_move_time_clock_step npt s) as (p & e & ->). reflexivity.
Qed.

Lemma max_accel_calc_print_time s :
  max_accel (_calc_print_time s) = max_accel s.
Proof.
  destruct (calc_print_time_clock_step s) as (p & e & ->). reflexivity.
Qed.

Lemma max_velocity_update_move_time npt s :
  max_velocity (_update_move_time npt s) = max_velocity s.
Proof.
  destruct (update_move_time_clock_step npt s) as (p & e & ->). reflexivity.
Qed.

Lemma max_velocity_calc_print_time s :
  max_velocity (_calc_print_time s) = max_velocity s.
Proof.
  destruct (calc_print_time_clock_step s) as (p & e & ->). reflexivity.
Qed.

Lemma kin_flush_times_update_move_time npt s :
  kin_flush_times (_update_move_time npt s) = kin_flush_times s.
Proof.
  destruct (update_move_time_clock_step npt s) as (p & e & ->). reflexivity.
Qed.

Lemma kin_flush_times_calc_print_time s :
  kin_flush_times (_calc_print_time s) = kin_flush_times s.
Proof.
  destruct (calc_print_time_clock_step s) as (p & e & ->). reflexivity.
Qed.

Lemma idle_flush_print_time_update_move_time npt s :
  idle_flush_print_time (_update_move_time npt s) = idle_flush_print_time s.
Proof.
  destruct (update_move_time_clock_step npt s) as (p & e & ->). reflexivity.
Qed.

Lemma idle_flush_print_time_calc_print_time s :
  idle_flush_print_time (_calc_print_time s) = idle_flush_print_time s.
Proof.
  destruct (calc_print_time_clock_step s) as (p & e & ->). reflexivity.
Qed.

Lemma flush_timer_update_move_time npt s :
  flush_timer (_update_move_time npt s) = flush_timer s.
Proof.
  destruct (update_move_time_clock_step npt s) as (p & e & ->). reflexivity.
Qed.

Lemma flush_timer_calc_print_time s :
  flush_timer (_calc_print_time s) = flush_timer s.
Proof.
  destruct (calc_print_time_clock_step s) as (p & e & ->). reflexivity.
Qed.

Lemma extruder_last_position_update_move_time npt s :
  extruder_last_position (_update_move_time npt s) = extruder_last_position s.
Proof.
  destruct (update_move_time_clock_step npt s) as (p & e & ->). reflexivity.
Qed.

Lemma extruder_last_position_calc_print_time s :
  extruder_last_position (_calc_print_time s) = extruder_last_position s.
Proof.
  destruct (calc_print_time_clock_step s) as (p & e & ->). reflexivity.
Qed.

Lemma move_flush_time_update_move_time npt s :
  move_flush_time (_update_move_time npt s) = move_flush_time s.
Proof.
  destruct (update_move_time_clock_step npt s) as (p & e & ->). reflexivity.
Qed.

Lemma move_flush_time_calc_print_time s :
  move_flush_time (_calc_print_time s) = move_flush_time s.
Proof.
  destruct (calc_print_time_clock_step s) as (p & e & ->). reflexivity.
Qed.

Lemma step_generators_update_move_time npt s :
  step_generators (_update_move_time npt s) = step_generators s.
Proof.
  destruct (update_move_time_clock_step npt s) as (p & e & ->). reflexivity.
Qed.

Lemma step_generators_calc_print_time s :
  step_generators (_calc_print_time s) = step_generators s.
Proof.
  destruct (calc_print_time_clock_step s) as (p & e & ->). reflexivity.
Qed.

Lemma z_pos_update_move_time npt s :
  z_pos (_update_move_time npt s) = z_pos s.
Proof.
  destruct (update_move_time_clock_step npt s) as (p & e & ->). reflexivity.
Qed.

Lemma z_pos_calc_print_time s :
  z_pos (_calc_print_time s) = z_pos s.
Proof.
  destruct (calc_print_time_clock_step s) as (p & e & ->). reflexivity.
Qed.

Lemma print_stall_update_move_time npt s :
  print_stall (_update_move_time npt s) = print_stall s.
Proof.
  destruct (update_move_time_clock_step npt s) as (p & e & ->). reflexivity.
Qed.

Lemma print_stall_calc_print_time s :
  print_stall (_calc_print_time s) = print_stall s.
Proof.
  destruct (calc_print_time_clock_step s) as (p & e & ->). reflexivity.
Qed.

Lemma count_M204_update_move_time npt s :
  count_M204 (_update_move_time npt s) = count_M204 s.
Proof.
  destruct (update_move_time_clock_step npt s) as (p & e & ->). reflexivity.
Qed.

Lemma count_M204_calc_print_time s :
  count_M204 (_calc_print_time s) = count_M204 s.
Proof.
  destruct (calc_print_time_clock_step s) as (p & e & ->). reflexivity.
Qed.

Lemma str_true_empty : str_true "" = false.
Proof. reflexivity. Qed.

Lemma str_true_Flushed : str_true "Flushed" = true.
Proof. reflexivity. Qed.

Lemma str_true_Priming : str_true "Priming" = true.
Proof. reflexivity. Qed.

Lemma str_true_Drip : str_true "Drip" = true.
Proof. reflexivity. Qed.

Lemma str_true_false x : str_true x = false <-> x = "".
Proof.
  unfold str_true. rewrite negb_false_iff. apply String.eqb_eq.
Qed.

Lemma str_true_true x : str_true x = true <-> x <> "".
Proof.
  unfold str_true. rewrite negb_true_iff. apply String.eqb_neq.
Qed.

End ClockFields.

Create Rewrite HintDb clock.

#[global] Hint Rewrite
  @special_queuing_state_update_move_time
  @special_queuing_state_calc_print_time @queue_update_move_time
  @queue_calc_print_time @can_pause_update_move_time
  @can_pause_calc_print_time @reactor_now_update_move_time
  @reactor_now_calc_print_time @commanded_pos_update_move_time
  @commanded_pos_calc_print_time @double_array_update_move_time
  @double_array_calc_print_time @kin_flush_delay_update_move_time
  @kin_flush_delay_calc_print_time @last_kin_flush_time_update_move_time
  @last_kin_flush_time_calc_print_time @last_kin_move_time_update_move_time
  @last_kin_move_time_calc_print_time @buffer_time_high_update_move_time
  @buffer_time_high_calc_print_time @buffer_time_low_update_move_time
  @buffer_time_low_calc_print_time @buffer_time_start_update_move_time
  @buffer_time_start_calc_print_time @native_update_move_time
  @native_calc_print_time @need_check_stall_update_move_time
  @need_check_stall_calc_print_time @junction_flush_update_move_time
  @junction_flush_calc_print_time @drip_completion_update_move_time
  @drip_completion_calc_print_time @printer_update_move_time
  @printer_calc_print_time @max_accel_update_move_time
  @max_accel_calc_print_time @max_velocity_update_move_time
  @max_velocity_calc_print_time @kin_flush_times_update_move_time
  @kin_flush_times_calc_print_time @idle_flush_print_time_update_move_time
  @idle_flush_print_time_calc_print_time @flush_timer_update_move_time
  @flush_timer_calc_print_time @extruder_last_position_update_move_time
  @extruder_last_position_calc_print_time @move_flush_time_update_move_time
  @move_flush_time_calc_print_time @step_generators_update_move_time
  @step_generators_calc_print_time @z_pos_update_move_time
  @z_pos_calc_print_time @print_stall_update_move_time
  @print_stall_calc_print_time @count_M204_update_move_time
  @count_M204_calc_print_time
  @str_true_empty @str_true_Flushed @str_true_Priming @str_true_Drip
  : clock.

(** A run followed step by step, the state simplified after each step. *)
Ltac wp_run_step :=
  wp_step; st_simpl;
  repeat (progress autorewrite with clock; st_simpl);
  cbn [negb andb orb].

Ltac wp_runs := repeat wp_run_step.

(** The same for runs that do not step the print clock. *)
Ltac wp_runs_plain := repeat (wp_step; st_simpl).

(** ** Flushing *)

Section Flushing.

Context `{Extern}.


Lemma process_moves_returns moves s :
  special_queuing_state s <> "Drip" ->
  wp (_process_moves moves)
     (fun _ s' => special_queuing_state s' = "") (fun _ _ => False) s.
Proof.
  intros Hnd. unfold _process_moves. wp_runs.
  all: try reflexivity.
  all: try (exfalso; apply Hnd; apply negb_false_iff in Eb0;
            apply String.eqb_eq in Eb0; exact Eb0).
  all: try (apply str_true_false; assumption).
  all: try (rewrite Eb in *; discriminate).
Qed.

Lemma process_moves_returns_same_queue moves s :
  special_queuing_state s <> "Drip" ->
  wp (_process_moves moves)
     (fun _ s' => special_queuing_state s' = "" /\ queue s' = queue s)
     (fun _ _ => False) s.
Proof.
  intros Hnd.
  eapply wp_mono;
    [ apply (wp_conj _ _ _ _ _ _ (process_moves_returns moves s Hnd)
               (keeps_to_wp _ _ _ s (same_queue_process_moves moves)))
    | cbv beta | cbv beta ]; tauto.
Qed.

(** What [MoveQueue.flush] does to the queue, whatever its outcome. *)
Lemma MoveQueue_flush_queue lazy s :
  wp (MoveQueue_flush lazy)
     (fun _ s' =>
        queue s'
        = drop (if (length (queue s) =? 0)%nat then 0%nat
                else snd (Py_move_queue_flush_cal (native s)
                            (length (queue s)) lazy))
               (queue s))
     (fun _ s' => queue s' = queue s) s.
Proof.
  unfold MoveQueue_flush. wp_runs.
  - reflexivity.
  - eapply wp_mono;
      [ apply (keeps_to_wp _ _ _ _ (same_queue_process_moves _))
      | cbv beta | cbv beta ].
    + intros _ s' Hq. unfold same_queue in Hq. st_simpl_in Hq.
      wp_runs. rewrite Hq. reflexivity.
    + intros _ s' Hq. exact Hq.
  - apply negb_false_iff, Nat.eqb_eq in Eb0. rewrite Eb0.
    reflexivity.
Qed.

(** X11.  [MoveQueue.flush] removes from the front of the queue exactly
    the moves the planner says it has planned, and nothing when the queue
    is empty; when the hand-over to the trapezoid queue raises or is cut
    off, the queue is as it was. *)
Theorem MoveQueue_flush_drops_planned (lazy : bool) (s : ToolHead) :
  let planned :=
    match queue s with
    | [] => 0%nat
    | _ => snd (Py_move_queue_flush_cal (native s) (length (queue s)) lazy)
    end in
  match MoveQueue_flush lazy s with
  | Ok _ s' => queue s' = drop planned (queue s)
  | Raise _ s' => queue s' = queue s
  | Timeout s' => queue s' = queue s
  end.
Proof.
  cbv zeta. pose proof (wp_run _ _ _ _ (MoveQueue_flush_queue lazy s)) as Hw.
  destruct (MoveQueue_flush lazy s); try exact Hw.
  destruct (queue s); exact Hw.
Qed.

(** X12.  With a planner that plans every queued move on a full flush,
    a [flush_step_generation] that returns leaves nothing queued, the
    toolhead "Flushed" with its stall check and flush timer off, and the
    step generators flushed to within [kin_flush_delay] of [print_time]
    and past the last move. *)
Theorem flush_step_generation_returns_flushed (s s' : ToolHead) :
  full_flush_plans_all ->
  0 <= kin_flush_delay s ->
  flush_step_generation s = Ok tt s' ->
  flushed s'.
Proof.
  intros Hfull Hk Hrun.
  pose proof (wp_run _ _ _ _ (flush_step_generation_flushed Hfull s Hk))
    as Hw.
  rewrite Hrun in Hw. exact Hw.
Qed.

End Flushing.

Section FlushingExamples.

#[local] Existing Instance demo_extern.

(** A queued move is flushed. *)
Lemma flush_step_generation_returns_flushed_witness :
  let s := st (move [10; 0; 0; 0] 50 (demo_toolhead 0)) in
  queue s = [(demo_move 1, [])]
  /\ flushed (st (flush_step_generation s)).
Proof.
  intros s. split; [vm_compute; reflexivity|].
  apply (flush_step_generation_returns_flushed s
           (st (flush_step_generation s))).
  - exact demo_full_flush_plans_all.
  - vm_compute. discriminate.
  - vm_compute. reflexivity.
Defined.

End FlushingExamples.

(** ** Positions *)

Section Positions.

Context `{Extern}.

Lemma set_position_wp newpos homing_axes s :
  wp (set_position newpos homing_axes)
     (fun _ s' =>
        commanded_pos s' = newpos
        /\ special_queuing_state s' = "Flushed"
        /\ (4 <= length newpos)%nat
        /\ double_array s' !! 4%nat = newpos !! 0%nat
        /\ double_array s' !! 5%nat = newpos !! 1%nat
        /\ double_array s' !! 6%nat = newpos !! 2%nat
        /\ double_array s' !! 7%nat = newpos !! 3%nat)
     (fun _ _ => True) s.
Proof.
  unfold set_position. apply wp_bind.
  assert (Hf : wp flush_step_generation
                 (fun _ s' => special_queuing_state s' = "Flushed")
                 (fun _ _ => True) s).
  { unfold flush_step_generation, MoveQueue_set_flush_time. apply wp_bind.
    eapply wp_mono;
      [ apply (keeps_to_wp (fun _ _ => True) any_exn) | cbv beta | auto ].
    - intros s0. destruct (MoveQueue_flush false s0); unfold any_exn; auto.
    - intros _ s1 _. wp_runs. reflexivity. }
  eapply wp_mono; [ exact Hf | cbv beta | auto ].
  intros _ s1 Hs. unfold mirror_commanded_pos, index, da_store.
  wp_runs; try exact I.
  repeat match goal with
    | E : (_ <? _)%nat = true |- _ => apply Nat.ltb_lt in E
    end.
  repeat rewrite length_insert in *.
  repeat split; try assumption.
  - match goal with
    | E : newpos !! 3%nat = Some _ |- _ => apply lookup_lt_Some in E; lia
    end.
  - repeat rewrite list_lookup_insert_ne by lia.
    rewrite list_lookup_insert_eq by lia. congruence.
  - repeat rewrite list_lookup_insert_ne by lia.
    rewrite list_lookup_insert_eq by (repeat rewrite length_insert; lia).
    congruence.
  - repeat rewrite list_lookup_insert_ne by lia.
    rewrite list_lookup_insert_eq by (repeat rewrite length_insert; lia).
    congruence.
  - rewrite list_lookup_insert_eq by (repeat rewrite length_insert; lia).
    congruence.
Qed.

(** X13.  When [set_position(newpos)] returns, [get_position()] gives
    [newpos] back, the toolhead is "Flushed", and slots 4 to 7 of the
    planner's buffer hold the four coordinates; it returns only for a
    [newpos] of at least four coordinates. *)
Theorem set_position_then_get_position (newpos : list Q)
    (homing_axes : list nat) (s s' : ToolHead) :
  set_position newpos homing_axes s = Ok tt s' ->
  get_position s' = Ok newpos s'
  /\ special_queuing_state s' = "Flushed"
  /\ (4 <= length newpos)%nat
  /\ (forall i, (i < 4)%nat ->
                double_array s' !! (4 + i)%nat = newpos !! i).
Proof.
  intros Hrun.
  pose proof (wp_run _ _ _ _ (set_position_wp newpos homing_axes s)) as Hw.
  rewrite Hrun in Hw.
  destruct Hw as (Hc & Hs & Hl & H4 & H5 & H6 & H7).
  split; [unfold get_position, gets; rewrite Hc; reflexivity|].
  split; [exact Hs|]. split; [exact Hl|].
  intros i Hi. destruct i as [|[|[|[|i]]]]; try assumption. lia.
Qed.


(** [move] up to the planner's answer: the buffer it hands over. *)
Lemma move_until_PyMove_buffer newpos speed s :
  wp (move_until_PyMove newpos speed)
     (fun mv s1 =>
        exists da,
          length da = length (double_array s)
          /\ da !! 4%nat = commanded_pos s !! 0%nat
          /\ da !! 5%nat = commanded_pos s !! 1%nat
          /\ da !! 6%nat = commanded_pos s !! 2%nat
          /\ da !! 7%nat = commanded_pos s !! 3%nat
          /\ da !! 8%nat = newpos !! 0%nat
          /\ da !! 9%nat = newpos !! 1%nat
          /\ da !! 10%nat = newpos !! 2%nat
          /\ da !! 11%nat = newpos !! 3%nat
          /\ da !! 12%nat = Some speed
          /\ (forall i, (i < 4)%nat -> da !! i = double_array s !! i)
          /\ mv = snd (snd (PyMove (native s) da))
          /\ native s1 = fst (PyMove (native s) da)
          /\ double_array s1
             = <[13%nat:=fst (snd (PyMove (native s) da))]> da
          /\ commanded_pos s1 = commanded_pos s
          /\ queue s1 = queue s)
     (fun _ _ => True) s.
Proof.
  unfold move_until_PyMove, record_z_pos, record_z_pos_write,
    mirror_commanded_pos, call_PyMove, index, da_store.
  wp_runs_plain; try exact I.
  all: repeat match goal with
         | E : (_ <? _)%nat = true |- _ => apply Nat.ltb_lt in E
         end;
       repeat rewrite length_insert in *.
  all: eexists; split; [|split; [|split; [|split; [|split; [|split;
         [|split; [|split; [|split; [|split; [|split; [|split; [|split;
         [|split; [reflexivity|split; reflexivity]]]]]]]]]]]]]];
       [ repeat rewrite length_insert; reflexivity
       | repeat rewrite list_lookup_insert_ne by lia;
         rewrite list_lookup_insert_eq
           by (repeat rewrite length_insert; lia); congruence ..
       | intros i Hi; repeat rewrite list_lookup_insert_ne by lia;
         reflexivity
       | reflexivity | reflexivity ].
Qed.

(** X14.  When [move(newpos, speed)] reaches the planner, it has handed
    over, in the buffer, the commanded position in slots 4 to 7, the four
    coordinates of [newpos] in slots 8 to 11 and [speed] in slot 12, with
    the limits in slots 0 to 3 untouched; the planner's return code goes
    to slot 13; the commanded position and the queue are still as they
    were. *)
Theorem move_marshals_arguments (newpos : list Q) (speed : Q)
    (s s1 : ToolHead) (mv : Move) :
  move_until_PyMove newpos speed s = Ok mv s1 ->
  exists da,
    (forall i, (i < 4)%nat -> da !! i = double_array s !! i)
    /\ (forall i, (i < 4)%nat -> da !! (4 + i)%nat = commanded_pos s !! i)
    /\ (forall i, (i < 4)%nat -> da !! (8 + i)%nat = newpos !! i)
    /\ da !! 12%nat = Some speed
    /\ mv = snd (snd (PyMove (native s) da))
    /\ double_array s1 = <[13%nat:=fst (snd (PyMove (native s) da))]> da
    /\ commanded_pos s1 = commanded_pos s
    /\ queue s1 = queue s.
Proof.
  intros Hrun.
  pose proof (wp_run _ _ _ _ (move_until_PyMove_buffer newpos speed s)) as Hw.
  rewrite Hrun in Hw.
  destruct Hw as (da & _ & H4 & H5 & H6 & H7 & H8 & H9 & H10 & H11 & H12
                  & Hlim & Hmv & _ & Hda & Hcp & Hq).
  exists da. split; [exact Hlim|].
  split; [intros i Hi; destruct i as [|[|[|[|i]]]]; try assumption; lia|].
  split; [intros i Hi; destruct i as [|[|[|[|i]]]]; try assumption; lia|].
  auto.
Qed.


#[global] Instance queue_suffix_preorder : PreOrder queue_suffix.
Proof.
  split.
  - intros s. exists 0%nat. reflexivity.
  - intros s1 s2 s3 [k1 H1] [k2 H2]. exists (k1 + k2)%nat.
    rewrite H2, H1. apply drop_drop.
Qed.











Lemma Qeq_bool_of_Qeq (x y : Q) : x == y -> Qeq_bool x y = true.
Proof. apply Qeq_bool_iff. Qed.

Lemma Qeq_bool_of_not_Qeq (x y : Q) : ~ x == y -> Qeq_bool x y = false.
Proof.
  intros Hn. destruct (Qeq_bool x y) eqn:E; [|reflexivity].
  apply Qeq_bool_iff in E. contradiction.
Qed.



(** The loop of [manual_move]: where a coordinate is given it replaces
    the current one; it touches nothing else. *)
Lemma manual_move_fill_spec coord : forall i curpos s,
  match manual_move_fill coord i curpos s with
  | Ok target s' =>
      s' = s
      /\ length target = length curpos
      /\ (forall j, (j < i)%nat -> target !! j = curpos !! j)
      /\ (forall j, (j < length curpos)%nat ->
            target !! (i + j)%nat
            = match coord !! j with
              | Some (Some c) =>
                  if (i + j <? length curpos)%nat then Some c else None
              | _ => curpos !! (i + j)%nat
              end)
      /\ (forall j c, coord !! j = Some (Some c) ->
                      (i + j < length curpos)%nat)
  | Raise e s' =>
      e = IndexError /\ s' = s
      /\ exists j c, coord !! j = Some (Some c)
                     /\ (length curpos <= i + j)%nat
  | Timeout _ => False
  end.
Proof.
  induction coord as [|[c|] coord IH]; intros i curpos s;
    cbn [manual_move_fill].
  - unfold ret. split; [reflexivity|]. split; [reflexivity|].
    split; [reflexivity|]. split.
    + intros j Hj. reflexivity.
    + intros j c Hj. discriminate.
  - destruct (i <? length curpos)%nat eqn:Ei.
    + apply Nat.ltb_lt in Ei.
      specialize (IH (S i) (<[i:=c]> curpos) s).
      destruct (manual_move_fill coord (S i) (<[i:=c]> curpos) s)
        as [target s'|e s'|s'].
      * rewrite length_insert in IH.
        destruct IH as (Hs & Hl & Hlt & Hge & Hin).
        split; [exact Hs|]. split; [exact Hl|]. split; [|split].
        { intros j Hj. rewrite Hlt by lia.
          apply list_lookup_insert_ne. lia. }
        { intros j Hj. destruct j as [|j].
          { rewrite Nat.add_0_r. cbn [lookup list_lookup].
            rewrite Hlt by lia.
            apply Nat.ltb_lt in Ei. rewrite Ei.
            apply list_lookup_insert_eq. apply Nat.ltb_lt in Ei. exact Ei. }
          replace (i + S j)%nat with (S i + j)%nat by lia.
          destruct (Nat.lt_ge_cases j (length curpos)) as [Hjl|Hjl].
          { rewrite Hge by exact Hjl.
            change ((Some c :: coord) !! S j) with (coord !! j).
            destruct (coord !! j) as [[c'|]|]; try reflexivity;
              apply list_lookup_insert_ne; lia. }
          lia. }
        { intros j c' Hj. destruct j as [|j]; [lia|].
          change ((Some c :: coord) !! S j) with (coord !! j) in Hj.
          specialize (Hin j c' Hj). lia. }
      * rewrite length_insert in IH.
        destruct IH as (He & Hs & j & c' & Hj & Hle).
        split; [exact He|]. split; [exact Hs|].
        exists (S j), c'. split; [exact Hj | lia].
      * exact IH.
    + apply Nat.ltb_ge in Ei. unfold raise.
      split; [reflexivity|]. split; [reflexivity|].
      exists 0%nat, c. split; [reflexivity | lia].
  - specialize (IH (S i) curpos s).
    destruct (manual_move_fill coord (S i) curpos s) as [target s'|e s'|s'].
    + destruct IH as (Hs & Hl & Hlt & Hge & Hin).
      split; [exact Hs|]. split; [exact Hl|]. split; [|split].
      { intros j Hj. apply Hlt. lia. }
      { intros j Hj. destruct j as [|j].
        { rewrite Nat.add_0_r. cbn [lookup list_lookup]. apply Hlt. lia. }
        replace (i + S j)%nat with (S i + j)%nat by lia.
        change ((None :: coord) !! S j) with (coord !! j).
        apply Hge. lia. }
      { intros j c' Hj. destruct j as [|j]; [discriminate|].
        change ((None :: coord) !! S j) with (coord !! j) in Hj.
        specialize (Hin j c' Hj). lia. }
    + destruct IH as (He & Hs & j & c' & Hj & Hle).
      split; [exact He|]. split; [exact Hs|].
      exists (S j), c'. split; [exact Hj | lia].
    + exact IH.
Qed.

(** X17.  When every coordinate that [coord] gives (those that are not
    [None]) lies at an index the commanded position has,
    [manual_move(coord, speed)] moves to the commanded position with
    these coordinates replaced and then announces
    ["toolhead:manual_move"].  When some coordinate is given at an index
    the commanded position does not have, it raises [IndexError] before
    anything is done. *)
Theorem manual_move_replaces_given_coordinates (coord : list (option Q))
    (speed : Q) (s : ToolHead) :
  ((forall j c, coord !! j = Some (Some c) ->
                (j < length (commanded_pos s))%nat) ->
   exists target,
     length target = length (commanded_pos s)
     /\ (forall j, (j < length (commanded_pos s))%nat ->
           target !! j = match coord !! j with
                         | Some (Some c) => Some c
                         | _ => commanded_pos s !! j
                         end)
     /\ manual_move coord speed s
        = bind (move target speed)
            (fun _ => emit (Ev_send_event "toolhead:manual_move")) s)
  /\ (forall j c, coord !! j = Some (Some c) ->
                  (length (commanded_pos s) <= j)%nat ->
                  manual_move coord speed s = Raise IndexError s).
Proof.
  pose proof (manual_move_fill_spec coord 0 (commanded_pos s) s) as Hf.
  unfold manual_move, bind, gets. cbv beta.
  destruct (manual_move_fill coord 0 (commanded_pos s) s)
    as [target s'|e s'|s']; [| |contradiction].
  - destruct Hf as (-> & Hl & _ & Hge & Hin). split.
    + intros _. exists target.
      split; [exact Hl|]. split; [|reflexivity].
      intros j Hj. specialize (Hge j Hj). cbn [Nat.add] in Hge.
      rewrite Hge. apply Nat.ltb_lt in Hj. rewrite Hj. reflexivity.
    + intros j c Hj Hle. specialize (Hin j c Hj). cbn [Nat.add] in Hin. lia.
  - destruct Hf as (-> & -> & j & c & Hj & Hle). split.
    + intros Hall. specialize (Hall j c Hj). cbn [Nat.add] in Hle. lia.
    + intros; reflexivity.
Qed.

End Positions.

Section PositionExamples.

#[local] Existing Instance demo_extern.

Lemma set_position_then_get_position_witness :
  let newpos : list Q := [1; 2; 3; 4] in
  let s' := st (set_position newpos [] (demo_toolhead 0)) in
  get_position s' = Ok newpos s'
  /\ special_queuing_state s' = "Flushed"
  /\ (4 <= length newpos)%nat
  /\ (forall i, (i < 4)%nat -> double_array s' !! (4 + i)%nat = newpos !! i).
Proof.
  intros newpos s'.
  apply (set_position_then_get_position newpos [] (demo_toolhead 0) s').
  vm_compute. reflexivity.
Defined.


Lemma move_marshals_arguments_witness :
  let newpos : list Q := [10; 20; 30; 40] in
  let s := demo_toolhead 0 in
  exists da,
    (forall i, (i < 4)%nat -> da !! i = double_array s !! i)
    /\ (forall i, (i < 4)%nat -> da !! (4 + i)%nat = commanded_pos s !! i)
    /\ (forall i, (i < 4)%nat -> da !! (8 + i)%nat = newpos !! i)
    /\ da !! 12%nat = Some 50
    /\ demo_move 1 = snd (snd (PyMove (native s) da))
    /\ double_array (st (move_until_PyMove newpos 50 s))
       = <[13%nat:=fst (snd (PyMove (native s) da))]> da
    /\ commanded_pos (st (move_until_PyMove newpos 50 s)) = commanded_pos s
    /\ queue (st (move_until_PyMove newpos 50 s)) = queue s.
Proof.
  intros newpos s.
  apply (move_marshals_arguments newpos 50 s
           (st (move_until_PyMove newpos 50 s)) (demo_move 1)).
  vm_compute. reflexivity.
Defined.




(** [manual_move([None, 5], 50)] moves to Y = 5;
    [manual_move([None, 5, None, None, 7], 50)] names a fifth
    coordinate and raises [IndexError]. *)
Lemma manual_move_replaces_given_coordinates_witness :
  let s := demo_toolhead 0 in
  (exists target,
     target !! 0%nat = Some 0 /\ target !! 1%nat = Some 5
     /\ manual_move [None; Some 5] 50 s
        = bind (move target 50)
            (fun _ => emit (Ev_send_event "toolhead:manual_move")) s)
  /\ commanded_pos (st (manual_move [None; Some 5] 50 s)) = [0; 5; 0; 0]
  /\ manual_move [None; Some 5; None; None; Some 7] 50 s
     = Raise IndexError s.
Proof.
  intros s. split; [|split].
  - destruct (manual_move_replaces_given_coordinates [None; Some 5] 50 s)
      as [Hin _].
    destruct Hin as (target & Hl & Hj & Hrun).
    { intros j c Hc. destruct j as [|[|j]]; try discriminate.
      vm_compute. lia. }
    exists target. split; [|split; [|exact Hrun]].
    + apply (Hj 0%nat). vm_compute. lia.
    + apply (Hj 1%nat). vm_compute. lia.
  - vm_compute. reflexivity.
  - destruct (manual_move_replaces_given_coordinates
                [None; Some 5; None; None; Some 7] 50 s) as [_ Hout].
    apply (Hout 4%nat 7); [reflexivity | vm_compute; lia].
Defined.

End PositionExamples.

(** ** Drip moves *)

Section Drip.

Context `{Extern}.

Lemma frame_flush_lookahead : keeps frame not_command_error _flush_lookahead.
Proof.
  unfold _flush_lookahead.
  frame_walk ltac:(first [ apply frame_flush_step_generation
                         | apply frame_MoveQueue_flush ]).
Qed.

Lemma frame_get_last_move_time :
  keeps frame not_command_error get_last_move_time.
Proof.
  unfold get_last_move_time. frame_walk ltac:(apply frame_flush_lookahead).
Qed.

Lemma frame_dwell delay : keeps frame not_command_error (dwell delay).
Proof.
  unfold dwell.
  frame_walk ltac:(first [ apply frame_get_last_move_time
                         | apply frame_check_stall ]).
Qed.

Lemma flush_step_generation_Flushed s :
  wp flush_step_generation
     (fun _ s' => special_queuing_state s' = "Flushed")
     (fun oe _ => match oe with
                  | Some e => not_command_error e
                  | None => True
                  end) s.
Proof.
  unfold flush_step_generation, MoveQueue_set_flush_time.
  wp_call (frame_MoveQueue_flush false).
  - wp_runs. reflexivity.
  - assumption.
  - exact I.
Qed.

Lemma drip_move_wp newpos speed dc s :
  wp (drip_move newpos speed dc)
     (fun _ s' => special_queuing_state s' = "Flushed")
     (fun oe s' => match oe with
                   | Some (command_error _) =>
                       special_queuing_state s' = "Flushed"
                   | _ => True
                   end) s.
Proof.
  assert (Hlast : forall s0,
    wp flush_step_generation
      (fun _ s' => special_queuing_state s' = "Flushed")
      (fun oe s' => match oe with
                    | Some (command_error _) =>
                        special_queuing_state s' = "Flushed"
                    | _ => True
                    end) s0).
  { intros s0.
    eapply wp_mono; [ apply flush_step_generation_Flushed | auto | ].
    cbv beta. intros [[]|] s' He; try exact I. contradiction. }
  unfold drip_move, MoveQueue_set_flush_time.
  wp_step. wp_step.
  wp_call (frame_dwell (kin_flush_delay s));
    [ | destruct e; try exact I; contradiction | exact I ].
  wp_call (frame_MoveQueue_flush false);
    [ | destruct e; try exact I; contradiction | exact I ].
  wp_runs.
  apply wp_any.
  - intros _ s3. wp_step. wp_step.
    wp_call (frame_MoveQueue_flush false).
    + apply Hlast.
    + destruct e; try exact I; try contradiction.
      cbv beta iota.
      wp_call frame_MoveQueue_reset;
        [ | destruct e; try exact I; contradiction | exact I ].
      wp_runs. apply Hlast.
    + exact I.
  - intros [e|] s3; [|exact I].
    destruct e; try exact I. cbv beta iota. apply wp_bind.
    eapply wp_mono; [ apply flush_step_generation_Flushed | | ]; cbv beta.
    + intros _ s4 Hs. apply wp_raise. exact Hs.
    + intros [[]|] s4 He; try exact I. contradiction.
Qed.

(** X18.  Whenever [drip_move] returns, and whenever it fails with a
    command error (the planner has rejected the move), the toolhead has
    left the "Drip" state: it is "Flushed". *)
Theorem drip_move_leaves_drip_state (newpos : list Q) (speed : Q)
    (dc : Completion) (s : ToolHead) :
  match drip_move newpos speed dc s with
  | Ok _ s' => special_queuing_state s' = "Flushed"
  | Raise (command_error _) s' => special_queuing_state s' = "Flushed"
  | _ => True
  end.
Proof.
  pose proof (wp_run _ _ _ _ (drip_move_wp newpos speed dc s)) as Hw.
  destruct (drip_move newpos speed dc s) as [a s'|e s'|s'];
    [ exact Hw | destruct e; try exact I; exact Hw | exact I ].
Qed.

End Drip.

(** ** Drip feeding *)

Section DripFeed.

Context `{Extern}.

Hypothesis Hmono : clock_estimate_monotone.

Lemma drip_loop_close n npt fd s :
  can_pause s = true ->
  drip_close fd s ->
  wp (update_drip_move_time_loop n npt fd)
     (fun _ s' => drip_close fd s' /\ can_pause s' = true
                  /\ move_flush_time s' = move_flush_time s
                  /\ kin_flush_delay s' = kin_flush_delay s
                  /\ npt <= print_time s')
     (fun _ s' => drip_close fd s' /\ can_pause s' = true
                  /\ move_flush_time s' = move_flush_time s
                  /\ kin_flush_delay s' = kin_flush_delay s) s.
Proof.
  revert s. induction n as [|n IH]; intros s Hcp Hc;
    cbn [update_drip_move_time_loop];
    unfold update_drip_move_time_body, completion_wait; wp_runs.
  all: try (repeat split; try assumption; try reflexivity;
            apply Qlt_bool_false; assumption).
  - rewrite Hcp in *. rewrite andb_true_r in *.
    apply Qlt_bool_true in Eb1.
    eapply wp_mono; [ apply IH | cbv beta | cbv beta ]; st_simpl.
    + exact Hcp.
    + unfold drip_close in *. st_simpl.
      assert (Hle : reactor_now s
                    <= reactor_now s
                       + (print_time s
                          - estimated_print_time (reactor_now s) - fd))
        by lra.
      pose proof (Hmono _ _ Hle). lra.
    + tauto.
    + tauto.
  - rewrite Hcp in *. rewrite andb_true_r in *.
    apply Qlt_bool_false in Eb1. apply Qlt_bool_true in Eb.
    eapply wp_mono; [ apply IH | cbv beta | cbv beta ];
      autorewrite with clock.
    + exact Hcp.
    + unfold drip_close in *. autorewrite with clock.
      rewrite update_move_time_reaches.
      pose proof (Q.le_min_l (print_time s + DRIP_SEGMENT_TIME) npt). lra.
    + tauto.
    + tauto.
Qed.

(** X19.  On a toolhead that can pause, with an MCU clock estimate that
    does not go back, [_update_drip_move_time] feeds the steps of a
    homing move in small portions: if [print_time] starts no more than
    [DRIP_TIME + move_flush_time + kin_flush_delay] plus one
    [DRIP_SEGMENT_TIME] ahead of the estimated print time, it is no
    further ahead in whatever state the call ends, and when the call
    returns [print_time] has reached [next_print_time]. *)
Theorem drip_feed_stays_close (next_print_time : Q) (s : ToolHead) :
  let flush_delay := DRIP_TIME + move_flush_time s + kin_flush_delay s in
  can_pause s = true ->
  drip_close flush_delay s ->
  match _update_drip_move_time next_print_time s with
  | Ok _ s' => drip_close flush_delay s' /\ next_print_time <= print_time s'
  | Raise _ s' => drip_close flush_delay s'
  | Timeout s' => drip_close flush_delay s'
  end.
Proof.
  cbv zeta. intros Hcp Hc.
  assert (Hw : wp (_update_drip_move_time next_print_time)
    (fun _ s' =>
       drip_close (DRIP_TIME + move_flush_time s + kin_flush_delay s) s'
       /\ next_print_time <= print_time s')
    (fun _ s' =>
       drip_close (DRIP_TIME + move_flush_time s + kin_flush_delay s) s') s).
  { unfold _update_drip_move_time. do 2 (apply wp_bind; apply wp_gets).
    eapply wp_mono; [ apply drip_loop_close; assumption | | ]; cbv beta;
      tauto. }
  apply wp_run in Hw.
  destruct (_update_drip_move_time next_print_time s); exact Hw.
Qed.

End DripFeed.

Section DripFeedExamples.

#[local] Existing Instance demo_extern.

Lemma demo_clock_estimate_monotone : clock_estimate_monotone.
Proof. intros a b Hab. exact Hab. Qed.

Lemma drip_feed_stays_close_witness :
  let s := set_drip_completion (Some (fun _ => false)) (demo_toolhead 0) in
  match _update_drip_move_time 0.2 s with
  | Ok _ s' =>
      drip_close (DRIP_TIME + move_flush_time s + kin_flush_delay s) s'
      /\ 0.2 <= print_time s'
  | Raise _ s' =>
      drip_close (DRIP_TIME + move_flush_time s + kin_flush_delay s) s'
  | Timeout s' =>
      drip_close (DRIP_TIME + move_flush_time s + kin_flush_delay s) s'
  end.
Proof.
  intros s.
  apply (drip_feed_stays_close demo_clock_estimate_monotone 0.2 s);
    vm_compute; [reflexivity | discriminate].
Defined.

End DripFeedExamples.

(** ** Velocity limits *)

Section VelocityLimits.

Context `{Extern}.

Lemma cmd_SET_VELOCITY_LIMIT_wp gcmd s :
  wp (cmd_SET_VELOCITY_LIMIT gcmd)
     (fun _ s' =>
        SET_VELOCITY_LIMIT_applied gcmd s s'
        /\ ~ max_accel s' == 0
        /\ junction_deviation s'
           = square_corner_velocity s' * square_corner_velocity s'
             * (sqrt2 - 1) / max_accel s'
        /\ max_accel_to_decel s'
           = Qmin (requested_accel_to_decel s') (max_accel s'))
     (fun oe s' =>
        match oe with
        | Some (gcmd_error _) =>
            s' = set_qmode_flag (custom_macro_qmode_flag (printer s)) s
        | Some ZeroDivisionError =>
            SET_VELOCITY_LIMIT_applied gcmd s s' /\ max_accel s' == 0
        | _ => True
        end) s.
Proof.
  unfold cmd_SET_VELOCITY_LIMIT, get_float_above, get_float_minval,
    _calc_junction_deviation, da_store, SET_VELOCITY_LIMIT_applied.
  wp_runs_plain; try exact I; try reflexivity.
  all: repeat match goal with
         | E : Qeq_bool _ 0 = true |- _ => apply Qeq_bool_iff in E
         | E : Qeq_bool _ 0 = false |- _ => apply Qeq_bool_neq in E
         end.
  all: repeat split; try reflexivity; try assumption.
  all: cbn [fst snd];
    repeat match goal with
      | E : _ && _ = _ |- _ => rewrite E
      | E : Qlt_bool _ _ = _ |- _ => rewrite E
      end;
    try reflexivity.
Qed.

(** X20.  When [SET_VELOCITY_LIMIT] returns, each limit whose parameter
    was given has the new value, capped as the code caps it (the accelerations by
    the Q-mode values while Q-mode is on, the square corner velocity by
    [square_corner_max_velocity]), the others are as before, and the
    junction deviation and [max_accel_to_decel] are recomputed from the
    new limits. *)
Theorem set_velocity_limit_applies (gcmd : gmap string Q) (s : ToolHead) :
  match cmd_SET_VELOCITY_LIMIT gcmd s with
  | Ok _ s' =>
      SET_VELOCITY_LIMIT_applied gcmd s s'
      /\ junction_deviation s'
         = square_corner_velocity s' * square_corner_velocity s'
           * (sqrt2 - 1) / max_accel s'
      /\ max_accel_to_decel s'
         = Qmin (requested_accel_to_decel s') (max_accel s')
  | _ => True
  end.
Proof.
  pose proof (wp_run _ _ _ _ (cmd_SET_VELOCITY_LIMIT_wp gcmd s)) as Hw.
  destruct (cmd_SET_VELOCITY_LIMIT gcmd s); try exact I. tauto.
Qed.

(** X21.  [SET_VELOCITY_LIMIT] checks all four parameters before it
    changes a limit: when one of them is rejected, the toolhead is as it
    was, but for the Q-mode flag it has read. *)
Theorem set_velocity_limit_rejects_before_change (gcmd : gmap string Q)
    (s s' : ToolHead) (param : string) :
  cmd_SET_VELOCITY_LIMIT gcmd s = Raise (gcmd_error param) s' ->
  s' = set_qmode_flag (custom_macro_qmode_flag (printer s)) s.
Proof.
  intros Hrun.
  pose proof (wp_run _ _ _ _ (cmd_SET_VELOCITY_LIMIT_wp gcmd s)) as Hw.
  rewrite Hrun in Hw. exact Hw.
Qed.


(** X22.  With Q-mode on but no [gcode_macro Qmode] section in the
    configuration, the cap on the acceleration is 0:
    [SET_VELOCITY_LIMIT ACCEL=a] then sets [max_accel] and slot 0 of the
    planner's buffer to 0 and fails with [ZeroDivisionError] when it
    recomputes the junction deviation. *)
Theorem set_velocity_limit_qmode_without_section (a : Q) (s : ToolHead) :
  custom_macro_qmode_flag (printer s) = true ->
  Qmode_section (printer s) = None ->
  0 < a ->
  (0 < length (double_array s))%nat ->
  exists s',
    cmd_SET_VELOCITY_LIMIT {[ "ACCEL" := a ]} s = Raise ZeroDivisionError s'
    /\ max_accel s' = 0
    /\ double_array s' !! 0%nat = Some 0.
Proof.
  intros Hq Hs Ha Hl.
  assert (Hw : wp (cmd_SET_VELOCITY_LIMIT {[ "ACCEL" := a ]})
                 (fun _ _ => False)
                 (fun oe s' => oe = Some ZeroDivisionError
                               /\ max_accel s' = 0
                               /\ double_array s' !! 0%nat = Some 0) s).
  { unfold cmd_SET_VELOCITY_LIMIT, get_float_above, get_float_minval,
      _calc_junction_deviation, da_store.
    rewrite !lookup_singleton_ne by discriminate.
    rewrite lookup_singleton_eq.
    apply wp_bind, wp_gets. apply wp_bind, wp_modify. rewrite Hs.
    cbv beta iota. st_simpl. rewrite Hq.
    assert (E1 : Qle_bool a 0 = false) by (apply Qle_bool_false; exact Ha).
    assert (E2 : Qlt_bool 0 a = true) by (apply Qlt_bool_true; exact Ha).
    assert (E3 : (0 <? length (double_array s))%nat = true)
      by (apply Nat.ltb_lt; exact Hl).
    rewrite E1.
    wp_runs_plain; try discriminate.
    all: rewrite ?Hq, ?E2, ?E3 in *; try discriminate.
    split; [reflexivity|]. split; [reflexivity|].
    apply list_lookup_insert_eq. exact Hl. }
  apply wp_run in Hw.
  destruct (cmd_SET_VELOCITY_LIMIT {[ "ACCEL" := a ]} s) as [u s'|e s'|s'].
  - contradiction.
  - destruct Hw as ([= ->] & Hm & Hd). exists s'. auto.
  - destruct Hw as ([=] & _).
Qed.

End VelocityLimits.

Section VelocityLimitExamples.

#[local] Existing Instance demo_extern.

Lemma set_velocity_limit_rejects_before_change_witness :
  let gcmd : gmap string Q := {[ "VELOCITY" := 200; "ACCEL" := -1 ]} in
  let s := demo_toolhead 0 in
  st (cmd_SET_VELOCITY_LIMIT gcmd s) = set_qmode_flag false s.
Proof.
  intros gcmd s.
  apply (set_velocity_limit_rejects_before_change gcmd s
           (st (cmd_SET_VELOCITY_LIMIT gcmd s)) "ACCEL").
  vm_compute. reflexivity.
Defined.

Lemma set_velocity_limit_qmode_without_section_witness :
  let pr := {|
    all_mcus := [0%nat];
    kin_class_name := "CoreXYKinematics";
    kin_status_for_record_z_pos := false;
    kin_homed_axes := "xyz";
    kin_limits := [(0, 350); (0, 350); (0, 350)];
    print_stats_state := Some "standby";
    custom_macro_qmode_flag := true;
    Qmode_section := None;
    print_file_exists := None
  |} in
  let s := set_printer pr (demo_toolhead 0) in
  exists s',
    cmd_SET_VELOCITY_LIMIT {[ "ACCEL" := 5000 ]} s
    = Raise ZeroDivisionError s'
    /\ max_accel s' = 0
    /\ double_array s' !! 0%nat = Some 0.
Proof.
  intros pr s.
  apply (set_velocity_limit_qmode_without_section 5000 s);
    try (vm_compute; reflexivity).
  vm_compute. lia.
Defined.

End VelocityLimitExamples.

(** ** After a shutdown *)

Section PauseEvents.

Context `{Extern}.

Lemma filter_clock_events (f : Event -> bool) (evs : list Event) :
  (forall e, is_clock_event e = true -> f e = false) ->
  forallb is_clock_event evs = true ->
  List.filter f evs = [].
Proof.
  intros Hf. induction evs as [|e evs IH]; cbn [forallb List.filter];
    [reflexivity|].
  intros Hc. apply andb_true_iff in Hc. destruct Hc as [He Hc].
  rewrite (Hf e He). apply IH, Hc.
Qed.

Lemma forallb_clock_map_sg (t : Q) (l : list StepGen) :
  forallb is_clock_event (map (fun sg => Ev_step_generator sg t) l) = true.
Proof. induction l; simpl; auto. Qed.

Lemma forallb_clock_map_mcu (t : Q) (l : list Mcu) :
  forallb is_clock_event (map (fun m => Ev_mcu_flush_moves m t) l) = true.
Proof. induction l; simpl; auto. Qed.

Lemma body_events npt kfd lkft s :
  exists evs,
    events (update_move_time_body npt kfd lkft s) = events s ++ evs
    /\ forallb is_clock_event evs = true.
Proof.
  unfold update_move_time_body, log_all, log. st_simpl.
  eexists. split; [rewrite <- !app_assoc; reflexivity|].
  rewrite !forallb_app, forallb_clock_map_sg, forallb_clock_map_mcu.
  reflexivity.
Qed.

Lemma update_move_time_events npt s :
  exists evs,
    events (_update_move_time npt s) = events s ++ evs
    /\ forallb is_clock_event evs = true.
Proof.
  unfold _update_move_time.
  generalize (update_move_time_passes npt s) as n.
  generalize (kin_flush_delay s) as kfd.
  generalize (last_kin_flush_time s) as lkft. intros lkft kfd n.
  revert s. induction n as [|n IH]; intros s; cbn [update_move_time_loop].
  - destruct (Qle_bool _ _); apply body_events.
  - destruct (Qle_bool _ _); [apply body_events|].
    destruct (body_events npt kfd lkft s) as (e1 & H1 & C1).
    destruct (IH (update_move_time_body npt kfd lkft s)) as (e2 & H2 & C2).
    exists (e1 ++ e2). rewrite H2, H1, <- app_assoc. split; [reflexivity|].
    rewrite forallb_app, C1, C2. reflexivity.
Qed.

Lemma calc_print_time_events s :
  exists evs,
    events (_calc_print_time s) = events s ++ evs
    /\ forallb is_clock_event evs = true.
Proof.
  unfold _calc_print_time. destruct (Qlt_bool _ _).
  - unfold log. st_simpl. eexists. split; reflexivity.
  - exists []. rewrite app_nil_r. split; reflexivity.
Qed.

Lemma pauses_update_move_time npt s :
  List.filter is_pause (events (_update_move_time npt s))
  = List.filter is_pause (events s).
Proof. destruct (update_move_time_events npt s) as (evs & -> & Hc).
  rewrite List.filter_app, (filter_clock_events is_pause evs), app_nil_r;
    [reflexivity | | exact Hc].
  intros []; simpl; congruence.
Qed.

Lemma pauses_calc_print_time s :
  List.filter is_pause (events (_calc_print_time s))
  = List.filter is_pause (events s).
Proof. destruct (calc_print_time_events s) as (evs & -> & Hc).
  rewrite List.filter_app, (filter_clock_events is_pause evs), app_nil_r;
    [reflexivity | | exact Hc].
  intros []; simpl; congruence.
Qed.

End PauseEvents.

#[global] Hint Rewrite @pauses_update_move_time @pauses_calc_print_time
  : clock.

Ltac cannot_pause_prim :=
  idtac;
  match goal with
  | HI : cannot_pause ?k ?x |- cannot_pause ?k ?e =>
      match e with context [x] => idtac end;
      try exact HI;
      repeat match goal with
        | HI' : cannot_pause _ ?y |- _ =>
            tryif constr_eq x y then fail else clear HI'
        end;
      let Hc := fresh "Hc" in let Hp := fresh "Hp" in
      destruct HI as (Hc & Hp);
      first
        [ exfalso;
          repeat match goal with
            | E : context [can_pause x] |- _ => rewrite Hc in E
            end;
          rewrite ?andb_false_r in *; cbn [negb] in *; discriminate
        | unfold cannot_pause, pauses in *; st_simpl;
          repeat (progress autorewrite with clock; st_simpl);
          split; [ first [ exact Hc | reflexivity ] | ];
          rewrite ?List.filter_app; cbn [List.filter is_pause];
          rewrite ?app_nil_r; exact Hp ]
  end.

(** No pause is reached on a toolhead that cannot pause. *)
Ltac cannot_pause_absurd :=
  exfalso;
  match goal with
  | HI : cannot_pause _ ?x, E : negb (can_pause ?x) = false |- _ =>
      let Hc := fresh "Hc" in
      destruct HI as [Hc _]; rewrite Hc in E; discriminate
  end.

Ltac npi calls :=
  match goal with
  | |- wp _ (fun _ => ?I) _ _ =>
      inv_auto ltac:(idtac; inv_cut I) I ltac:(idtac; cannot_pause_prim)
        calls
  end.

Tactic Notation "npi_by" uconstr(lem) := inv_by lem cannot_pause_prim.

Section NoPause.

Context `{Extern}.

Variable k : list Event.

Lemma cannot_pause_drip_loop n npt fd s :
  cannot_pause k s ->
  wp (update_drip_move_time_loop n npt fd)
     (fun _ => cannot_pause k) (fun _ => cannot_pause k) s.
Proof.
  revert s. induction n as [|n IH]; intros s HI;
    cbn [update_drip_move_time_loop];
    unfold update_drip_move_time_body, completion_wait.
  - npi idtac.
  - npi ltac:(idtac; apply IH; assumption).
Qed.

Lemma cannot_pause_process_moves moves s :
  cannot_pause k s ->
  wp (_process_moves moves)
     (fun _ => cannot_pause k) (fun _ => cannot_pause k) s.
Proof.
  intros HI. unfold _process_moves, _update_drip_move_time.
  npi ltac:(idtac; npi_by cannot_pause_drip_loop).
Qed.


Lemma cannot_pause_MoveQueue_flush lazy s :
  cannot_pause k s ->
  wp (MoveQueue_flush lazy)
     (fun _ => cannot_pause k) (fun _ => cannot_pause k) s.
Proof.
  intros HI. unfold MoveQueue_flush.
  npi ltac:(idtac; npi_by cannot_pause_process_moves).
Qed.

Lemma cannot_pause_MoveQueue_reset s :
  cannot_pause k s ->
  wp MoveQueue_reset (fun _ => cannot_pause k) (fun _ => cannot_pause k) s.
Proof. intros HI. unfold MoveQueue_reset. npi idtac. Qed.

Lemma cannot_pause_MoveQueue_add_move mv s :
  cannot_pause k s ->
  wp (MoveQueue_add_move mv)
     (fun _ => cannot_pause k) (fun _ => cannot_pause k) s.
Proof.
  intros HI. unfold MoveQueue_add_move.
  npi ltac:(idtac; npi_by cannot_pause_MoveQueue_flush).
Qed.

Lemma cannot_pause_flush_step_generation s :
  cannot_pause k s ->
  wp flush_step_generation
     (fun _ => cannot_pause k) (fun _ => cannot_pause k) s.
Proof.
  intros HI. unfold flush_step_generation, MoveQueue_set_flush_time.
  npi ltac:(idtac; npi_by cannot_pause_MoveQueue_flush).
Qed.

Lemma cannot_pause_flush_lookahead s :
  cannot_pause k s ->
  wp _flush_lookahead (fun _ => cannot_pause k) (fun _ => cannot_pause k) s.
Proof.
  intros HI. unfold _flush_lookahead.
  npi ltac:(first [ idtac; npi_by cannot_pause_flush_step_generation
                  | npi_by cannot_pause_MoveQueue_flush ]).
Qed.

Lemma cannot_pause_get_last_move_time s :
  cannot_pause k s ->
  wp get_last_move_time (fun _ => cannot_pause k) (fun _ => cannot_pause k) s.
Proof.
  intros HI. unfold get_last_move_time.
  npi ltac:(idtac; npi_by cannot_pause_flush_lookahead).
Qed.

Lemma cannot_pause_flush_handler eventtime s :
  cannot_pause k s ->
  wp (_flush_handler eventtime)
     (fun _ => cannot_pause k) (fun _ => cannot_pause k) s.
Proof.
  intros HI. unfold _flush_handler.
  npi ltac:(idtac; npi_by cannot_pause_flush_step_generation).
Qed.

Lemma cannot_pause_run_flush_timer n waketime s :
  cannot_pause k s ->
  wp (run_flush_timer n waketime)
     (fun _ => cannot_pause k) (fun _ => cannot_pause k) s.
Proof.
  revert s. induction n as [|n IH]; intros s HI; cbn [run_flush_timer].
  - npi idtac.
  - npi ltac:(first [ idtac; apply IH; assumption
                    | idtac; npi_by cannot_pause_flush_handler ]).
Qed.

Lemma cannot_pause_check_stall_loop n eventtime s :
  cannot_pause k s ->
  wp (check_stall_loop n eventtime)
     (fun _ => cannot_pause k) (fun _ => cannot_pause k) s.
Proof.
  revert eventtime s. induction n as [|n IH]; intros eventtime s HI;
    cbn [check_stall_loop].
  - npi idtac.
  - npi ltac:(first [ idtac; apply IH; assumption
                    | idtac; cannot_pause_absurd ]).
Qed.

Lemma cannot_pause_check_stall s :
  cannot_pause k s ->
  wp _check_stall (fun _ => cannot_pause k) (fun _ => cannot_pause k) s.
Proof.
  intros HI. unfold _check_stall.
  npi ltac:(idtac; npi_by cannot_pause_check_stall_loop).
Qed.



Lemma cannot_pause_mirror_commanded_pos s :
  cannot_pause k s ->
  wp mirror_commanded_pos (fun _ => cannot_pause k) (fun _ => cannot_pause k) s.
Proof. intros HI. unfold mirror_commanded_pos, index, da_store. npi idtac. Qed.

Lemma cannot_pause_set_position newpos homing_axes s :
  cannot_pause k s ->
  wp (set_position newpos homing_axes)
     (fun _ => cannot_pause k) (fun _ => cannot_pause k) s.
Proof.
  intros HI. unfold set_position, index.
  npi ltac:(first [ idtac; npi_by cannot_pause_flush_step_generation
                  | idtac; npi_by cannot_pause_mirror_commanded_pos ]).
Qed.

Lemma cannot_pause_record_z_pos z s :
  cannot_pause k s ->
  wp (record_z_pos z) (fun _ => cannot_pause k) (fun _ => cannot_pause k) s.
Proof. intros HI. unfold record_z_pos, record_z_pos_write. npi idtac. Qed.

Lemma cannot_pause_check_move_out_of_range ep s :
  cannot_pause k s ->
  wp (check_move_out_of_range ep)
     (fun _ => cannot_pause k) (fun _ => cannot_pause k) s.
Proof. intros HI. unfold check_move_out_of_range, index. npi idtac. Qed.

Lemma cannot_pause_after_PyMove newpos mv s :
  cannot_pause k s ->
  wp (after_PyMove newpos mv)
     (fun _ => cannot_pause k) (fun _ => cannot_pause k) s.
Proof.
  intros HI. unfold after_PyMove, index.
  npi ltac:(first [ idtac; npi_by cannot_pause_check_move_out_of_range
                  | idtac; npi_by cannot_pause_MoveQueue_add_move
                  | idtac; npi_by cannot_pause_check_stall ]).
Qed.

Lemma cannot_pause_call_PyMove s :
  cannot_pause k s ->
  wp call_PyMove (fun _ => cannot_pause k) (fun _ => cannot_pause k) s.
Proof. intros HI. unfold call_PyMove, da_store. npi idtac. Qed.

Lemma cannot_pause_simple_move newpos s :
  cannot_pause k s ->
  wp (simple_move newpos) (fun _ => cannot_pause k) (fun _ => cannot_pause k) s.
Proof.
  intros HI. unfold simple_move, simple_move_until_PyMove, index.
  npi ltac:(first [ idtac; npi_by cannot_pause_record_z_pos
                  | idtac; npi_by cannot_pause_call_PyMove
                  | idtac; npi_by cannot_pause_after_PyMove ]).
Qed.

Lemma cannot_pause_move newpos speed s :
  cannot_pause k s ->
  wp (move newpos speed) (fun _ => cannot_pause k) (fun _ => cannot_pause k) s.
Proof.
  intros HI. unfold move, move_until_PyMove, index, da_store.
  npi ltac:(first [ idtac; npi_by cannot_pause_record_z_pos
                  | idtac; npi_by cannot_pause_mirror_commanded_pos
                  | idtac; npi_by cannot_pause_call_PyMove
                  | idtac; npi_by cannot_pause_after_PyMove ]).
Qed.

Lemma cannot_pause_manual_move_fill coord i curpos s :
  cannot_pause k s ->
  wp (manual_move_fill coord i curpos)
     (fun _ => cannot_pause k) (fun _ => cannot_pause k) s.
Proof.
  revert i curpos. induction coord as [|[c|] coord IH]; intros i curpos HI;
    cbn [manual_move_fill].
  - npi idtac.
  - npi ltac:(idtac; apply IH; assumption).
  - apply IH; assumption.
Qed.

Lemma cannot_pause_manual_move coord speed s :
  cannot_pause k s ->
  wp (manual_move coord speed)
     (fun _ => cannot_pause k) (fun _ => cannot_pause k) s.
Proof.
  intros HI. unfold manual_move.
  npi ltac:(first [ idtac; npi_by cannot_pause_manual_move_fill
                  | idtac; npi_by cannot_pause_move ]).
Qed.

Lemma cannot_pause_dwell delay s :
  cannot_pause k s ->
  wp (dwell delay) (fun _ => cannot_pause k) (fun _ => cannot_pause k) s.
Proof.
  intros HI. unfold dwell.
  npi ltac:(first [ idtac; npi_by cannot_pause_get_last_move_time
                  | idtac; npi_by cannot_pause_check_stall ]).
Qed.

Lemma cannot_pause_wait_moves_loop n eventtime s :
  cannot_pause k s ->
  wp (wait_moves_loop n eventtime)
     (fun _ => cannot_pause k) (fun _ => cannot_pause k) s.
Proof.
  revert eventtime s. induction n as [|n IH]; intros eventtime s HI;
    cbn [wait_moves_loop].
  - npi idtac.
  - npi ltac:(first [ idtac; apply IH; assumption
                    | idtac; cannot_pause_absurd ]).
Qed.

Lemma cannot_pause_wait_moves s :
  cannot_pause k s ->
  wp wait_moves (fun _ => cannot_pause k) (fun _ => cannot_pause k) s.
Proof.
  intros HI. unfold wait_moves.
  npi ltac:(first [ idtac; npi_by cannot_pause_flush_lookahead
                  | idtac; npi_by cannot_pause_wait_moves_loop ]).
Qed.

Lemma cannot_pause_set_extruder name lp has_info extrude_pos s :
  cannot_pause k s ->
  wp (set_extruder name lp has_info extrude_pos)
     (fun _ => cannot_pause k) (fun _ => cannot_pause k) s.
Proof. intros HI. unfold set_extruder, da_store. npi idtac. Qed.

Lemma cannot_pause_drip_move newpos speed dc s :
  cannot_pause k s ->
  wp (drip_move newpos speed dc)
     (fun _ => cannot_pause k) (fun _ => cannot_pause k) s.
Proof.
  intros HI. unfold drip_move, MoveQueue_set_flush_time.
  npi ltac:(first [ idtac; npi_by cannot_pause_dwell
                  | idtac; npi_by cannot_pause_MoveQueue_flush
                  | idtac; npi_by cannot_pause_MoveQueue_reset
                  | idtac; npi_by cannot_pause_move
                  | idtac; npi_by cannot_pause_flush_step_generation ]).
Qed.

Lemma cannot_pause_handle_shutdown s :
  cannot_pause k s ->
  wp _handle_shutdown (fun _ => cannot_pause k) (fun _ => cannot_pause k) s.
Proof.
  intros HI. unfold _handle_shutdown.
  npi ltac:(idtac; npi_by cannot_pause_MoveQueue_reset).
Qed.

Lemma cannot_pause_register_lookahead_callback cb s :
  cannot_pause k s ->
  wp (register_lookahead_callback cb)
     (fun _ => cannot_pause k) (fun _ => cannot_pause k) s.
Proof.
  intros HI. unfold register_lookahead_callback, MoveQueue_get_last.
  npi ltac:(idtac; npi_by cannot_pause_get_last_move_time).
Qed.


Lemma cannot_pause_calc_junction_deviation s :
  cannot_pause k s ->
  wp _calc_junction_deviation
     (fun _ => cannot_pause k) (fun _ => cannot_pause k) s.
Proof.
  intros HI. unfold _calc_junction_deviation, da_store. npi idtac.
Qed.

Lemma cannot_pause_note_step_generation_scan_time delay old_delay s :
  cannot_pause k s ->
  wp (note_step_generation_scan_time delay old_delay)
     (fun _ => cannot_pause k) (fun _ => cannot_pause k) s.
Proof.
  intros HI. unfold note_step_generation_scan_time.
  inv_cut (cannot_pause k).
  - apply cannot_pause_flush_step_generation, HI.
  - clear HI. npi idtac.
Qed.

Lemma cannot_pause_cmd_SET_VELOCITY_LIMIT gcmd s :
  cannot_pause k s ->
  wp (cmd_SET_VELOCITY_LIMIT gcmd)
     (fun _ => cannot_pause k) (fun _ => cannot_pause k) s.
Proof.
  intros HI.
  unfold cmd_SET_VELOCITY_LIMIT, get_float_above, get_float_minval, da_store.
  npi ltac:(idtac; npi_by cannot_pause_calc_junction_deviation).
Qed.

Lemma cannot_pause_M204_set_accel accel cmd s :
  cannot_pause k s ->
  wp (M204_set_accel accel cmd)
     (fun _ => cannot_pause k) (fun _ => cannot_pause k) s.
Proof.
  intros HI. unfold M204_set_accel, da_store.
  npi ltac:(idtac; npi_by cannot_pause_calc_junction_deviation).
Qed.

Lemma cannot_pause_cmd_M204 gcmd s :
  cannot_pause k s ->
  wp (cmd_M204 gcmd) (fun _ => cannot_pause k) (fun _ => cannot_pause k) s.
Proof.
  intros HI. unfold cmd_M204, get_float_above.
  npi ltac:(idtac; npi_by cannot_pause_M204_set_accel).
Qed.

Lemma cannot_pause_cmd_G4 gcmd s :
  cannot_pause k s ->
  wp (cmd_G4 gcmd) (fun _ => cannot_pause k) (fun _ => cannot_pause k) s.
Proof.
  intros HI. unfold cmd_G4, get_float_minval.
  npi ltac:(idtac; npi_by cannot_pause_dwell).
Qed.

Lemma cannot_pause_run_op op s :
  cannot_pause k s ->
  wp (run_op op) (fun _ => cannot_pause k) (fun _ => cannot_pause k) s.
Proof.
  intros HI. destruct op; cbn [run_op].
  - apply cannot_pause_move, HI.
  - apply cannot_pause_simple_move, HI.
  - apply cannot_pause_manual_move, HI.
  - apply cannot_pause_dwell, HI.
  - apply cannot_pause_flush_step_generation, HI.
  - npi ltac:(idtac; npi_by cannot_pause_get_last_move_time).
  - npi ltac:(idtac; npi_by cannot_pause_flush_handler).
  - apply cannot_pause_set_position, HI.
  - apply cannot_pause_wait_moves, HI.
  - apply cannot_pause_set_extruder, HI.
  - apply cannot_pause_drip_move, HI.
  - apply cannot_pause_handle_shutdown, HI.
  - unfold register_step_generator. npi idtac.
  - apply cannot_pause_note_step_generation_scan_time, HI.
  - apply cannot_pause_register_lookahead_callback, HI.
  - unfold note_kinematic_activity. npi idtac.
  - unfold cmd_SET_G29_FLAG. npi idtac.
  - apply cannot_pause_cmd_G4, HI.
  - apply cannot_pause_wait_moves, HI.
  - apply cannot_pause_cmd_SET_VELOCITY_LIMIT, HI.
  - apply cannot_pause_cmd_M204, HI.
  - npi idtac.
  - npi idtac.
Qed.


Lemma cannot_pause_run_call c s :
  cannot_pause k s ->
  wp (run_call c) (fun _ => cannot_pause k) (fun _ => cannot_pause k) s.
Proof.
  intros HI. destruct c; cbn [run_call].
  - apply cannot_pause_run_op, HI.
  - unfold ToolHead_set_max_accel, da_store. npi idtac.
  - unfold ToolHead_set_max_velocity, da_store. npi idtac.
  - unfold ToolHead_set_max_accel_to_decel, da_store. npi idtac.
  - unfold check_busy. npi idtac.
Qed.

Lemma cannot_pause_run_calls calls s :
  cannot_pause k s -> cannot_pause k (run_calls calls s).
Proof.
  revert s. induction calls as [|c calls IH]; intros s HI; [exact HI|].
  cbn [run_calls fold_left]. apply IH.
  apply wp_st, cannot_pause_run_call, HI.
Qed.

End NoPause.

Section NoPauseTheorem.

Context `{Extern}.

(** X23.  A shutdown is final: after [_handle_shutdown], whatever
    calls follow and whatever their outcomes, [can_pause] stays
    false and the toolhead never again gives control back to the reactor
    (no [reactor.pause], no [drip_completion.wait]). *)
Theorem shutdown_is_final (calls : list Call) (s : ToolHead) :
  let s1 := st (_handle_shutdown s) in
  can_pause (run_calls calls s1) = false
  /\ pauses (run_calls calls s1) = pauses s.
Proof.
  cbv zeta. apply (cannot_pause_run_calls (pauses s)).
  apply (wp_st _handle_shutdown (cannot_pause (pauses s))).
  unfold _handle_shutdown, MoveQueue_reset.
  wp_runs_plain; split; try reflexivity;
    unfold pauses; st_simpl; rewrite ?List.filter_app;
    cbn [List.filter is_pause]; rewrite ?app_nil_r; reflexivity.
Qed.

End NoPauseTheorem.

(** ** Recording the Z position, scan times, and batches of moves *)

Section Records.

Context `{Extern}.

(** X24.  [record_z_pos(z)] records only while the kinematics are
    active (on a CoreXY printer [get_status_for_record_z_pos()] answers
    true; with other kinematics the Z axis is homed) and [z] is more than
    5 away from the recorded [z_pos]; otherwise it changes nothing.  When
    it records, [z_pos] becomes [z], the position file is written, and
    [print_stats.z_pos] becomes [z] too.  Without a [print_stats] object
    the last step fails after the first two: on a CoreXY printer with
    [AttributeError], with other kinematics silently. *)
Theorem record_z_pos_records_big_steps (z : Q) (s : ToolHead) :
  let pr := printer s in
  let corexy := String.eqb (kin_class_name pr) "CoreXYKinematics" in
  let active :=
    if corexy then kin_status_for_record_z_pos pr
    else match String.index 0 "z" (kin_homed_axes pr) with
         | Some _ => true
         | None => false
         end in
  let recorded := log (Ev_write_z_pos z) (set_z_pos z s) in
  record_z_pos z s
  = if active && Qlt_bool 5 (Qabs (z - z_pos s)) then
      match print_stats_state pr with
      | Some _ => Ok tt (set_print_stats_z_pos z recorded)
      | None => if corexy then Raise AttributeError recorded
                else Ok tt recorded
      end
    else Ok tt s.
Proof.
  cbv zeta.
  unfold record_z_pos, record_z_pos_write, try_except, bind, gets, ret,
    raise, emit, modify.
  destruct (String.eqb (kin_class_name (printer s)) "CoreXYKinematics").
  - destruct (kin_status_for_record_z_pos (printer s)); [|reflexivity].
    cbn [andb].
    destruct (Qlt_bool 5 (Qabs (z - z_pos s))); [|reflexivity].
    st_simpl. destruct (print_stats_state (printer s)); reflexivity.
  - destruct (String.index 0 "z" (kin_homed_axes (printer s)));
      [|reflexivity].
    cbn [andb].
    destruct (Qlt_bool 5 (Qabs (z - z_pos s))); [|reflexivity].
    st_simpl. destruct (print_stats_state (printer s)); reflexivity.
Qed.


Lemma list_max_attained x l : list_max x l = x \/ In (list_max x l) l.
Proof.
  unfold list_max. revert x. induction l as [|y l IH]; intros x; cbn.
  - left. reflexivity.
  - destruct (IH (Qmax x y)) as [He|Hin]; [|right; right; exact Hin].
    rewrite He. destruct (Qmax_cases x y) as [[_ ->]|[_ ->]]; auto.
Qed.

Lemma scan_window_attained kft :
  In (scan_window kft) (kft ++ [SDS_CHECK_TIME]).
Proof.
  unfold scan_window. destruct (kft ++ [SDS_CHECK_TIME]) as [|x l] eqn:E.
  - destruct kft; discriminate.
  - destruct (list_max_attained x l) as [->|Hin]; [left|right]; auto.
Qed.

(** The largest of the registered scan times depends only on which times
    are registered, up to [==]. *)
Lemma scan_window_le k1 k2 :
  (forall a, In a k1 -> exists b, In b k2 /\ a == b) ->
  scan_window k1 <= scan_window k2.
Proof.
  intros Hsub. pose proof (scan_window_attained k1) as Hin.
  destruct (scan_window_covers k2) as [Hs Hall].
  apply in_app_or in Hin. destruct Hin as [Hin|[<-|[]]]; [|exact Hs].
  destruct (Hsub _ Hin) as (b & Hb & ->).
  rewrite Forall_forall in Hall. apply Hall. apply list_elem_of_In. exact Hb.
Qed.

Lemma pop_index_None x l :
  pop_index x l = None -> forall a, In a l -> ~ a == x.
Proof.
  induction l as [|y l IH]; cbn [pop_index]; intros Hp a Hin; [destruct Hin|].
  destruct (Qeq_bool y x) eqn:E; [discriminate|].
  destruct (pop_index x l); [discriminate|].
  destruct Hin as [<-|Hin]; [|apply IH; auto].
  apply Qeq_bool_neq. exact E.
Qed.

(** Unregistering what was registered last takes out one time equal to
    it and leaves, up to [==], the times that were there before. *)
Lemma pop_index_registered d d' kft :
  d' == d ->
  exists r,
    pop_index d (kft ++ [d']) = Some r
    /\ length r = length kft
    /\ (forall a, In a kft -> exists b, In b r /\ a == b)
    /\ (forall b, In b r -> exists a, In a kft /\ b == a).
Proof.
  intros Hd. induction kft as [|y k IH]; cbn [app pop_index].
  - rewrite (Qeq_bool_of_Qeq _ _ Hd). exists []. repeat split.
    + intros a [].
    + intros b [].
  - destruct (Qeq_bool y d) eqn:E.
    + apply Qeq_bool_iff in E. exists (k ++ [d']).
      split; [reflexivity|]. split; [rewrite length_app; cbn; lia|]. split.
      * intros a [<-|Hin].
        -- exists d'. split; [apply in_or_app; right; left; reflexivity|].
           rewrite E, Hd. reflexivity.
        -- exists a. split; [apply in_or_app; left; exact Hin|reflexivity].
      * intros b Hin. apply in_app_or in Hin.
        destruct Hin as [Hin|[<-|[]]].
        -- exists b. split; [right; exact Hin|reflexivity].
        -- exists y. split; [left; reflexivity|]. rewrite E, Hd. reflexivity.
    + destruct IH as (r & -> & Hl & H1 & H2). exists (y :: r).
      split; [reflexivity|]. split; [cbn; lia|]. split.
      * intros a [<-|Hin].
        -- exists y. split; [left; reflexivity|reflexivity].
        -- destruct (H1 a Hin) as (b & Hb & Hab). exists b. auto with datatypes.
      * intros b [<-|Hin].
        -- exists y. split; [left; reflexivity|reflexivity].
        -- destruct (H2 b Hin) as (a & Ha & Hab). exists a. auto with datatypes.
Qed.

Lemma drip_exn_update_drip_move_time_loop n npt fd :
  keeps frame drip_exn (update_drip_move_time_loop n npt fd).
Proof.
  induction n as [|n IH]; cbn [update_drip_move_time_loop];
    unfold update_drip_move_time_body, completion_wait.
  - frame_walk idtac.
  - frame_walk ltac:(exact IH).
Qed.

Lemma drip_exn_process_moves moves :
  keeps frame drip_exn (_process_moves moves).
Proof.
  unfold _process_moves, _update_drip_move_time.
  frame_walk ltac:(apply drip_exn_update_drip_move_time_loop).
Qed.

Lemma drip_exn_MoveQueue_flush lazy :
  keeps frame drip_exn (MoveQueue_flush lazy).
Proof.
  unfold MoveQueue_flush. frame_walk ltac:(apply drip_exn_process_moves).
Qed.

Lemma drip_exn_flush_step_generation :
  keeps frame drip_exn flush_step_generation.
Proof.
  unfold flush_step_generation, MoveQueue_set_flush_time.
  frame_walk ltac:(apply drip_exn_MoveQueue_flush).
Qed.

Lemma note_step_generation_scan_time_wp delay old_delay s :
  wp (note_step_generation_scan_time delay old_delay)
     (fun _ s' =>
        exists k0,
          (if float_true old_delay
           then pop_index old_delay (kin_flush_times s) = Some k0
           else k0 = kin_flush_times s)
          /\ kin_flush_times s'
             = (if float_true delay then k0 ++ [delay] else k0)
          /\ kin_flush_delay s' = scan_window (kin_flush_times s'))
     (fun oe s' =>
        oe = Some ValueError ->
        float_true old_delay = true
        /\ pop_index old_delay (kin_flush_times s) = None
        /\ kin_flush_times s' = kin_flush_times s
        /\ kin_flush_delay s' = kin_flush_delay s) s.
Proof.
  unfold note_step_generation_scan_time.
  wp_call drip_exn_flush_step_generation.
  - match goal with Hf : frame _ _ |- _ =>
      destruct Hf as (_ & _ & Hkfd & Hkft & _) end.
    wp_runs_plain;
      repeat match goal with
        | E : pop_index _ (kin_flush_times _) = _ |- _ =>
            rewrite Hkft in E
        end;
      rewrite ?Hkft; try (intros _; auto; fail).
    all: eexists; split; [first [reflexivity | eassumption]|];
      split; reflexivity.
  - intros [= ->]. contradiction.
  - intros [=].
Qed.

(** X25.  Registering a step generation scan time and later
    unregistering it restores [kin_flush_delay] (on a toolhead whose
    [kin_flush_delay] is the largest registered time, as it always is)
    and the number of registered times; the unregistration finds the
    time, it does not fail with [ValueError]. *)
Theorem scan_time_round_trip (d : Q) (s s1 : ToolHead) :
  ~ d == 0 ->
  kin_flush_delay s = scan_window (kin_flush_times s) ->
  note_step_generation_scan_time d 0 s = Ok tt s1 ->
  match note_step_generation_scan_time 0 d s1 with
  | Ok _ s2 =>
      kin_flush_delay s2 == kin_flush_delay s
      /\ length (kin_flush_times s2) = length (kin_flush_times s)
  | Raise e _ => e <> ValueError
  | Timeout _ => True
  end.
Proof.
  intros Hd Hk Hrun1.
  assert (Ed : float_true d = true)
    by (unfold float_true; rewrite (Qeq_bool_of_not_Qeq _ _ Hd); reflexivity).
  pose proof (wp_run _ _ _ _ (note_step_generation_scan_time_wp d 0 s)) as H1.
  rewrite Hrun1 in H1. change (float_true 0) with false in H1.
  rewrite Ed in H1. destruct H1 as (k0 & -> & Hkft1 & _).
  destruct (pop_index_registered d d (kin_flush_times s) (Qeq_refl d))
    as (r & Hpop & Hlen & Hsub1 & Hsub2).
  pose proof (wp_run _ _ _ _ (note_step_generation_scan_time_wp 0 d s1)) as H2.
  rewrite Hkft1, Hpop, Ed in H2. change (float_true 0) with false in H2.
  destruct (note_step_generation_scan_time 0 d s1) as [u s2|e s2|s2];
    [ | | exact I ].
  - destruct H2 as (k & [= <-] & Hkft2 & Hkfd2).
    rewrite Hkfd2, Hkft2, Hk. split; [|exact Hlen].
    apply Qle_antisym; apply scan_window_le; assumption.
  - intros ->. destruct (H2 eq_refl) as (_ & [=] & _).
Qed.

(** X26.  Unregistering a scan time that is not registered fails with
    [ValueError], after the flush, and leaves the registered times and
    [kin_flush_delay] as they were; [ValueError] has no other cause. *)
Theorem scan_time_unregister_unknown (delay old_delay : Q)
    (s s' : ToolHead) :
  note_step_generation_scan_time delay old_delay s = Raise ValueError s' ->
  ~ old_delay == 0
  /\ (forall a, In a (kin_flush_times s) -> ~ a == old_delay)
  /\ kin_flush_times s' = kin_flush_times s
  /\ kin_flush_delay s' = kin_flush_delay s.
Proof.
  intros Hrun.
  pose proof (wp_run _ _ _ _
    (note_step_generation_scan_time_wp delay old_delay s)) as Hw.
  rewrite Hrun in Hw. destruct (Hw eq_refl) as (Ho & Hp & Hkft & Hkfd).
  split.
  - unfold float_true in Ho. apply negb_true_iff in Ho.
    apply Qeq_bool_neq. exact Ho.
  - split; [apply pop_index_None; exact Hp|]. auto.
Qed.

End Records.

Section RecordExamples.

#[local] Existing Instance demo_extern.

Lemma scan_time_round_trip_witness :
  let s := demo_toolhead 0 in
  let s1 := st (note_step_generation_scan_time 0.002 0 s) in
  kin_flush_delay s1 = 0.002
  /\ match note_step_generation_scan_time 0 0.002 s1 with
     | Ok _ s2 =>
         kin_flush_delay s2 == kin_flush_delay s
         /\ length (kin_flush_times s2) = length (kin_flush_times s)
     | Raise e _ => e <> ValueError
     | Timeout _ => True
     end.
Proof.
  intros s s1. split; [vm_compute; reflexivity|].
  apply (scan_time_round_trip 0.002 s s1).
  - vm_compute. discriminate.
  - vm_compute. reflexivity.
  - vm_compute. reflexivity.
Defined.

Lemma scan_time_unregister_unknown_witness :
  let s := demo_toolhead 0 in
  let s' := st (note_step_generation_scan_time 0 0.002 s) in
  ~ 0.002 == 0
  /\ (forall a, In a (kin_flush_times s) -> ~ a == 0.002)
  /\ kin_flush_times s' = kin_flush_times s
  /\ kin_flush_delay s' = kin_flush_delay s.
Proof.
  intros s s'.
  apply (scan_time_unregister_unknown 0 0.002 s s').
  vm_compute. reflexivity.
Defined.

(** On a CoreXY printer whose kinematics are active, a step from 0 to 10
    is recorded; a step to 3 is not. *)
Lemma record_z_pos_records_big_steps_witness :
  let pr := {|
    all_mcus := [0%nat];
    kin_class_name := "CoreXYKinematics";
    kin_status_for_record_z_pos := true;
    kin_homed_axes := "xyz";
    kin_limits := [(0, 350); (0, 350); (0, 350)];
    print_stats_state := Some "printing";
    custom_macro_qmode_flag := false;
    Qmode_section := None;
    print_file_exists := None
  |} in
  let s := set_printer pr (demo_toolhead 0) in
  record_z_pos 10 s
  = Ok tt (set_print_stats_z_pos 10
             (log (Ev_write_z_pos 10) (set_z_pos 10 s)))
  /\ z_pos (st (record_z_pos 10 s)) = 10
  /\ record_z_pos 3 s = Ok tt s.
Proof.
  intros pr s.
  pose proof (record_z_pos_records_big_steps 10 s) as H10.
  pose proof (record_z_pos_records_big_steps 3 s) as H3.
  cbv zeta in H10, H3.
  split; [exact H10|]. split; [rewrite H10; reflexivity | exact H3].
Defined.

End RecordExamples.

(** ** Edge cases of [set_position] and [_process_moves] *)

Section Edges.

Context `{Extern}.

(** X27.  [set_position] with a position of three coordinates never
    returns, and when it fails with [IndexError] it has already told the
    trapezoid queue and replaced [commanded_pos] by the three
    coordinates. *)
Theorem set_position_three_coordinates (newpos : list Q)
    (homing_axes : list nat) (s : ToolHead) :
  length newpos = 3%nat ->
  match set_position newpos homing_axes s with
  | Ok _ _ => False
  | Raise e s' =>
      e = IndexError ->
      commanded_pos s' = newpos
      /\ exists t x y z,
           last (events s') = Some (Ev_trapq_set_position t x y z)
  | Timeout _ => True
  end.
Proof.
  intros Hlen.
  destruct newpos as [|x [|y [|z [|w l]]]]; try discriminate. clear Hlen.
  assert (Hw : wp (set_position [x; y; z] homing_axes)
    (fun _ _ => False)
    (fun oe s' =>
       oe = Some IndexError ->
       commanded_pos s' = [x; y; z]
       /\ exists t x y z,
            last (events s') = Some (Ev_trapq_set_position t x y z)) s).
  { unfold set_position.
    wp_call drip_exn_flush_step_generation.
    - match goal with Hf : frame _ _ |- _ =>
        destruct Hf as (_ & Hd & _) end.
      unfold mirror_commanded_pos, index, da_store. cbn [lookup list_lookup].
      wp_runs_plain; try discriminate.
      all: intros _; split; [reflexivity|];
        eexists _, _, _, _; apply last_snoc.
    - intros [= ->]. contradiction.
    - intros [=]. }
  apply wp_run in Hw.
  destruct (set_position [x; y; z] homing_axes s) as [u s'|e s'|s'];
    [ exact Hw | | exact I ].
  intros ->. apply Hw. reflexivity.
Qed.


Lemma trapq_appends_update_move_time npt s :
  List.filter is_trapq_append (events (_update_move_time npt s))
  = List.filter is_trapq_append (events s).
Proof.
  destruct (update_move_time_events npt s) as (evs & -> & Hc).
  rewrite List.filter_app, (filter_clock_events is_trapq_append evs),
    app_nil_r; [reflexivity | | exact Hc].
  intros []; simpl; congruence.
Qed.

Lemma trapq_appends_calc_print_time s :
  List.filter is_trapq_append (events (_calc_print_time s))
  = List.filter is_trapq_append (events s).
Proof.
  destruct (calc_print_time_events s) as (evs & -> & Hc).
  rewrite List.filter_app, (filter_clock_events is_trapq_append evs),
    app_nil_r; [reflexivity | | exact Hc].
  intros []; simpl; congruence.
Qed.

Lemma print_time_calc_print_time_main s :
  print_time
    (_calc_print_time
       (set_flush_timer NOW
          (set_need_check_stall (-1) (set_special_queuing_state "" s))))
  = print_time (_calc_print_time s).
Proof.
  unfold _calc_print_time, min_print_time. st_simpl.
  destruct (Qlt_bool (print_time s) _); reflexivity.
Qed.

(** X28.  Outside the "Drip" state a [_process_moves] that returns has
    handed the batch to the trapezoid queue in one call, giving it the
    number of moves and the [print_time] to start from (resynchronised
    first when the toolhead was in a special state); the other calls it
    made are those of stepping the print clock.  It leaves the toolhead
    in the main state with the queue untouched, [print_time] and
    [last_kin_move_time] at the end time the trapezoid queue answered,
    and the extruder's last position as answered when that is below
    109999999. *)
Theorem process_moves_outside_drip (moves : list (Move * list Callback))
    (s s' : ToolHead) :
  special_queuing_state s <> "Drip" ->
  _process_moves moves s = Ok tt s' ->
  let t := if str_true (special_queuing_state s)
           then print_time (_calc_print_time s) else print_time s in
  let r := trapq_append_from_moveq (native s) t (length moves) in
  special_queuing_state s' = ""
  /\ queue s' = queue s
  /\ native s' = fst r
  /\ print_time s' == fst (snd r)
  /\ last_kin_move_time s' = fst (snd r)
  /\ extruder_last_position s'
     = (if Qlt_bool (snd (snd r)) 109999999 then snd (snd r)
        else extruder_last_position s)
  /\ exists before after,
       events s'
       = events s ++ before
         ++ Ev_trapq_append_from_moveq t (length moves) :: after
       /\ forallb is_clock_event before = true
       /\ forallb is_clock_event after = true.
Proof.
  intros Hnd Hrun. cbv zeta.
  assert (Hw : wp (_process_moves moves)
    (fun _ s' =>
       let t := if str_true (special_queuing_state s)
                then print_time (_calc_print_time s) else print_time s in
       let r := trapq_append_from_moveq (native s) t (length moves) in
       native s' = fst r
       /\ print_time s' == fst (snd r)
       /\ last_kin_move_time s' = fst (snd r)
       /\ extruder_last_position s'
          = (if Qlt_bool (snd (snd r)) 109999999 then snd (snd r)
             else extruder_last_position s)
       /\ exists before after,
            events s'
            = events s ++ before
              ++ Ev_trapq_append_from_moveq t (length moves) :: after
            /\ forallb is_clock_event before = true
            /\ forallb is_clock_event after = true)
    (fun _ _ => True) s).
  { unfold _process_moves, _update_drip_move_time. cbv zeta.
    wp_runs; try exact I.
    all: try (exfalso; apply Hnd;
              match goal with
              | E : negb (String.eqb _ "Drip") = false |- _ =>
                  apply negb_false_iff in E; apply String.eqb_eq in E;
                  exact E
              end).
    all: try (match goal with
              | E : str_true (special_queuing_state _) = false |- _ =>
                  st_simpl_in E; congruence
              end).
    all: try (st_simpl_all; congruence).
    all: rewrite ?print_time_calc_print_time_main in *; rewrite ?Ex;
      cbn [fst snd];
      try match goal with
          | E : Qlt_bool _ 109999999 = _ |- _ => rewrite E
          end.
    all: split; [reflexivity|]; split; [apply update_move_time_reaches|];
      split; [reflexivity|]; split; [reflexivity|].
    all: match goal with
         | |- context [events (_update_move_time ?x ?e)] =>
             let evs := fresh "evs" in let Hc := fresh "Hc" in
             destruct (update_move_time_events x e) as (evs & -> & Hc);
             unfold log; st_simpl;
             first
               [ match goal with
                 | |- context [events (_calc_print_time ?y)] =>
                     let evs0 := fresh "evs" in let Hc0 := fresh "Hc" in
                     destruct (calc_print_time_events y)
                       as (evs0 & -> & Hc0);
                     st_simpl; exists evs0, evs
                 end
               | exists [], evs ];
             rewrite <- ?app_assoc; cbn [app];
             split; [reflexivity | split; [assumption || reflexivity
                                          | assumption]]
         end. }
  pose proof (wp_run _ _ _ _
    (wp_conj _ _ _ _ _ _ (process_moves_returns_same_queue moves s Hnd) Hw))
    as Hr.
  rewrite Hrun in Hr. cbv beta zeta in Hr. tauto.
Qed.

End Edges.

Section EdgeExamples.

#[local] Existing Instance demo_extern.

Lemma set_position_three_coordinates_witness :
  let newpos : list Q := [1; 2; 3] in
  exists s',
    set_position newpos [] (demo_toolhead 0) = Raise IndexError s'
    /\ commanded_pos s' = newpos.
Proof.
  intros newpos.
  pose proof (set_position_three_coordinates newpos [] (demo_toolhead 0)
                eq_refl) as Hw.
  exists (st (set_position newpos [] (demo_toolhead 0))).
  assert (Hrun : set_position newpos [] (demo_toolhead 0)
                 = Raise IndexError
                     (st (set_position newpos [] (demo_toolhead 0))))
    by (vm_compute; reflexivity).
  rewrite Hrun in Hw. split; [exact Hrun|]. apply Hw. reflexivity.
Defined.


(** Two moves of one second handed over by a "Flushed" toolhead: the
    clock is resynchronised to 0.25 and the batch ends at 2.25. *)
Lemma process_moves_outside_drip_witness :
  let moves := [(demo_move 1, []); (demo_move 1, [])] in
  let s := demo_toolhead 0 in
  let s' := st (_process_moves moves s) in
  let t := print_time (_calc_print_time s) in
  let r := trapq_append_from_moveq (native s) t (length moves) in
  t == 0.25
  /\ fst (snd r) == 2.25
  /\ special_queuing_state s' = ""
  /\ queue s' = queue s
  /\ print_time s' == fst (snd r)
  /\ last_kin_move_time s' = fst (snd r)
  /\ exists before after,
       events s'
       = events s ++ before
         ++ Ev_trapq_append_from_moveq t (length moves) :: after.
Proof.
  intros moves s s' t r.
  split; [vm_compute; reflexivity|].
  split; [vm_compute; reflexivity|].
  destruct (process_moves_outside_drip moves s s')
    as (Hs & Hq & _ & Hp & Hl & _ & before & after & He & _);
    [ vm_compute; discriminate | vm_compute; reflexivity | ].
  split; [exact Hs|]. split; [exact Hq|]. split; [exact Hp|].
  split; [exact Hl|]. exists before, after. exact He.
Defined.

End EdgeExamples.

(** ** How far [_update_move_time] flushes *)

Section FlushTimes.

Context `{Extern}.

Lemma body_flushed_between npt kfd lkft s :
  0 <= kfd -> 0 <= move_flush_time s ->
  exists evs,
    events (update_move_time_body npt kfd lkft s) = events s ++ evs
    /\ Forall (flushed_between lkft (Qmax lkft (npt - kfd))) evs
    /\ move_flush_time (update_move_time_body npt kfd lkft s)
       = move_flush_time s.
Proof.
  intros Hk Hm. unfold update_move_time_body, log_all, log. st_simpl.
  eexists. split; [rewrite <- !app_assoc; reflexivity|].
  split; [|reflexivity].
  set (pt := Qmin (print_time s + MOVE_BATCH_TIME) npt).
  assert (Hpt : pt <= npt) by apply Q.le_min_r.
  set (sg := Qmax lkft (pt - kfd)).
  assert (Hsg : lkft <= sg /\ sg <= Qmax lkft (npt - kfd)).
  { unfold sg. split; [apply Q.le_max_l|].
    apply Q.max_lub; [apply Q.le_max_l|].
    eapply Qle_trans; [|apply Q.le_max_r]. lra. }
  assert (Hfree : lkft <= Qmax lkft (sg - kfd)
                  /\ Qmax lkft (sg - kfd) <= Qmax lkft (npt - kfd)).
  { split; [apply Q.le_max_l|].
    apply Q.max_lub; [apply Q.le_max_l|]. lra. }
  assert (Hmcu : lkft <= Qmax lkft (sg - move_flush_time s)
                 /\ Qmax lkft (sg - move_flush_time s)
                    <= Qmax lkft (npt - kfd)).
  { split; [apply Q.le_max_l|].
    apply Q.max_lub; [apply Q.le_max_l|]. lra. }
  repeat rewrite Forall_app. repeat split.
  - apply Forall_forall. intros e He. apply list_elem_of_fmap in He.
    destruct He as (sg0 & -> & _). exact Hsg.
  - repeat constructor; apply Hfree.
  - repeat constructor; apply Hfree.
  - apply Forall_forall. intros e He. apply list_elem_of_fmap in He.
    destruct He as (m & -> & _). exact Hmcu.
Qed.

(** X29.  With [kin_flush_delay] and [move_flush_time] not negative,
    every time that [_update_move_time(next_print_time)] hands to a step
    generator, to [trapq_finalize_moves], to the extruder or to an MCU is
    at least [last_kin_flush_time] and at most
    [max(last_kin_flush_time, next_print_time - kin_flush_delay)]:
    nothing is flushed closer to the new print time than
    [kin_flush_delay]. *)
Theorem update_move_time_flushes_behind (next_print_time : Q)
    (s : ToolHead) :
  0 <= kin_flush_delay s ->
  0 <= move_flush_time s ->
  exists evs,
    events (_update_move_time next_print_time s) = events s ++ evs
    /\ Forall (flushed_between (last_kin_flush_time s)
                 (Qmax (last_kin_flush_time s)
                       (next_print_time - kin_flush_delay s))) evs.
Proof.
  intros Hk Hm. unfold _update_move_time.
  generalize (update_move_time_passes next_print_time s) as n.
  generalize Hk. generalize (kin_flush_delay s) as kfd.
  generalize (last_kin_flush_time s) as lkft. intros lkft kfd Hkfd n.
  clear Hk. revert s Hm.
  induction n as [|n IH]; intros s Hm; cbn [update_move_time_loop].
  - destruct (body_flushed_between next_print_time kfd lkft
                s Hkfd Hm) as (evs & He & Hf & _).
    destruct (Qle_bool _ _); exists evs; auto.
  - destruct (body_flushed_between next_print_time kfd lkft
                s Hkfd Hm) as (evs & He & Hf & Hmft).
    destruct (Qle_bool _ _); [exists evs; auto|].
    destruct (IH (update_move_time_body next_print_time kfd lkft s))
      as (evs2 & He2 & Hf2); [rewrite Hmft; exact Hm|].
    exists (evs ++ evs2). rewrite He2, He, <- app_assoc.
    split; [reflexivity|]. apply Forall_app. auto.
Qed.

End FlushTimes.

Section FlushTimesExamples.

#[local] Existing Instance demo_extern.

Lemma update_move_time_flushes_behind_witness :
  let s := demo_toolhead 0 in
  exists evs,
    events (_update_move_time 1 s) = events s ++ evs
    /\ Forall (flushed_between (last_kin_flush_time s)
                 (Qmax (last_kin_flush_time s) (1 - kin_flush_delay s)))
              evs.
Proof.
  intros s. apply (update_move_time_flushes_behind 1 s);
    vm_compute; discriminate.
Defined.

End FlushTimesExamples.

(** ** What the flushing methods can raise *)

Ltac drip_has_completion_prim :=
  idtac;
  match goal with
  | HI : drip_has_completion ?x |- drip_has_completion ?e =>
      match e with context [x] => idtac end;
      try exact HI;
      repeat match goal with
        | HI' : drip_has_completion ?y |- _ =>
            tryif constr_eq x y then fail else clear HI'
        end;
      unfold drip_has_completion in *; st_simpl;
      repeat (progress autorewrite with clock; st_simpl);
      first [ exact HI | discriminate | intros _; discriminate ]
  end.

Ltac dci calls :=
  match goal with
  | |- wp _ (fun _ => ?I) _ _ =>
      inv_auto ltac:(idtac; inv_cut I) I
        ltac:(idtac; drip_has_completion_prim) calls
  end.

Tactic Notation "dci_by" uconstr(lem) :=
  inv_by lem drip_has_completion_prim.

Section DripCompletion.

Context `{Extern}.

Lemma drip_has_completion_drip_loop n npt fd s :
  drip_has_completion s ->
  wp (update_drip_move_time_loop n npt fd)
     (fun _ => drip_has_completion) (fun _ => drip_has_completion) s.
Proof.
  revert s. induction n as [|n IH]; intros s HI;
    cbn [update_drip_move_time_loop];
    unfold update_drip_move_time_body, completion_wait.
  - dci idtac.
  - dci ltac:(idtac; apply IH; assumption).
Qed.

Lemma drip_has_completion_process_moves moves s :
  drip_has_completion s ->
  wp (_process_moves moves)
     (fun _ => drip_has_completion) (fun _ => drip_has_completion) s.
Proof.
  intros HI. unfold _process_moves, _update_drip_move_time.
  dci ltac:(idtac; dci_by drip_has_completion_drip_loop).
Qed.


Lemma drip_has_completion_MoveQueue_flush lazy s :
  drip_has_completion s ->
  wp (MoveQueue_flush lazy)
     (fun _ => drip_has_completion) (fun _ => drip_has_completion) s.
Proof.
  intros HI. unfold MoveQueue_flush.
  dci ltac:(idtac; dci_by drip_has_completion_process_moves).
Qed.

Lemma drip_has_completion_MoveQueue_reset s :
  drip_has_completion s ->
  wp MoveQueue_reset (fun _ => drip_has_completion) (fun _ => drip_has_completion) s.
Proof. intros HI. unfold MoveQueue_reset. dci idtac. Qed.

Lemma drip_has_completion_MoveQueue_add_move mv s :
  drip_has_completion s ->
  wp (MoveQueue_add_move mv)
     (fun _ => drip_has_completion) (fun _ => drip_has_completion) s.
Proof.
  intros HI. unfold MoveQueue_add_move.
  dci ltac:(idtac; dci_by drip_has_completion_MoveQueue_flush).
Qed.

Lemma drip_has_completion_flush_step_generation s :
  drip_has_completion s ->
  wp flush_step_generation
     (fun _ => drip_has_completion) (fun _ => drip_has_completion) s.
Proof.
  intros HI. unfold flush_step_generation, MoveQueue_set_flush_time.
  dci ltac:(idtac; dci_by drip_has_completion_MoveQueue_flush).
Qed.

Lemma drip_has_completion_flush_lookahead s :
  drip_has_completion s ->
  wp _flush_lookahead (fun _ => drip_has_completion) (fun _ => drip_has_completion) s.
Proof.
  intros HI. unfold _flush_lookahead.
  dci ltac:(first [ idtac; dci_by drip_has_completion_flush_step_generation
                  | dci_by drip_has_completion_MoveQueue_flush ]).
Qed.

Lemma drip_has_completion_get_last_move_time s :
  drip_has_completion s ->
  wp get_last_move_time (fun _ => drip_has_completion) (fun _ => drip_has_completion) s.
Proof.
  intros HI. unfold get_last_move_time.
  dci ltac:(idtac; dci_by drip_has_completion_flush_lookahead).
Qed.

Lemma drip_has_completion_flush_handler eventtime s :
  drip_has_completion s ->
  wp (_flush_handler eventtime)
     (fun _ => drip_has_completion) (fun _ => drip_has_completion) s.
Proof.
  intros HI. unfold _flush_handler.
  dci ltac:(idtac; dci_by drip_has_completion_flush_step_generation).
Qed.

Lemma drip_has_completion_run_flush_timer n waketime s :
  drip_has_completion s ->
  wp (run_flush_timer n waketime)
     (fun _ => drip_has_completion) (fun _ => drip_has_completion) s.
Proof.
  revert s. induction n as [|n IH]; intros s HI; cbn [run_flush_timer].
  - dci idtac.
  - dci ltac:(first [ idtac; apply IH; assumption
                    | idtac; dci_by drip_has_completion_flush_handler ]).
Qed.

Lemma drip_has_completion_reactor_pause waketime s :
  drip_has_completion s ->
  wp (reactor_pause waketime)
     (fun _ => drip_has_completion) (fun _ => drip_has_completion) s.
Proof.
  intros HI. unfold reactor_pause.
  dci ltac:(idtac; dci_by drip_has_completion_run_flush_timer).
Qed.

Lemma drip_has_completion_check_stall_loop n eventtime s :
  drip_has_completion s ->
  wp (check_stall_loop n eventtime)
     (fun _ => drip_has_completion) (fun _ => drip_has_completion) s.
Proof.
  revert eventtime s. induction n as [|n IH]; intros eventtime s HI;
    cbn [check_stall_loop].
  - dci idtac.
  - dci ltac:(first [ idtac; apply IH; assumption
                    | idtac; dci_by drip_has_completion_reactor_pause ]).
Qed.

Lemma drip_has_completion_check_stall s :
  drip_has_completion s ->
  wp _check_stall (fun _ => drip_has_completion) (fun _ => drip_has_completion) s.
Proof.
  intros HI. unfold _check_stall.
  dci ltac:(idtac; dci_by drip_has_completion_check_stall_loop).
Qed.



Lemma drip_has_completion_mirror_commanded_pos s :
  drip_has_completion s ->
  wp mirror_commanded_pos (fun _ => drip_has_completion) (fun _ => drip_has_completion) s.
Proof. intros HI. unfold mirror_commanded_pos, index, da_store. dci idtac. Qed.

Lemma drip_has_completion_set_position newpos homing_axes s :
  drip_has_completion s ->
  wp (set_position newpos homing_axes)
     (fun _ => drip_has_completion) (fun _ => drip_has_completion) s.
Proof.
  intros HI. unfold set_position, index.
  dci ltac:(first [ idtac; dci_by drip_has_completion_flush_step_generation
                  | idtac; dci_by drip_has_completion_mirror_commanded_pos ]).
Qed.

Lemma drip_has_completion_record_z_pos z s :
  drip_has_completion s ->
  wp (record_z_pos z) (fun _ => drip_has_completion) (fun _ => drip_has_completion) s.
Proof. intros HI. unfold record_z_pos, record_z_pos_write. dci idtac. Qed.

Lemma drip_has_completion_check_move_out_of_range ep s :
  drip_has_completion s ->
  wp (check_move_out_of_range ep)
     (fun _ => drip_has_completion) (fun _ => drip_has_completion) s.
Proof. intros HI. unfold check_move_out_of_range, index. dci idtac. Qed.

Lemma drip_has_completion_after_PyMove newpos mv s :
  drip_has_completion s ->
  wp (after_PyMove newpos mv)
     (fun _ => drip_has_completion) (fun _ => drip_has_completion) s.
Proof.
  intros HI. unfold after_PyMove, index.
  dci ltac:(first [ idtac; dci_by drip_has_completion_check_move_out_of_range
                  | idtac; dci_by drip_has_completion_MoveQueue_add_move
                  | idtac; dci_by drip_has_completion_check_stall ]).
Qed.

Lemma drip_has_completion_call_PyMove s :
  drip_has_completion s ->
  wp call_PyMove (fun _ => drip_has_completion) (fun _ => drip_has_completion) s.
Proof. intros HI. unfold call_PyMove, da_store. dci idtac. Qed.

Lemma drip_has_completion_simple_move newpos s :
  drip_has_completion s ->
  wp (simple_move newpos) (fun _ => drip_has_completion) (fun _ => drip_has_completion) s.
Proof.
  intros HI. unfold simple_move, simple_move_until_PyMove, index.
  dci ltac:(first [ idtac; dci_by drip_has_completion_record_z_pos
                  | idtac; dci_by drip_has_completion_call_PyMove
                  | idtac; dci_by drip_has_completion_after_PyMove ]).
Qed.

Lemma drip_has_completion_move newpos speed s :
  drip_has_completion s ->
  wp (move newpos speed) (fun _ => drip_has_completion) (fun _ => drip_has_completion) s.
Proof.
  intros HI. unfold move, move_until_PyMove, index, da_store.
  dci ltac:(first [ idtac; dci_by drip_has_completion_record_z_pos
                  | idtac; dci_by drip_has_completion_mirror_commanded_pos
                  | idtac; dci_by drip_has_completion_call_PyMove
                  | idtac; dci_by drip_has_completion_after_PyMove ]).
Qed.

Lemma drip_has_completion_manual_move_fill coord i curpos s :
  drip_has_completion s ->
  wp (manual_move_fill coord i curpos)
     (fun _ => drip_has_completion) (fun _ => drip_has_completion) s.
Proof.
  revert i curpos. induction coord as [|[c|] coord IH]; intros i curpos HI;
    cbn [manual_move_fill].
  - dci idtac.
  - dci ltac:(idtac; apply IH; assumption).
  - apply IH; assumption.
Qed.

Lemma drip_has_completion_manual_move coord speed s :
  drip_has_completion s ->
  wp (manual_move coord speed)
     (fun _ => drip_has_completion) (fun _ => drip_has_completion) s.
Proof.
  intros HI. unfold manual_move.
  dci ltac:(first [ idtac; dci_by drip_has_completion_manual_move_fill
                  | idtac; dci_by drip_has_completion_move ]).
Qed.

Lemma drip_has_completion_dwell delay s :
  drip_has_completion s ->
  wp (dwell delay) (fun _ => drip_has_completion) (fun _ => drip_has_completion) s.
Proof.
  intros HI. unfold dwell.
  dci ltac:(first [ idtac; dci_by drip_has_completion_get_last_move_time
                  | idtac; dci_by drip_has_completion_check_stall ]).
Qed.

Lemma drip_has_completion_wait_moves_loop n eventtime s :
  drip_has_completion s ->
  wp (wait_moves_loop n eventtime)
     (fun _ => drip_has_completion) (fun _ => drip_has_completion) s.
Proof.
  revert eventtime s. induction n as [|n IH]; intros eventtime s HI;
    cbn [wait_moves_loop].
  - dci idtac.
  - dci ltac:(first [ idtac; apply IH; assumption
                    | idtac; dci_by drip_has_completion_reactor_pause ]).
Qed.

Lemma drip_has_completion_wait_moves s :
  drip_has_completion s ->
  wp wait_moves (fun _ => drip_has_completion) (fun _ => drip_has_completion) s.
Proof.
  intros HI. unfold wait_moves.
  dci ltac:(first [ idtac; dci_by drip_has_completion_flush_lookahead
                  | idtac; dci_by drip_has_completion_wait_moves_loop ]).
Qed.

Lemma drip_has_completion_set_extruder name lp has_info extrude_pos s :
  drip_has_completion s ->
  wp (set_extruder name lp has_info extrude_pos)
     (fun _ => drip_has_completion) (fun _ => drip_has_completion) s.
Proof. intros HI. unfold set_extruder, da_store. dci idtac. Qed.

Lemma drip_has_completion_drip_move newpos speed dc s :
  drip_has_completion s ->
  wp (drip_move newpos speed dc)
     (fun _ => drip_has_completion) (fun _ => drip_has_completion) s.
Proof.
  intros HI. unfold drip_move, MoveQueue_set_flush_time.
  dci ltac:(first [ idtac; dci_by drip_has_completion_dwell
                  | idtac; dci_by drip_has_completion_MoveQueue_flush
                  | idtac; dci_by drip_has_completion_MoveQueue_reset
                  | idtac; dci_by drip_has_completion_move
                  | idtac; dci_by drip_has_completion_flush_step_generation ]).
Qed.

Lemma drip_has_completion_handle_shutdown s :
  drip_has_completion s ->
  wp _handle_shutdown (fun _ => drip_has_completion) (fun _ => drip_has_completion) s.
Proof.
  intros HI. unfold _handle_shutdown.
  dci ltac:(idtac; dci_by drip_has_completion_MoveQueue_reset).
Qed.

Lemma drip_has_completion_register_lookahead_callback cb s :
  drip_has_completion s ->
  wp (register_lookahead_callback cb)
     (fun _ => drip_has_completion) (fun _ => drip_has_completion) s.
Proof.
  intros HI. unfold register_lookahead_callback, MoveQueue_get_last.
  dci ltac:(idtac; dci_by drip_has_completion_get_last_move_time).
Qed.


Lemma drip_has_completion_calc_junction_deviation s :
  drip_has_completion s ->
  wp _calc_junction_deviation
     (fun _ => drip_has_completion) (fun _ => drip_has_completion) s.
Proof.
  intros HI. unfold _calc_junction_deviation, da_store. dci idtac.
Qed.

Lemma drip_has_completion_note_step_generation_scan_time delay old_delay s :
  drip_has_completion s ->
  wp (note_step_generation_scan_time delay old_delay)
     (fun _ => drip_has_completion) (fun _ => drip_has_completion) s.
Proof.
  intros HI. unfold note_step_generation_scan_time.
  inv_cut (drip_has_completion).
  - apply drip_has_completion_flush_step_generation, HI.
  - clear HI. dci idtac.
Qed.

Lemma drip_has_completion_cmd_SET_VELOCITY_LIMIT gcmd s :
  drip_has_completion s ->
  wp (cmd_SET_VELOCITY_LIMIT gcmd)
     (fun _ => drip_has_completion) (fun _ => drip_has_completion) s.
Proof.
  intros HI.
  unfold cmd_SET_VELOCITY_LIMIT, get_float_above, get_float_minval, da_store.
  dci ltac:(idtac; dci_by drip_has_completion_calc_junction_deviation).
Qed.

Lemma drip_has_completion_M204_set_accel accel cmd s :
  drip_has_completion s ->
  wp (M204_set_accel accel cmd)
     (fun _ => drip_has_completion) (fun _ => drip_has_completion) s.
Proof.
  intros HI. unfold M204_set_accel, da_store.
  dci ltac:(idtac; dci_by drip_has_completion_calc_junction_deviation).
Qed.

Lemma drip_has_completion_cmd_M204 gcmd s :
  drip_has_completion s ->
  wp (cmd_M204 gcmd) (fun _ => drip_has_completion) (fun _ => drip_has_completion) s.
Proof.
  intros HI. unfold cmd_M204, get_float_above.
  dci ltac:(idtac; dci_by drip_has_completion_M204_set_accel).
Qed.

Lemma drip_has_completion_cmd_G4 gcmd s :
  drip_has_completion s ->
  wp (cmd_G4 gcmd) (fun _ => drip_has_completion) (fun _ => drip_has_completion) s.
Proof.
  intros HI. unfold cmd_G4, get_float_minval.
  dci ltac:(idtac; dci_by drip_has_completion_dwell).
Qed.

Lemma drip_has_completion_run_op op s :
  drip_has_completion s ->
  wp (run_op op) (fun _ => drip_has_completion) (fun _ => drip_has_completion) s.
Proof.
  intros HI. destruct op; cbn [run_op].
  - apply drip_has_completion_move, HI.
  - apply drip_has_completion_simple_move, HI.
  - apply drip_has_completion_manual_move, HI.
  - apply drip_has_completion_dwell, HI.
  - apply drip_has_completion_flush_step_generation, HI.
  - dci ltac:(idtac; dci_by drip_has_completion_get_last_move_time).
  - dci ltac:(idtac; dci_by drip_has_completion_flush_handler).
  - apply drip_has_completion_set_position, HI.
  - apply drip_has_completion_wait_moves, HI.
  - apply drip_has_completion_set_extruder, HI.
  - apply drip_has_completion_drip_move, HI.
  - apply drip_has_completion_handle_shutdown, HI.
  - unfold register_step_generator. dci idtac.
  - apply drip_has_completion_note_step_generation_scan_time, HI.
  - apply drip_has_completion_register_lookahead_callback, HI.
  - unfold note_kinematic_activity. dci idtac.
  - unfold cmd_SET_G29_FLAG. dci idtac.
  - apply drip_has_completion_cmd_G4, HI.
  - apply drip_has_completion_wait_moves, HI.
  - apply drip_has_completion_cmd_SET_VELOCITY_LIMIT, HI.
  - apply drip_has_completion_cmd_M204, HI.
  - dci idtac.
  - dci idtac.
Qed.


Lemma drip_has_completion_run_call c s :
  drip_has_completion s ->
  wp (run_call c) (fun _ => drip_has_completion) (fun _ => drip_has_completion) s.
Proof.
  intros HI. destruct c; cbn [run_call].
  - apply drip_has_completion_run_op, HI.
  - unfold ToolHead_set_max_accel, da_store. dci idtac.
  - unfold ToolHead_set_max_velocity, da_store. dci idtac.
  - unfold ToolHead_set_max_accel_to_decel, da_store. dci idtac.
  - unfold check_busy. dci idtac.
Qed.

Lemma drip_has_completion_run_calls calls s :
  drip_has_completion s -> drip_has_completion (run_calls calls s).
Proof.
  revert s. induction calls as [|c calls IH]; intros s HI; [exact HI|].
  cbn [run_calls fold_left]. apply IH.
  apply wp_st, drip_has_completion_run_call, HI.
Qed.

Lemma drip_has_completion_init mv ma matd scv scmv btl bth bts mft pr fo n
    now z :
  drip_has_completion
    (ToolHead_init mv ma matd scv scmv btl bth bts mft pr fo n now z).
Proof.
  unfold ToolHead_init. apply wp_st.
  apply drip_has_completion_calc_junction_deviation.
  intros Hd. discriminate.
Qed.

End DripCompletion.

Section DripCompletionTheorem.

Context `{Extern}.

(** X30.  Whatever calls have been made on a toolhead since [__init__],
    in every outcome, a toolhead in "Drip" state has a [drip_completion]:
    the test [self.drip_completion.test()] of [_update_drip_move_time] is
    never made on [None]. *)
Theorem drip_state_has_completion
    (mv ma matd scv scmv btl bth bts mft : Q) (pr : Printer) (fo : bool)
    (n : Native) (now z : Q) (calls : list Call) :
  let s := run_calls calls
             (ToolHead_init mv ma matd scv scmv btl bth bts mft pr fo n now z) in
  special_queuing_state s = "Drip" -> drip_completion s <> None.
Proof.
  cbv zeta.
  apply drip_has_completion_run_calls, drip_has_completion_init.
Qed.

End DripCompletionTheorem.

Section DripCompletionExamples.

#[local] Existing Instance demo_extern.

(** A drip move to a position of three coordinates fails in [move] with
    [IndexError], which [drip_move] does not catch: the toolhead is left
    in "Drip" state, with the completion it was given. *)
Lemma drip_state_has_completion_witness :
  let calls := [CallOp (OpDripMove [10; 0; 0] 50 (fun _ => false))] in
  let s := run_calls calls
             (ToolHead_init 300 3000 1500 5 200 1 2 0.250 0.050
                demo_printer false 0 0 0) in
  special_queuing_state s = "Drip" /\ drip_completion s <> None.
Proof.
  intros calls s.
  assert (Hd : special_queuing_state s = "Drip") by (vm_compute; reflexivity).
  split; [exact Hd|].
  apply (@drip_state_has_completion demo_extern
           300 3000 1500 5 200 1 2 0.250 0.050 demo_printer false 0 0 0
           calls).
  exact Hd.
Defined.

End DripCompletionExamples.
